(** * libspeexenc: the libspeex encoder wrapper of libavcodec

    A shallow embedding of [libavcodec/libspeexenc.c]: the private context
    [LibSpeexEncContext], [encode_init], [encode_frame] and [encode_close].
    libspeex itself is an external library and enters as an interface
    ([LibSpeex]); the parts of libav that the file only uses (a few
    constants, the allocator, the time-base conversion) enter as a second
    interface ([Libav]). *)

From Stdlib Require Import ZArith List Bool Lia Sorted.
From Stdlib Require Import Floats.SpecFloat.
From Stdlib Require String Ascii.
Import ListNotations.
Local Open Scope Z_scope.

(* ------------------------------------------------------------------ *)
(** ** C integers *)

Module CInt.

Definition INT_MIN : Z := - 2 ^ 31.
Definition INT_MAX : Z := 2 ^ 31 - 1.
Definition INT64_MIN : Z := - 2 ^ 63.
Definition INT64_MAX : Z := 2 ^ 63 - 1.

(** Two's complement wrap-around of [z] to [w] bits. *)
Definition wrap (w : Z) (z : Z) : Z :=
  (z + 2 ^ (w - 1)) mod 2 ^ w - 2 ^ (w - 1).

(** The value of an [int] expression, and of an [int64_t] one. *)
Definition int (z : Z) : Z := wrap 32 z.
Definition int64 (z : Z) : Z := wrap 64 z.

Definition in_int (z : Z) : Prop := INT_MIN <= z <= INT_MAX.
Definition in_int64 (z : Z) : Prop := INT64_MIN <= z <= INT64_MAX.

End CInt.

(* ------------------------------------------------------------------ *)
(** ** C [float]: IEEE 754 binary32 *)

Module Float32.

Definition prec : Z := 24.
Definition emax : Z := 128.

Definition float : Type := spec_float.

(** Conversion of an integer to [float] (round to nearest, ties to even). *)
Definition of_int (z : Z) : float := binary_normalize prec emax z 0 false.

Definition div (x y : float) : float := SFdiv prec emax x y.
Definition ltb (x y : float) : bool := SFltb x y.
Definition leb (x y : float) : bool := SFleb x y.

(** A finite number other than zero. *)
Definition finite_nonzero (x : float) : bool :=
match x with S754_finite _ _ _ => true | _ => false end.

(** The literals [0.0f] and [10.0f]. *)
Definition zero : float := S754_zero false.
Definition ten : float := of_int 10.

End Float32.

(* ------------------------------------------------------------------ *)
(** ** Return values *)

Inductive errno : Type := EINVAL | ENOMEM.

(** The [int] a function returns: a plain value, or [AVERROR(e)], whose
    number is the platform's and is kept symbolic. *)
Inductive c_ret : Type :=
| Ret (z : Z)
| AVERROR (e : errno).

(* ------------------------------------------------------------------ *)
(** ** libspeex *)

Inductive SpeexMode : Type := speex_nb_mode | speex_wb_mode | speex_uwb_mode.

(** The fields of [SpeexHeader] that the wrapper reads or writes. *)
Module SpeexHeader.
Record t : Type := mk {
  rate : Z;
  mode : Z;
  nb_channels : Z;
  bitrate : Z;
  frame_size : Z;
  vbr : Z;
  frames_per_packet : Z
}.

Definition set_vbr (h : t) (v : Z) : t :=
  mk (rate h) (mode h) (nb_channels h) (bitrate h) (frame_size h) v
     (frames_per_packet h).
Definition set_bitrate (h : t) (v : Z) : t :=
  mk (rate h) (mode h) (nb_channels h) v (frame_size h) (vbr h)
     (frames_per_packet h).
Definition set_frames_per_packet (h : t) (v : Z) : t :=
  mk (rate h) (mode h) (nb_channels h) (bitrate h) (frame_size h) (vbr h) v.
End SpeexHeader.

(** A [speex_encoder_ctl] request together with the value its pointer
    argument points to on entry ([SET] requests); a [GET] request writes
    its answer through the pointer. *)
Inductive speex_request : Type :=
| SPEEX_SET_VBR (v : Z)
| SPEEX_SET_VBR_QUALITY (q : Float32.float)
| SPEEX_SET_ABR (b : Z)
| SPEEX_GET_ABR
| SPEEX_SET_BITRATE (b : Z)
| SPEEX_GET_BITRATE
| SPEEX_SET_QUALITY (q : Z)
| SPEEX_SET_COMPLEXITY (c : Z)
| SPEEX_GET_COMPLEXITY
| SPEEX_GET_LOOKAHEAD.

(** The functions of libspeex that the wrapper calls.  [speex_state] is the
    [void *] encoder state: the pointer together with the object behind it,
    so that a call that changes the encoder returns the new value. *)
Class LibSpeex : Type := {
  speex_state : Type;
  SpeexBits : Type;
  is_null : speex_state -> bool;
  speex_encoder_init : SpeexMode -> speex_state;
  speex_encoder_ctl : speex_state -> speex_request -> speex_state * Z;
  speex_init_header : Z -> Z -> SpeexMode -> SpeexHeader.t;
  speex_header_to_packet : SpeexHeader.t -> list Z;
  speex_bits_init : SpeexBits;
  speex_bits_pack : SpeexBits -> Z -> Z -> SpeexBits;
  speex_bits_nbytes : SpeexBits -> Z;
  speex_bits_write : SpeexBits -> Z -> list Z * Z;
  speex_bits_reset : SpeexBits -> SpeexBits;
  speex_encode_stereo_int : list Z -> Z -> SpeexBits -> list Z * SpeexBits;
  speex_encode_int : speex_state -> list Z -> SpeexBits -> speex_state * SpeexBits
}.

(* ------------------------------------------------------------------ *)
(** ** libav *)

Record AVFrame : Type := { pts : Z }.

Module AVCodecContext.
Record t : Type := mk {
  channels : Z;
  sample_rate : Z;
  flags : Z;
  global_quality : Z;
  bit_rate : Z;
  compression_level : Z;
  frame_size : Z;
  delay : Z;
  time_base : Z * Z;
  extradata : option (list Z);
  extradata_size : Z;
  coded_frame : option AVFrame
}.

Definition set_bit_rate (a : t) (v : Z) : t :=
  mk (channels a) (sample_rate a) (flags a) (global_quality a) v
     (compression_level a) (frame_size a) (delay a) (time_base a)
     (extradata a) (extradata_size a) (coded_frame a).
Definition set_compression_level (a : t) (v : Z) : t :=
  mk (channels a) (sample_rate a) (flags a) (global_quality a) (bit_rate a)
     v (frame_size a) (delay a) (time_base a)
     (extradata a) (extradata_size a) (coded_frame a).
Definition set_frame_size (a : t) (v : Z) : t :=
  mk (channels a) (sample_rate a) (flags a) (global_quality a) (bit_rate a)
     (compression_level a) v (delay a) (time_base a)
     (extradata a) (extradata_size a) (coded_frame a).
Definition set_delay (a : t) (v : Z) : t :=
  mk (channels a) (sample_rate a) (flags a) (global_quality a) (bit_rate a)
     (compression_level a) (frame_size a) v (time_base a)
     (extradata a) (extradata_size a) (coded_frame a).
Definition set_extradata (a : t) (v : option (list Z)) : t :=
  mk (channels a) (sample_rate a) (flags a) (global_quality a) (bit_rate a)
     (compression_level a) (frame_size a) (delay a) (time_base a)
     v (extradata_size a) (coded_frame a).
Definition set_extradata_size (a : t) (v : Z) : t :=
  mk (channels a) (sample_rate a) (flags a) (global_quality a) (bit_rate a)
     (compression_level a) (frame_size a) (delay a) (time_base a)
     (extradata a) v (coded_frame a).
Definition set_coded_frame (a : t) (v : option AVFrame) : t :=
  mk (channels a) (sample_rate a) (flags a) (global_quality a) (bit_rate a)
     (compression_level a) (frame_size a) (delay a) (time_base a)
     (extradata a) (extradata_size a) v.
End AVCodecContext.

(** What [libspeexenc.c] takes from the rest of libav ([avcodec.h],
    [internal.h], [libavutil/mem.h]); none of it is among the sources, so it
    is a parameter of the development.  [av_malloc n] is [None] when the
    allocation fails and otherwise the fresh block of [n] bytes;
    [avcodec_alloc_frame] likewise. *)
Class Libav : Type := {
  CODEC_FLAG_QSCALE : Z;
  FF_QP2LAMBDA : Z;
  FF_COMPRESSION_DEFAULT : Z;
  FF_INPUT_BUFFER_PADDING_SIZE : Z;
  av_malloc : Z -> option (list Z);
  avcodec_alloc_frame : option AVFrame;
  ff_samples_to_time_base : AVCodecContext.t -> Z -> Z
}.

(** Modelled from the spec: [av_clipf] and [av_clip] ([libavutil/common.h])
    are not among the sources; the spec has them clamp a value into the
    closed range given by the two bounds. *)
Definition av_clipf (a amin amax : Float32.float) : Float32.float :=
  if Float32.ltb a amin then amin
  else if Float32.ltb amax a then amax
  else a.

Definition av_clip (a amin amax : Z) : Z :=
  if a <? amin then amin
  else if a >? amax then amax
  else a.

(** A pointer is an [option]: [None] is [NULL]. *)
Definition non_null {T : Type} (p : option T) : bool :=
  match p with Some _ => true | None => false end.

(** [memcpy(dst, src, n)]: the first [n] bytes of [dst] become those of [src]. *)
Definition memcpy (dst src : list Z) (n : Z) : list Z :=
  firstn (Z.to_nat n) src ++ skipn (Z.to_nat n) dst.

(* ------------------------------------------------------------------ *)
(** ** The private context *)

Module LibSpeexEncContext.
Section Ctx.
Context {L : LibSpeex}.

Record t : Type := mk {
  bits : SpeexBits;
  header : SpeexHeader.t;
  enc_state : speex_state;
  frames_per_packet : Z;
  vbr_quality : Float32.float;
  cbr_quality : Z;
  abr : Z;
  pkt_frame_count : Z;
  next_pts : Z;
  pkt_sample_count : Z
}.

Definition set_bits (s : t) (v : SpeexBits) : t :=
  mk v (header s) (enc_state s) (frames_per_packet s) (vbr_quality s)
     (cbr_quality s) (abr s) (pkt_frame_count s) (next_pts s)
     (pkt_sample_count s).
Definition set_header (s : t) (v : SpeexHeader.t) : t :=
  mk (bits s) v (enc_state s) (frames_per_packet s) (vbr_quality s)
     (cbr_quality s) (abr s) (pkt_frame_count s) (next_pts s)
     (pkt_sample_count s).
Definition set_enc_state (s : t) (v : speex_state) : t :=
  mk (bits s) (header s) v (frames_per_packet s) (vbr_quality s)
     (cbr_quality s) (abr s) (pkt_frame_count s) (next_pts s)
     (pkt_sample_count s).
Definition set_vbr_quality (s : t) (v : Float32.float) : t :=
  mk (bits s) (header s) (enc_state s) (frames_per_packet s) v
     (cbr_quality s) (abr s) (pkt_frame_count s) (next_pts s)
     (pkt_sample_count s).
Definition set_pkt_frame_count (s : t) (v : Z) : t :=
  mk (bits s) (header s) (enc_state s) (frames_per_packet s) (vbr_quality s)
     (cbr_quality s) (abr s) v (next_pts s) (pkt_sample_count s).
Definition set_next_pts (s : t) (v : Z) : t :=
  mk (bits s) (header s) (enc_state s) (frames_per_packet s) (vbr_quality s)
     (cbr_quality s) (abr s) (pkt_frame_count s) v (pkt_sample_count s).
Definition set_pkt_sample_count (s : t) (v : Z) : t :=
  mk (bits s) (header s) (enc_state s) (frames_per_packet s) (vbr_quality s)
     (cbr_quality s) (abr s) (pkt_frame_count s) (next_pts s) v.
End Ctx.
End LibSpeexEncContext.

(* ------------------------------------------------------------------ *)
(** ** Resources and calls into the libraries *)

(** What the wrapper allocates, directly or through a library. *)
Inductive resource : Type :=
| Res_enc_state
| Res_header_data
| Res_extradata
| Res_coded_frame
| Res_bits.

Definition resource_eq_dec : forall a b : resource, {a = b} + {a <> b}.
Proof. decide equality. Defined.

(** The calls that [encode_init] and [encode_close] make, in order; a
    [speex_encoder_ctl] call is kept with the answer it wrote back. *)
Inductive ext_call : Type :=
| Call_speex_encoder_init (m : SpeexMode)
| Call_speex_init_header (rate channels : Z) (m : SpeexMode)
| Call_speex_encoder_ctl (r : speex_request) (answer : Z)
| Call_speex_header_to_packet
| Call_speex_header_free
| Call_speex_encoder_destroy
| Call_speex_bits_init
| Call_speex_bits_destroy
| Call_av_malloc (n : Z)
| Call_avcodec_alloc_frame
| Call_av_freep (r : resource).

(** The log of calls made so far and the resources that are allocated. *)
Record World : Type := { calls : list ext_call; live : list resource }.

Definition called (c : ext_call) (w : World) : World :=
  {| calls := calls w ++ [c]; live := live w |}.
Definition acquire (r : resource) (w : World) : World :=
  {| calls := calls w; live := r :: live w |}.
Definition release (r : resource) (w : World) : World :=
  {| calls := calls w; live := remove resource_eq_dec r (live w) |}.

Definition empty_world : World := {| calls := []; live := [] |}.

(* ------------------------------------------------------------------ *)
(** ** The encoder *)

Section Encoder.
Context {L : LibSpeex} {A : Libav}.

Import LibSpeexEncContext.

Local Abbreviation ctx := LibSpeexEncContext.t.
Local Abbreviation avc := AVCodecContext.t.

(** [speex_encoder_ctl(s->enc_state, request, ptr)]. *)
Definition ctl (s : ctx) (w : World) (r : speex_request) : ctx * World * Z :=
  let done := speex_encoder_ctl (enc_state s) r in
  (set_enc_state s (fst done),
   called (Call_speex_encoder_ctl r (snd done)) w,
   snd done).

(** The [switch] on [avctx->sample_rate]. *)
Definition select_mode (sample_rate : Z) : option SpeexMode :=
  if sample_rate =? 8000 then Some speex_nb_mode
  else if sample_rate =? 16000 then Some speex_wb_mode
  else if sample_rate =? 32000 then Some speex_uwb_mode
  else None.

(** "rate control method and parameters" of [encode_init]. *)
Definition rate_control (avctx : avc) (s : ctx) (w : World)
  : avc * ctx * World :=
  if negb (Z.land (AVCodecContext.flags avctx) CODEC_FLAG_QSCALE =? 0) then
    (* VBR *)
    let s := set_header s (SpeexHeader.set_vbr (header s) 1) in
    let '(s, w, _) := ctl s w (SPEEX_SET_VBR (SpeexHeader.vbr (header s))) in
    let s :=
      set_vbr_quality s
        (av_clipf
           (Float32.div (Float32.of_int (AVCodecContext.global_quality avctx))
                        (Float32.of_int FF_QP2LAMBDA))
           Float32.zero Float32.ten) in
    let '(s, w, _) := ctl s w (SPEEX_SET_VBR_QUALITY (vbr_quality s)) in
    (avctx, s, w)
  else
    let s :=
      set_header s
        (SpeexHeader.set_bitrate (header s) (AVCodecContext.bit_rate avctx)) in
    let '(s, w) :=
      if AVCodecContext.bit_rate avctx >? 0 then
        (* CBR or ABR by bitrate *)
        if negb (abr s =? 0) then
          let '(s, w, _) :=
            ctl s w (SPEEX_SET_ABR (SpeexHeader.bitrate (header s))) in
          let '(s, w, b) := ctl s w SPEEX_GET_ABR in
          (set_header s (SpeexHeader.set_bitrate (header s) b), w)
        else
          let '(s, w, _) :=
            ctl s w (SPEEX_SET_BITRATE (SpeexHeader.bitrate (header s))) in
          let '(s, w, b) := ctl s w SPEEX_GET_BITRATE in
          (set_header s (SpeexHeader.set_bitrate (header s) b), w)
      else
        (* CBR by quality *)
        let '(s, w, _) := ctl s w (SPEEX_SET_QUALITY (cbr_quality s)) in
        let '(s, w, b) := ctl s w SPEEX_GET_BITRATE in
        (set_header s (SpeexHeader.set_bitrate (header s) b), w) in
    (* stereo side information adds about 800 bps to the base bitrate *)
    (AVCodecContext.set_bit_rate avctx
       (CInt.int (SpeexHeader.bitrate (header s)
                  + (if AVCodecContext.channels avctx =? 2 then 800 else 0))),
     s, w).

(** "set encoding complexity" of [encode_init]. *)
Definition set_complexity (avctx : avc) (s : ctx) (w : World)
  : avc * ctx * World :=
  let '(s, w) :=
    if AVCodecContext.compression_level avctx >? FF_COMPRESSION_DEFAULT then
      let complexity := av_clip (AVCodecContext.compression_level avctx) 0 10 in
      let '(s, w, _) := ctl s w (SPEEX_SET_COMPLEXITY complexity) in
      (s, w)
    else (s, w) in
  let '(s, w, complexity) := ctl s w SPEEX_GET_COMPLEXITY in
  (AVCodecContext.set_compression_level avctx complexity, s, w).

(** "allocate extradata and coded_frame", and what follows it. *)
Definition alloc_outputs (avctx : avc) (s : ctx) (w : World)
  : c_ret * avc * ctx * World :=
  (* create header packet bytes from header struct *)
  let header_data := speex_header_to_packet (header s) in
  let header_size := Z.of_nat (length header_data) in
  let w := acquire Res_header_data (called Call_speex_header_to_packet w) in
  (* allocate extradata and coded_frame *)
  let n := CInt.int (header_size + FF_INPUT_BUFFER_PADDING_SIZE) in
  let avctx := AVCodecContext.set_extradata avctx (av_malloc n) in
  let w := called (Call_av_malloc n) w in
  let w := if non_null (AVCodecContext.extradata avctx)
           then acquire Res_extradata w else w in
  let avctx := AVCodecContext.set_coded_frame avctx avcodec_alloc_frame in
  let w := called Call_avcodec_alloc_frame w in
  let w := if non_null (AVCodecContext.coded_frame avctx)
           then acquire Res_coded_frame w else w in
  match AVCodecContext.extradata avctx, AVCodecContext.coded_frame avctx with
  | Some extradata, Some _ =>
      (* copy header packet to extradata *)
      let avctx :=
        AVCodecContext.set_extradata avctx
          (Some (memcpy extradata header_data header_size)) in
      let avctx := AVCodecContext.set_extradata_size avctx header_size in
      let w := release Res_header_data (called Call_speex_header_free w) in
      (* init libspeex bitwriter *)
      let s := set_bits s speex_bits_init in
      let w := acquire Res_bits (called Call_speex_bits_init w) in
      (Ret 0, avctx, s, w)
  | _, _ =>
      let w := release Res_header_data (called Call_speex_header_free w) in
      let w := release Res_enc_state (called Call_speex_encoder_destroy w) in
      (AVERROR ENOMEM, avctx, s, w)
  end.

Definition encode_init (avctx : avc) (s : ctx) (w : World)
  : c_ret * avc * ctx * World :=
  (* channels *)
  if (AVCodecContext.channels avctx <? 1)
     || (AVCodecContext.channels avctx >? 2)
  then (AVERROR EINVAL, avctx, s, w)
  else
    (* sample rate and encoding mode *)
    match select_mode (AVCodecContext.sample_rate avctx) with
    | None => (AVERROR EINVAL, avctx, s, w)
    | Some mode =>
        (* initialize libspeex *)
        let s := set_enc_state s (speex_encoder_init mode) in
        let w := called (Call_speex_encoder_init mode) w in
        if is_null (enc_state s) then (Ret (-1), avctx, s, w)
        else
          let w := acquire Res_enc_state w in
          let s :=
            set_header s
              (speex_init_header (AVCodecContext.sample_rate avctx)
                                 (AVCodecContext.channels avctx) mode) in
          let w :=
            called (Call_speex_init_header (AVCodecContext.sample_rate avctx)
                      (AVCodecContext.channels avctx) mode) w in
          let '(avctx, s, w) := rate_control avctx s w in
          let '(avctx, s, w) := set_complexity avctx s w in
          (* set packet size *)
          let avctx :=
            AVCodecContext.set_frame_size avctx
              (SpeexHeader.frame_size (header s)) in
          let s :=
            set_header s
              (SpeexHeader.set_frames_per_packet (header s)
                 (frames_per_packet s)) in
          (* set encoding delay *)
          let '(s, w, lookahead) := ctl s w SPEEX_GET_LOOKAHEAD in
          let avctx := AVCodecContext.set_delay avctx lookahead in
          alloc_outputs avctx s w
    end.

(** [avctx->coded_frame->pts = v].  The frame is allocated by a successful
    [encode_init]; through a null pointer the store is left out. *)
Definition set_coded_frame_pts (avctx : avc) (v : Z) : avc :=
  match AVCodecContext.coded_frame avctx with
  | Some _ => AVCodecContext.set_coded_frame avctx (Some {| pts := v |})
  | None => avctx
  end.

(** One turn of "add extra terminator codes for unused frames in last
    packet": [speex_bits_pack(&s->bits, 15, 5); s->pkt_frame_count++]. *)
Definition add_terminator (s : ctx) : ctx :=
  let s := set_bits s (speex_bits_pack (bits s) 15 5) in
  set_pkt_frame_count s (CInt.int (pkt_frame_count s + 1)).

(** [while (s->pkt_frame_count < s->frames_per_packet) add_terminator],
    for at most [fuel] turns. *)
Fixpoint terminator_loop (fuel : nat) (s : ctx) : ctx :=
  match fuel with
  | O => s
  | S fuel =>
      if pkt_frame_count s <? frames_per_packet s
      then terminator_loop fuel (add_terminator s)
      else s
  end.

(** The loop needs one turn for each frame that is missing. *)
Definition add_terminators (s : ctx) : ctx :=
  terminator_loop (Z.to_nat (frames_per_packet s - pkt_frame_count s)) s.

(** The first half of [encode_frame]: either the early [return 0], or the
    context (and the samples, which the stereo step rewrites in place) with
    which the second half goes on. *)
Inductive handled : Type :=
| Return0
| Proceed (s : ctx) (samples : option (list Z)).

Definition handle_input (avctx : avc) (s : ctx) (data : option (list Z))
  : handled :=
  match data with
  | Some samples =>
      (* encode Speex frame *)
      let '(samples, b) :=
        if AVCodecContext.channels avctx =? 2
        then speex_encode_stereo_int samples
               (SpeexHeader.frame_size (header s)) (bits s)
        else (samples, bits s) in
      let '(st, b) := speex_encode_int (enc_state s) samples b in
      let s := set_bits (set_enc_state s st) b in
      let s := set_pkt_frame_count s (CInt.int (pkt_frame_count s + 1)) in
      let s :=
        set_pkt_sample_count s
          (CInt.int (pkt_sample_count s + AVCodecContext.frame_size avctx)) in
      Proceed s (Some samples)
  | None =>
      (* handle end-of-stream *)
      if pkt_frame_count s =? 0 then Return0
      else Proceed (add_terminators s) None
  end.

(** What a call of [encode_frame] leaves behind: the value returned, the
    bytes written to [frame] ([None] when the buffer is not touched), the
    caller's samples, and the two contexts. *)
Record encoded : Type := {
  ret : c_ret;
  frame : option (list Z);
  samples_after : option (list Z);
  avctx_after : avc;
  priv_after : ctx
}.

(** "write output if all frames for the packet have been encoded". *)
Definition write_output (avctx : avc) (s : ctx) (buf_size : Z)
                        (samples : option (list Z)) : encoded :=
  if pkt_frame_count s =? frames_per_packet s then
    let s := set_pkt_frame_count s 0 in
    let avctx :=
      set_coded_frame_pts avctx
        (ff_samples_to_time_base avctx
           (CInt.int64 (next_pts s - AVCodecContext.delay avctx))) in
    let s := set_next_pts s (CInt.int64 (next_pts s + pkt_sample_count s)) in
    let s := set_pkt_sample_count s 0 in
    if buf_size >? speex_bits_nbytes (bits s) then
      let '(bytes, n) := speex_bits_write (bits s) buf_size in
      let s := set_bits s (speex_bits_reset (bits s)) in
      {| ret := Ret n; frame := Some bytes; samples_after := samples;
         avctx_after := avctx; priv_after := s |}
    else
      {| ret := AVERROR EINVAL; frame := None; samples_after := samples;
         avctx_after := avctx; priv_after := s |}
  else
    {| ret := Ret 0; frame := None; samples_after := samples;
       avctx_after := avctx; priv_after := s |}.

Definition encode_frame (avctx : avc) (s : ctx) (buf_size : Z)
                        (data : option (list Z)) : encoded :=
  match handle_input avctx s data with
  | Return0 =>
      {| ret := Ret 0; frame := None; samples_after := data;
         avctx_after := avctx; priv_after := s |}
  | Proceed s samples => write_output avctx s buf_size samples
  end.

Definition encode_close (avctx : avc) (s : ctx) (w : World)
  : c_ret * avc * ctx * World :=
  let w := release Res_bits (called Call_speex_bits_destroy w) in
  let w := release Res_enc_state (called Call_speex_encoder_destroy w) in
  let avctx := AVCodecContext.set_coded_frame avctx None in
  let w := release Res_coded_frame (called (Call_av_freep Res_coded_frame) w) in
  let avctx := AVCodecContext.set_extradata avctx None in
  let w := release Res_extradata (called (Call_av_freep Res_extradata) w) in
  (Ret 0, avctx, s, w).

End Encoder.

(* ------------------------------------------------------------------ *)
(** ** Runs of the encoder, and the notions the theorems are stated with *)

Section Runs.
Context {L : LibSpeex} {A : Libav}.

Import LibSpeexEncContext.

Local Abbreviation ctx := LibSpeexEncContext.t.
Local Abbreviation avc := AVCodecContext.t.

(** The [while] loop of the end-of-stream branch, as a relation between the
    context on entry and the context on exit. *)
Inductive while_terminators : ctx -> ctx -> Prop :=
| while_exit (s : ctx) :
    frames_per_packet s <= pkt_frame_count s -> while_terminators s s
| while_turn (s s' : ctx) :
    pkt_frame_count s < frames_per_packet s ->
    while_terminators (add_terminator s) s' ->
    while_terminators s s'.

(** The private context once the input of a call has been handled, that is
    where [encode_frame] either has returned early or tests whether the
    packet is complete. *)
Definition after_input (avctx : avc) (s : ctx) (data : option (list Z)) : ctx :=
  match handle_input avctx s data with
  | Return0 => s
  | Proceed s1 _ => s1
  end.

(** "all frames for the packet have been encoded": control reaches the
    output step and its test holds. *)
Definition packet_complete (avctx : avc) (s : ctx) (data : option (list Z))
  : bool :=
  match handle_input avctx s data with
  | Return0 => false
  | Proceed s1 _ => pkt_frame_count s1 =? frames_per_packet s1
  end.

(** The context that the output step leaves when the packet is complete:
    the counters are cleared and the clock has moved on, and the bits are
    those given. *)
Definition packet_closed (s : ctx) (b : SpeexBits) : ctx :=
  set_bits
    (set_pkt_sample_count
       (set_next_pts (set_pkt_frame_count s 0)
          (CInt.int64 (next_pts s + pkt_sample_count s))) 0) b.

(** The codec context once the output step has set the timestamp. *)
Definition stamped (avctx : avc) (s : ctx) : avc :=
  set_coded_frame_pts avctx
    (ff_samples_to_time_base avctx
       (CInt.int64 (next_pts s - AVCodecContext.delay avctx))).

(** A packet has been written to the caller's buffer. *)
Definition emitted (r : encoded) : bool := non_null (frame r).

(** The call failed with "output buffer too small". *)
Definition refused (r : encoded) : bool :=
  match ret r with AVERROR EINVAL => true | _ => false end.

(** The call returned 0 and wrote nothing: "no packet yet". *)
Definition no_packet (r : encoded) : bool :=
  match frame r, ret r with None, Ret 0 => true | _, _ => false end.

(** The fields of the private context that [encode_frame] works on. *)
Definition same_progress (s1 s2 : ctx) : Prop :=
  bits s1 = bits s2
  /\ pkt_frame_count s1 = pkt_frame_count s2
  /\ pkt_sample_count s1 = pkt_sample_count s2
  /\ next_pts s1 = next_pts s2.

(** The terminator code of the end-of-stream branch, packed [n] times. *)
Definition terminators (n : nat) (b : SpeexBits) : SpeexBits :=
  Nat.iter n (fun b => speex_bits_pack b 15 5) b.

(** One call of [encode_frame]: the size of the output buffer and the
    samples, or no samples at the end of the stream. *)
Record call : Type := { buf_size : Z; data : option (list Z) }.

(** The calls [cs] made one after the other, each on the contexts the one
    before left. *)
Fixpoint run (avctx : avc) (s : ctx) (cs : list call) : list encoded :=
  match cs with
  | [] => []
  | c :: cs =>
      let r := encode_frame avctx s (buf_size c) (data c) in
      r :: run (avctx_after r) (priv_after r) cs
  end.

(** The same run, each call kept with the contexts it started from. *)
Record step : Type := {
  before_avctx : avc;
  before_priv : ctx;
  the_call : call;
  result : encoded
}.

Fixpoint steps (avctx : avc) (s : ctx) (cs : list call) : list step :=
  match cs with
  | [] => []
  | c :: cs =>
      let r := encode_frame avctx s (buf_size c) (data c) in
      {| before_avctx := avctx; before_priv := s; the_call := c;
         result := r |}
      :: steps (avctx_after r) (priv_after r) cs
  end.


(** The contexts between two calls of an encoder that was opened: fewer
    frames pending than make a packet, each of them counted with
    [frame_size] samples, and the frame for the timestamp allocated. *)
Definition ready (avctx : avc) (s : ctx) : Prop :=
  0 <= pkt_frame_count s < frames_per_packet s
  /\ pkt_sample_count s = pkt_frame_count s * AVCodecContext.frame_size avctx
  /\ 0 < AVCodecContext.frame_size avctx
  /\ frames_per_packet s * AVCodecContext.frame_size avctx <= CInt.INT_MAX
  /\ AVCodecContext.coded_frame avctx <> None.

(** The sum that the clock cannot exceed: [next_pts] and the samples
    pending. *)
Definition clock_reach (s : ctx) : Z := next_pts s + pkt_sample_count s.

(** The sample clock stays inside [int64_t] over [n] more calls. *)
Definition clock_in_range (avctx : avc) (s : ctx) (n : nat) : Prop :=
  0 <= AVCodecContext.delay avctx
  /\ CInt.INT64_MIN <= next_pts s - AVCodecContext.delay avctx
  /\ next_pts s + pkt_sample_count s
     + Z.of_nat n * AVCodecContext.frame_size avctx <= CInt.INT64_MAX.

(** The timestamp of the packet a call emitted: [avctx->coded_frame->pts]. *)
Definition packet_pts (r : encoded) : option Z :=
  match frame r, AVCodecContext.coded_frame (avctx_after r) with
  | Some _, Some f => Some (pts f)
  | _, _ => None
  end.



(** The four things [encode_init] gives back. *)
Definition init_ret (res : c_ret * avc * ctx * World) : c_ret :=
  fst (fst (fst res)).
Definition init_avctx (res : c_ret * avc * ctx * World) : avc :=
  snd (fst (fst res)).
Definition init_priv (res : c_ret * avc * ctx * World) : ctx :=
  snd (fst res).
Definition init_world (res : c_ret * avc * ctx * World) : World :=
  snd res.

(** The calls that were added to the log of [w] to give that of [w']. *)
Definition new_calls (w w' : World) : list ext_call :=
  skipn (length (calls w)) (calls w').

Definition request_of (c : ext_call) : option speex_request :=
  match c with
  | Call_speex_encoder_ctl r _ => Some r
  | _ => None
  end.

Fixpoint requests (cs : list ext_call) : list speex_request :=
  match cs with
  | [] => []
  | c :: cs =>
      match request_of c with
      | Some r => r :: requests cs
      | None => requests cs
      end
  end.

(** The requests that set up or read back the rate control. *)
Definition is_rate_request (r : speex_request) : bool :=
  match r with
  | SPEEX_SET_VBR _ | SPEEX_SET_VBR_QUALITY _ | SPEEX_SET_ABR _
  | SPEEX_GET_ABR | SPEEX_SET_BITRATE _ | SPEEX_GET_BITRATE
  | SPEEX_SET_QUALITY _ => true
  | _ => false
  end.

(** The bitrate the codec answered last, to [SPEEX_GET_ABR] or
    [SPEEX_GET_BITRATE]. *)
Fixpoint negotiated_bitrate (cs : list ext_call) : option Z :=
  match cs with
  | [] => None
  | c :: cs =>
      match negotiated_bitrate cs with
      | Some b => Some b
      | None =>
          match c with
          | Call_speex_encoder_ctl SPEEX_GET_ABR b => Some b
          | Call_speex_encoder_ctl SPEEX_GET_BITRATE b => Some b
          | _ => None
          end
      end
  end.

(** What a stage keeps: the configuration the caller gave, and the fields
    of the private context that the options set. *)
Definition same_config (a a' : avc) (s s' : ctx) : Prop :=
  AVCodecContext.channels a' = AVCodecContext.channels a
  /\ AVCodecContext.sample_rate a' = AVCodecContext.sample_rate a
  /\ AVCodecContext.flags a' = AVCodecContext.flags a
  /\ AVCodecContext.global_quality a' = AVCodecContext.global_quality a
  /\ frames_per_packet s' = frames_per_packet s
  /\ cbr_quality s' = cbr_quality s
  /\ abr s' = abr s.

(** What the stages after the rate control keep of its outcome. *)
Definition same_rate (a a' : avc) (s s' : ctx) : Prop :=
  AVCodecContext.bit_rate a' = AVCodecContext.bit_rate a
  /\ SpeexHeader.bitrate (header s') = SpeexHeader.bitrate (header s)
  /\ SpeexHeader.vbr (header s') = SpeexHeader.vbr (header s)
  /\ vbr_quality s' = vbr_quality s.

(** What every stage of [encode_init] keeps: the counters and the clock of
    the private context, and the number of frames to a packet. *)
Definition same_counters (s s' : ctx) : Prop :=
  pkt_frame_count s' = pkt_frame_count s
  /\ pkt_sample_count s' = pkt_sample_count s
  /\ next_pts s' = next_pts s
  /\ frames_per_packet s' = frames_per_packet s.

(** A stretch of the log with no rate-control request in it. *)
Definition no_rate_request (l : list ext_call) : Prop :=
  filter is_rate_request (requests l) = [] /\ negotiated_bitrate l = None.

(** The quality-scale flag is set in [avctx->flags]. *)
Definition qscale (avctx : avc) : bool :=
  negb (Z.land (AVCodecContext.flags avctx) CODEC_FLAG_QSCALE =? 0).

(** The quality that VBR mode clamps: [global_quality / (float)FF_QP2LAMBDA]. *)
Definition scaled_quality (global_quality : Z) : Float32.float :=
  Float32.div (Float32.of_int global_quality) (Float32.of_int FF_QP2LAMBDA).

(** The rate-control policies as the specification lists them, the order in
    which it selects one, and the requests it has each of them push to the
    codec and read back.  These follow the specification's words; the
    theorems compare them with [rate_control].  (The quality that VBR
    pushes is the clamped one that is stored, see [scaled_quality].) *)
Inductive rate_policy : Type :=
| Policy_VBR
| Policy_ABR
| Policy_CBR_bitrate
| Policy_CBR_quality.

Definition spec_select_policy (avctx : avc) (s : ctx) : rate_policy :=
  if qscale avctx then Policy_VBR
  else if (AVCodecContext.bit_rate avctx >? 0) && negb (abr s =? 0)
  then Policy_ABR
  else if AVCodecContext.bit_rate avctx >? 0 then Policy_CBR_bitrate
  else Policy_CBR_quality.

Definition spec_policy_requests (p : rate_policy) (avctx : avc) (s : ctx)
  : list speex_request :=
  match p with
  | Policy_VBR =>
      [SPEEX_SET_VBR 1;
       SPEEX_SET_VBR_QUALITY
         (av_clipf (scaled_quality (AVCodecContext.global_quality avctx))
            Float32.zero Float32.ten)]
  | Policy_ABR =>
      [SPEEX_SET_ABR (AVCodecContext.bit_rate avctx); SPEEX_GET_ABR]
  | Policy_CBR_bitrate =>
      [SPEEX_SET_BITRATE (AVCodecContext.bit_rate avctx); SPEEX_GET_BITRATE]
  | Policy_CBR_quality =>
      [SPEEX_SET_QUALITY (cbr_quality s); SPEEX_GET_BITRATE]
  end.

(** The configuration gets [encode_init] as far as a codec instance. *)
Definition codec_created (avctx : avc) : Prop :=
  1 <= AVCodecContext.channels avctx <= 2
  /\ exists m, select_mode (AVCodecContext.sample_rate avctx) = Some m
               /\ is_null (speex_encoder_init m) = false.

End Runs.


(* ------------------------------------------------------------------ *)
(** ** Further notions: the stages of [encode_init], whole runs, the
    diagnostics *)

Section More.
Context {L : LibSpeex} {A : Libav}.

Import LibSpeexEncContext.

Local Abbreviation ctx := LibSpeexEncContext.t.
Local Abbreviation avc := AVCodecContext.t.

(** The private context and the world of [encode_init] where the rate
    control starts: the codec instance is there and the header is the one
    [speex_init_header] filled in. *)
Definition with_codec (avctx : avc) (s : ctx) (m : SpeexMode) : ctx :=
  set_header (set_enc_state s (speex_encoder_init m))
    (speex_init_header (AVCodecContext.sample_rate avctx)
       (AVCodecContext.channels avctx) m).

Definition world_with_codec (avctx : avc) (w : World) (m : SpeexMode) : World :=
  called (Call_speex_init_header (AVCodecContext.sample_rate avctx)
            (AVCodecContext.channels avctx) m)
    (acquire Res_enc_state (called (Call_speex_encoder_init m) w)).

(** "set packet size" and "set encoding delay" of [encode_init]. *)
Definition packet_size_and_delay (avctx : avc) (s : ctx) (w : World)
  : avc * ctx * World :=
  let avctx :=
    AVCodecContext.set_frame_size avctx (SpeexHeader.frame_size (header s)) in
  let s :=
    set_header s
      (SpeexHeader.set_frames_per_packet (header s) (frames_per_packet s)) in
  let '(s, w, lookahead) := ctl s w SPEEX_GET_LOOKAHEAD in
  (AVCodecContext.set_delay avctx lookahead, s, w).

(** The settings of the caller that [encode_init] reads and leaves alone. *)
Definition same_settings (a a' : avc) : Prop :=
  AVCodecContext.channels a' = AVCodecContext.channels a
  /\ AVCodecContext.sample_rate a' = AVCodecContext.sample_rate a
  /\ AVCodecContext.flags a' = AVCodecContext.flags a
  /\ AVCodecContext.global_quality a' = AVCodecContext.global_quality a
  /\ AVCodecContext.time_base a' = AVCodecContext.time_base a.

(** The options and the progress of the private context. *)
Definition same_options (s s' : ctx) : Prop :=
  frames_per_packet s' = frames_per_packet s
  /\ cbr_quality s' = cbr_quality s
  /\ abr s' = abr s
  /\ pkt_frame_count s' = pkt_frame_count s
  /\ pkt_sample_count s' = pkt_sample_count s
  /\ next_pts s' = next_pts s.

(** The size [encode_init] asks [av_malloc] for: the header packet and the
    padding. *)
Definition extradata_alloc_size (s : ctx) : Z :=
  CInt.int (Z.of_nat (length (speex_header_to_packet (header s)))
            + FF_INPUT_BUFFER_PADDING_SIZE).

(** The values that were pushed with [SPEEX_SET_COMPLEXITY], and the answer
    the codec gave last to a request that reads a value back. *)
Fixpoint complexities_pushed (cs : list ext_call) : list Z :=
  match cs with
  | [] => []
  | Call_speex_encoder_ctl (SPEEX_SET_COMPLEXITY c) _ :: cs =>
      c :: complexities_pushed cs
  | _ :: cs => complexities_pushed cs
  end.

Definition is_get_complexity (r : speex_request) : bool :=
  match r with SPEEX_GET_COMPLEXITY => true | _ => false end.

Definition is_get_lookahead (r : speex_request) : bool :=
  match r with SPEEX_GET_LOOKAHEAD => true | _ => false end.

Fixpoint last_answer (want : speex_request -> bool) (cs : list ext_call)
  : option Z :=
  match cs with
  | [] => None
  | c :: cs =>
      match last_answer want cs with
      | Some z => Some z
      | None =>
          match c with
          | Call_speex_encoder_ctl r z => if want r then Some z else None
          | _ => None
          end
      end
  end.

(** What [encode_frame] never writes in the private context: the header
    and the options. *)
Definition same_static (s s' : ctx) : Prop :=
  header s' = header s
  /\ frames_per_packet s' = frames_per_packet s
  /\ vbr_quality s' = vbr_quality s
  /\ cbr_quality s' = cbr_quality s
  /\ abr s' = abr s.

(** The contexts that a run ends with. *)
Fixpoint run_end (avctx : avc) (s : ctx) (cs : list call) : avc * ctx :=
  match cs with
  | [] => (avctx, s)
  | c :: cs =>
      let r := encode_frame avctx s (buf_size c) (data c) in
      run_end (avctx_after r) (priv_after r) cs
  end.

(** The number of calls of a run that carry samples. *)
Definition frames_fed (cs : list call) : Z :=
  Z.of_nat (length (filter (fun c => non_null (data c)) cs)).

(** One frame through libspeex, as the samples branch of [encode_frame]
    calls it: the stereo step first when there are two channels, then the
    encoder, both on the same bit writer. *)
Definition speex_frame (channels frame_size : Z)
                       (p : speex_state * SpeexBits) (x : list Z)
  : speex_state * SpeexBits :=
  let xb :=
    if channels =? 2 then speex_encode_stereo_int x frame_size (snd p)
    else (x, snd p) in
  speex_encode_int (fst p) (fst xb) (snd xb).

(** The calls that feed the frames [xs], each with its buffer size. *)
Definition feed (bufs : list Z) (xs : list (list Z)) : list call :=
  map (fun bx => {| buf_size := fst bx; data := Some (snd bx) |})
    (combine bufs xs).

End More.

(* ------------------------------------------------------------------ *)
(** ** [print_enc_params] *)

(** What [av_log] is called with: the level, the format and the arguments. *)
Inductive log_level : Type := AV_LOG_ERROR | AV_LOG_DEBUG.

Inductive log_arg : Type :=
| Arg_int (z : Z)
| Arg_str (s : String.string)
| Arg_float (f : Float32.float).

Record log_line : Type := {
  log_at : log_level;
  log_fmt : String.string;
  log_args : list log_arg
}.

(** The identifiers of the three modes ([speex.h]), parameters here. *)
Record mode_ids : Type := {
  SPEEX_MODEID_NB : Z;
  SPEEX_MODEID_WB : Z;
  SPEEX_MODEID_UWB : Z
}.

Section Diagnostics.
Context {L : LibSpeex}.
Variable ids : mode_ids.

Import LibSpeexEncContext.
Import String.StringSyntax.
Local Open Scope string_scope.
Local Open Scope Z_scope.

(** A format that ends with a newline. *)
Definition line (fmt : String.string) (args : list log_arg) : log_line :=
  {| log_at := AV_LOG_DEBUG;
     log_fmt := String.append fmt
                  (String.String (Ascii.ascii_of_nat 10) String.EmptyString);
     log_args := args |}.

(** The [switch] on [s->header.mode]. *)
Definition mode_str (s : LibSpeexEncContext.t) : String.string :=
  if SpeexHeader.mode (header s) =? SPEEX_MODEID_NB ids then "narrowband"
  else if SpeexHeader.mode (header s) =? SPEEX_MODEID_WB ids
  then "wideband"
  else if SpeexHeader.mode (header s) =? SPEEX_MODEID_UWB ids
  then "ultra-wideband"
  else "unknown".

Definition print_enc_params (avctx : AVCodecContext.t)
                            (s : LibSpeexEncContext.t) : list log_line :=
  [ line "channels: %d" [Arg_int (AVCodecContext.channels avctx)];
    line "mode: %s" [Arg_str (mode_str s)] ]
  ++ (if negb (SpeexHeader.vbr (header s) =? 0) then
        [ line "rate control: VBR" [];
          line "  quality: %f" [Arg_float (vbr_quality s)] ]
      else if negb (abr s =? 0) then
        [ line "rate control: ABR" [];
          line "  bitrate: %d bps" [Arg_int (AVCodecContext.bit_rate avctx)] ]
      else
        [ line "rate control: CBR" [];
          line "  bitrate: %d bps" [Arg_int (AVCodecContext.bit_rate avctx)] ])
  ++ [ line "complexity: %d"
         [Arg_int (AVCodecContext.compression_level avctx)];
       line "frame size: %d samples"
         [Arg_int (AVCodecContext.frame_size avctx)];
       line "frames per packet: %d" [Arg_int (frames_per_packet s)];
       line "packet size: %d"
         [Arg_int (CInt.int (AVCodecContext.frame_size avctx
                             * frames_per_packet s))] ].

(** The rate-control line that was logged. *)
Definition logs_rate_control (name : String.string) (ls : list log_line) : Prop :=
  In (line (String.append "rate control: " name) []) ls.

End Diagnostics.
(* ------------------------------------------------------------------ *)
(** ** The private options *)

(** The rows of [options]: the field an option sets, its default and its
    range. *)
Inductive priv_option : Type := Opt_abr | Opt_cbr_quality | Opt_frames_per_packet.

Record AVOption : Type := {
  opt_field : priv_option;
  opt_default : Z;
  opt_min : Z;
  opt_max : Z
}.

Definition options : list AVOption :=
  [ {| opt_field := Opt_abr; opt_default := 0; opt_min := 0; opt_max := 1 |};
    {| opt_field := Opt_cbr_quality; opt_default := 8; opt_min := 0;
       opt_max := 10 |};
    {| opt_field := Opt_frames_per_packet; opt_default := 1; opt_min := 1;
       opt_max := 8 |} ].

Definition opt_value {L : LibSpeex} (s : LibSpeexEncContext.t)
                     (f : priv_option) : Z :=
  match f with
  | Opt_abr => LibSpeexEncContext.abr s
  | Opt_cbr_quality => LibSpeexEncContext.cbr_quality s
  | Opt_frames_per_packet => LibSpeexEncContext.frames_per_packet s
  end.

(** The private context holds option values that the option system accepts. *)
Definition options_in_range {L : LibSpeex} (s : LibSpeexEncContext.t) : Prop :=
  Forall (fun o => opt_min o <= opt_value s (opt_field o) <= opt_max o) options.

(* ------------------------------------------------------------------ *)
(** ** A reference instance

    An executable stand-in for libspeex and for the libav side, on which
    the wrapper can be run: a bit writer that keeps the bits in a list, an
    encoder that remembers its settings and writes a short fixed-size
    frame.  The numbers of the codec are illustrative; the constants of
    libav are those of [avcodec.h]. *)

Module Reference.

Record encoder : Type := {
  e_mode : SpeexMode;
  e_vbr : Z;
  e_vbr_quality : Float32.float;
  e_abr : Z;
  e_bitrate : Z;
  e_quality : Z;
  e_complexity : Z
}.

Definition mode_id (m : SpeexMode) : Z :=
  match m with speex_nb_mode => 0 | speex_wb_mode => 1 | speex_uwb_mode => 2 end.

Definition mode_frame_size (m : SpeexMode) : Z :=
  match m with
  | speex_nb_mode => 160 | speex_wb_mode => 320 | speex_uwb_mode => 640
  end.

Definition quality_bitrate (q : Z) : Z := 2150 + 2245 * q.

Definition new_encoder (m : SpeexMode) : encoder :=
  {| e_mode := m; e_vbr := 0; e_vbr_quality := Float32.of_int 8; e_abr := 0;
     e_bitrate := quality_bitrate 8; e_quality := 8; e_complexity := 2 |}.

Definition encoder_ctl (e : encoder) (r : speex_request) : encoder * Z :=
  match r with
  | SPEEX_SET_VBR v =>
      ({| e_mode := e_mode e; e_vbr := v; e_vbr_quality := e_vbr_quality e;
          e_abr := e_abr e; e_bitrate := e_bitrate e; e_quality := e_quality e;
          e_complexity := e_complexity e |}, 0)
  | SPEEX_SET_VBR_QUALITY q =>
      ({| e_mode := e_mode e; e_vbr := e_vbr e; e_vbr_quality := q;
          e_abr := e_abr e; e_bitrate := e_bitrate e; e_quality := e_quality e;
          e_complexity := e_complexity e |}, 0)
  | SPEEX_SET_ABR b =>
      ({| e_mode := e_mode e; e_vbr := 1; e_vbr_quality := e_vbr_quality e;
          e_abr := b; e_bitrate := e_bitrate e; e_quality := e_quality e;
          e_complexity := e_complexity e |}, 0)
  | SPEEX_GET_ABR => (e, e_abr e)
  | SPEEX_SET_BITRATE b =>
      ({| e_mode := e_mode e; e_vbr := e_vbr e;
          e_vbr_quality := e_vbr_quality e; e_abr := e_abr e;
          e_bitrate := Z.max 2150 (Z.min b 24600); e_quality := e_quality e;
          e_complexity := e_complexity e |}, 0)
  | SPEEX_GET_BITRATE => (e, e_bitrate e)
  | SPEEX_SET_QUALITY q =>
      ({| e_mode := e_mode e; e_vbr := e_vbr e;
          e_vbr_quality := e_vbr_quality e; e_abr := e_abr e;
          e_bitrate := quality_bitrate q; e_quality := q;
          e_complexity := e_complexity e |}, 0)
  | SPEEX_SET_COMPLEXITY c =>
      ({| e_mode := e_mode e; e_vbr := e_vbr e;
          e_vbr_quality := e_vbr_quality e; e_abr := e_abr e;
          e_bitrate := e_bitrate e; e_quality := e_quality e;
          e_complexity := c |}, 0)
  | SPEEX_GET_COMPLEXITY => (e, e_complexity e)
  | SPEEX_GET_LOOKAHEAD => (e, 40)
  end.

(** The [n] low bits of [data], most significant first. *)
Fixpoint bits_of (n : nat) (data : Z) : list bool :=
  match n with
  | O => []
  | S n => Z.testbit data (Z.of_nat n) :: bits_of n data
  end.

Fixpoint byte_of (bs : list bool) (acc : Z) : Z :=
  match bs with
  | [] => acc
  | b :: bs => byte_of bs (2 * acc + (if b then 1 else 0))
  end.

(** The bytes of a bit string; a last, partial byte is filled with a zero
    bit and then ones. *)
Fixpoint bytes_of (fuel : nat) (bs : list bool) : list Z :=
  match fuel, bs with
  | O, _ => []
  | _, [] => []
  | S fuel, _ =>
      let byte := firstn 8 bs in
      let fill := firstn (8 - length byte) (false :: repeat true 7) in
      byte_of (byte ++ fill) 0 :: bytes_of fuel (skipn 8 bs)
  end.

Definition bits_nbytes (bs : list bool) : Z :=
  Z.shiftr (Z.of_nat (length bs) + 7) 3.

Definition bits_write (bs : list bool) (max_nbytes : Z) : list Z * Z :=
  let n := Z.min max_nbytes (bits_nbytes bs) in
  (firstn (Z.to_nat n) (bytes_of (length bs) bs), n).

(** Interleaved stereo to mono, in place: the first half holds the mix. *)
Fixpoint downmix (samples : list Z) : list Z :=
  match samples with
  | l :: r :: rest => Z.shiftr (l + r) 1 :: downmix rest
  | _ => []
  end.

Definition encode_stereo (samples : list Z) (frame_size : Z)
                         (bs : list bool) : list Z * list bool :=
  (downmix samples ++ skipn (length (downmix samples)) samples,
   bs ++ bits_of 5 14 ++ bits_of 4 9 ++ bits_of 8 0).

Definition encode_mono (e : encoder) (samples : list Z) (bs : list bool)
  : list bool :=
  bs ++ bits_of 4 (e_quality e) ++ bits_of 16 (fold_right Z.add 0 samples).

#[export] Instance speex : LibSpeex := {
  speex_state := option encoder;
  SpeexBits := list bool;
  is_null := fun p => match p with None => true | Some _ => false end;
  speex_encoder_init := fun m => Some (new_encoder m);
  speex_encoder_ctl := fun p r =>
    match p with
    | Some e => let (e, answer) := encoder_ctl e r in (Some e, answer)
    | None => (None, 0)
    end;
  speex_init_header := fun rate channels m =>
    SpeexHeader.mk rate (mode_id m) channels (-1) (mode_frame_size m) 0 0;
  speex_header_to_packet := fun h =>
    [83; 112; 101; 101; 120; 32; 32; 32]
    ++ map (fun z => z mod 256)
         [SpeexHeader.rate h / 256; SpeexHeader.rate h; SpeexHeader.mode h;
          SpeexHeader.nb_channels h; SpeexHeader.bitrate h / 256;
          SpeexHeader.bitrate h; SpeexHeader.frame_size h / 256;
          SpeexHeader.frame_size h; SpeexHeader.vbr h;
          SpeexHeader.frames_per_packet h];
  speex_bits_init := [];
  speex_bits_pack := fun bs data n => bs ++ bits_of (Z.to_nat n) data;
  speex_bits_nbytes := bits_nbytes;
  speex_bits_write := bits_write;
  speex_bits_reset := fun _ => [];
  speex_encode_stereo_int := encode_stereo;
  speex_encode_int := fun p samples bs =>
    match p with
    | Some e => (p, encode_mono e samples bs)
    | None => (p, bs)
    end
}.

(** [av_rescale_q(samples, 1/sample_rate, time_base)], to the nearest. *)
Definition rescale (a b c : Z) : Z :=
  if a <? 0 then - ((- a * b + c / 2) / c) else (a * b + c / 2) / c.

Definition samples_to_time_base (avctx : AVCodecContext.t) (samples : Z) : Z :=
  rescale samples (snd (AVCodecContext.time_base avctx))
    (AVCodecContext.sample_rate avctx * fst (AVCodecContext.time_base avctx)).

#[export] Instance libav : Libav := {
  CODEC_FLAG_QSCALE := 2;
  FF_QP2LAMBDA := 118;
  FF_COMPRESSION_DEFAULT := -1;
  FF_INPUT_BUFFER_PADDING_SIZE := 8;
  av_malloc := fun n => Some (repeat 0 (Z.to_nat n));
  avcodec_alloc_frame := Some {| pts := 0 |};
  ff_samples_to_time_base := samples_to_time_base
}.

(** The same, out of memory when the frame is allocated. *)
Definition libav_no_frame : Libav := {|
  CODEC_FLAG_QSCALE := 2;
  FF_QP2LAMBDA := 118;
  FF_COMPRESSION_DEFAULT := -1;
  FF_INPUT_BUFFER_PADDING_SIZE := 8;
  av_malloc := fun n => Some (repeat 0 (Z.to_nat n));
  avcodec_alloc_frame := None;
  ff_samples_to_time_base := samples_to_time_base
|}.

(** A codec context as a caller sets it up before [avcodec_open], with the
    defaults of the codec ([b] = 0, [compression_level] = 3), and the
    private context as the option system leaves it. *)
Definition avctx0 (channels sample_rate : Z) : AVCodecContext.t :=
  AVCodecContext.mk channels sample_rate 0 0 0 3 0 0 (1, sample_rate)
    None 0 None.

(** The same with the quality-scale flag set and a quality. *)
Definition avctx_qscale (channels sample_rate global_quality : Z)
  : AVCodecContext.t :=
  AVCodecContext.mk channels sample_rate 2 global_quality 0 3 0 0
    (1, sample_rate) None 0 None.

Definition priv_with (frames_per_packet cbr_quality abr : Z)
  : LibSpeexEncContext.t :=
  LibSpeexEncContext.mk [] (SpeexHeader.mk 0 0 0 0 0 0 0) None
    frames_per_packet (S754_zero false) cbr_quality abr 0 0 0.

Definition priv0 (frames_per_packet : Z) : LibSpeexEncContext.t :=
  priv_with frames_per_packet 8 0.

(** The two contexts after [encode_init] on that configuration. *)
Definition opened (channels sample_rate frames_per_packet : Z)
  : AVCodecContext.t * LibSpeexEncContext.t :=
  let '(_, avctx, s, _) :=
    encode_init (avctx0 channels sample_rate) (priv0 frames_per_packet)
      empty_world in
  (avctx, s).

End Reference.

(* ------------------------------------------------------------------ *)
(** ** Reference instances that run short

    The reference instance with a libspeex that cannot create an encoder,
    and with an allocator that has no memory for the extradata, or for
    neither output. *)

Module Shortage.



Definition libav_no_memory : Libav := {|
  CODEC_FLAG_QSCALE := 2;
  FF_QP2LAMBDA := 118;
  FF_COMPRESSION_DEFAULT := -1;
  FF_INPUT_BUFFER_PADDING_SIZE := 8;
  av_malloc := fun _ => None;
  avcodec_alloc_frame := None;
  ff_samples_to_time_base := Reference.samples_to_time_base
|}.

(** A codec context with a compression level, and the mode identifiers of
    [speex.h]. *)
Definition avctx_level (channels sample_rate level : Z) : AVCodecContext.t :=
  AVCodecContext.set_compression_level (Reference.avctx0 channels sample_rate)
    level.

Definition ids : mode_ids :=
  {| SPEEX_MODEID_NB := 0; SPEEX_MODEID_WB := 1; SPEEX_MODEID_UWB := 2 |}.

End Shortage.
(* ------------------------------------------------------------------ *)
(** * Facts *)

(** ** Values that fit are not wrapped *)

Lemma wrap_id (w z : Z) :
  0 < w -> - 2 ^ (w - 1) <= z < 2 ^ (w - 1) -> CInt.wrap w z = z.
Proof.
  intros Hw Hz. unfold CInt.wrap.
  assert (Hpow : 2 ^ w = 2 * 2 ^ (w - 1)).
  { replace w with (Z.succ (w - 1)) at 1 by lia. apply Z.pow_succ_r. lia. }
  rewrite Z.mod_small by lia. lia.
Qed.

Lemma int_id (z : Z) : CInt.in_int z -> CInt.int z = z.
Proof.
  unfold CInt.in_int, CInt.INT_MIN, CInt.INT_MAX, CInt.int. intros Hz.
  apply wrap_id; [lia|]. change (32 - 1) with 31. lia.
Qed.

Lemma int64_id (z : Z) : CInt.in_int64 z -> CInt.int64 z = z.
Proof.
  unfold CInt.in_int64, CInt.INT64_MIN, CInt.INT64_MAX, CInt.int64. intros Hz.
  apply wrap_id; [lia|]. change (64 - 1) with 63. lia.
Qed.

(* ------------------------------------------------------------------ *)
(** ** One call of [encode_frame] *)

Section OneCall.
Context {L : LibSpeex} {A : Libav}.

Import LibSpeexEncContext.

Local Abbreviation ctx := LibSpeexEncContext.t.
Local Abbreviation avc := AVCodecContext.t.

Lemma write_output_incomplete avctx (s : ctx) buf samples :
  pkt_frame_count s <> frames_per_packet s ->
  write_output avctx s buf samples =
  {| ret := Ret 0; frame := None; samples_after := samples;
     avctx_after := avctx; priv_after := s |}.
Proof.
  intros Hne. unfold write_output.
  destruct (Z.eqb_spec (pkt_frame_count s) (frames_per_packet s)); [contradiction|].
  reflexivity.
Qed.

Lemma write_output_refused avctx (s : ctx) buf samples :
  pkt_frame_count s = frames_per_packet s ->
  buf <= speex_bits_nbytes (bits s) ->
  write_output avctx s buf samples =
  {| ret := AVERROR EINVAL; frame := None; samples_after := samples;
     avctx_after := stamped avctx s;
     priv_after := packet_closed s (bits s) |}.
Proof.
  intros Heq Hle. unfold write_output. rewrite Heq, Z.eqb_refl. cbn.
  destruct (Z.gtb_spec buf (speex_bits_nbytes (bits s))); [lia|].
  reflexivity.
Qed.

Lemma write_output_emitted avctx (s : ctx) buf samples :
  pkt_frame_count s = frames_per_packet s ->
  speex_bits_nbytes (bits s) < buf ->
  write_output avctx s buf samples =
  {| ret := Ret (snd (speex_bits_write (bits s) buf));
     frame := Some (fst (speex_bits_write (bits s) buf));
     samples_after := samples;
     avctx_after := stamped avctx s;
     priv_after := packet_closed s (speex_bits_reset (bits s)) |}.
Proof.
  intros Heq Hlt. unfold write_output. rewrite Heq, Z.eqb_refl. cbn.
  destruct (Z.gtb_spec buf (speex_bits_nbytes (bits s))); [|lia].
  destruct (speex_bits_write (bits s) buf) as [bytes n]. reflexivity.
Qed.

Lemma encode_frame_proceed avctx (s s1 : ctx) buf data samples :
  handle_input avctx s data = Proceed s1 samples ->
  encode_frame avctx s buf data = write_output avctx s1 buf samples.
Proof. intros H. unfold encode_frame. rewrite H. reflexivity. Qed.

Lemma after_input_proceed avctx (s s1 : ctx) data samples :
  handle_input avctx s data = Proceed s1 samples ->
  after_input avctx s data = s1.
Proof. intros H. unfold after_input. rewrite H. reflexivity. Qed.

End OneCall.

(* ------------------------------------------------------------------ *)
(** ** Handling the input *)

Section Input.
Context {L : LibSpeex} {A : Libav}.

Import LibSpeexEncContext.

Local Abbreviation ctx := LibSpeexEncContext.t.
Local Abbreviation avc := AVCodecContext.t.

Lemma handle_input_samples avctx (s : ctx) x :
  exists s1 x1,
    handle_input avctx s (Some x) = Proceed s1 (Some x1)
    /\ pkt_frame_count s1 = CInt.int (pkt_frame_count s + 1)
    /\ pkt_sample_count s1
       = CInt.int (pkt_sample_count s + AVCodecContext.frame_size avctx)
    /\ next_pts s1 = next_pts s
    /\ frames_per_packet s1 = frames_per_packet s.
Proof.
  unfold handle_input.
  destruct (if AVCodecContext.channels avctx =? 2
            then speex_encode_stereo_int x (SpeexHeader.frame_size (header s))
                   (bits s)
            else (x, bits s)) as [x1 b1].
  destruct (speex_encode_int (enc_state s) x1 b1) as [st b2].
  eexists _, x1. split; [reflexivity|]. cbn. repeat split.
Qed.

Lemma handle_input_eos_idle avctx (s : ctx) :
  pkt_frame_count s = 0 -> handle_input avctx s None = Return0.
Proof. intros H. unfold handle_input. rewrite H. reflexivity. Qed.

Lemma handle_input_eos_pending avctx (s : ctx) :
  pkt_frame_count s <> 0 ->
  handle_input avctx s None = Proceed (add_terminators s) None.
Proof.
  intros H. unfold handle_input.
  destruct (Z.eqb_spec (pkt_frame_count s) 0); [contradiction|reflexivity].
Qed.

Lemma add_terminator_fields (s : ctx) :
  pkt_frame_count (add_terminator s) = CInt.int (pkt_frame_count s + 1)
  /\ frames_per_packet (add_terminator s) = frames_per_packet s
  /\ bits (add_terminator s) = speex_bits_pack (bits s) 15 5.
Proof. repeat split. Qed.

Lemma terminators_succ_r (n : nat) (b : SpeexBits) :
  terminators (S n) b = terminators n (speex_bits_pack b 15 5).
Proof. unfold terminators. apply Nat.iter_succ_r. Qed.

(** The loop run with the fuel [add_terminators] gives it: one terminator
    for each missing frame, the frame count brought up to
    [frames_per_packet], nothing else touched. *)
Lemma terminator_loop_spec (n : nat) : forall s : ctx,
  Z.to_nat (frames_per_packet s - pkt_frame_count s) = n ->
  CInt.INT_MIN <= pkt_frame_count s ->
  frames_per_packet s <= CInt.INT_MAX ->
  terminator_loop n s
  = set_pkt_frame_count (set_bits s (terminators n (bits s)))
      (Z.max (pkt_frame_count s) (frames_per_packet s)).
Proof.
  induction n as [|n IH]; intros s Hn Hlo Hhi.
  - cbn. replace (Z.max (pkt_frame_count s) (frames_per_packet s))
      with (pkt_frame_count s) by lia.
    destruct s; reflexivity.
  - cbn [terminator_loop].
    destruct (Z.ltb_spec (pkt_frame_count s) (frames_per_packet s)); [|lia].
    assert (Hint : CInt.int (pkt_frame_count s + 1) = pkt_frame_count s + 1).
    { apply int_id. unfold CInt.in_int. unfold CInt.INT_MIN in *. lia. }
    destruct (add_terminator_fields s) as (Hc & Hf & Hb).
    rewrite IH; rewrite ?Hc, ?Hf, ?Hb, ?Hint; try lia.
    rewrite terminators_succ_r.
    replace (Z.max (pkt_frame_count s + 1) (frames_per_packet s))
      with (Z.max (pkt_frame_count s) (frames_per_packet s)) by lia.
    reflexivity.
Qed.

Lemma add_terminators_spec (s : ctx) :
  CInt.INT_MIN <= pkt_frame_count s ->
  frames_per_packet s <= CInt.INT_MAX ->
  add_terminators s
  = set_pkt_frame_count
      (set_bits s
         (terminators (Z.to_nat (frames_per_packet s - pkt_frame_count s))
            (bits s)))
      (Z.max (pkt_frame_count s) (frames_per_packet s)).
Proof. intros. unfold add_terminators. now apply terminator_loop_spec. Qed.

(** The fuel is enough: [add_terminators] is the [while] loop run to its
    exit. *)
Lemma terminator_loop_while (n : nat) : forall s : ctx,
  Z.to_nat (frames_per_packet s - pkt_frame_count s) = n ->
  CInt.INT_MIN <= pkt_frame_count s ->
  frames_per_packet s <= CInt.INT_MAX ->
  while_terminators s (terminator_loop n s).
Proof.
  induction n as [|n IH]; intros s Hn Hlo Hhi.
  - cbn. apply while_exit. lia.
  - cbn [terminator_loop].
    destruct (Z.ltb_spec (pkt_frame_count s) (frames_per_packet s)); [|lia].
    assert (Hint : CInt.int (pkt_frame_count s + 1) = pkt_frame_count s + 1).
    { apply int_id. unfold CInt.in_int. unfold CInt.INT_MIN in *. lia. }
    destruct (add_terminator_fields s) as (Hc & Hf & Hb).
    apply while_turn; [assumption|].
    apply IH; rewrite ?Hc, ?Hf, ?Hint; lia.
Qed.

Lemma add_terminators_while (s : ctx) :
  CInt.INT_MIN <= pkt_frame_count s ->
  frames_per_packet s <= CInt.INT_MAX ->
  while_terminators s (add_terminators s).
Proof. intros. unfold add_terminators. now apply terminator_loop_while. Qed.

End Input.

(* ------------------------------------------------------------------ *)
(** ** The output buffer *)

Section OutputBuffer.
Context {L : LibSpeex} {A : Libav}.

Import LibSpeexEncContext.

Local Abbreviation ctx := LibSpeexEncContext.t.
Local Abbreviation avc := AVCodecContext.t.

Lemma packet_complete_inv avctx (s : ctx) data :
  packet_complete avctx s data = true ->
  exists samples,
    handle_input avctx s data = Proceed (after_input avctx s data) samples
    /\ pkt_frame_count (after_input avctx s data)
       = frames_per_packet (after_input avctx s data).
Proof.
  unfold packet_complete, after_input.
  destruct (handle_input avctx s data) as [|s1 samples]; [discriminate|].
  intros H. exists samples. split; [reflexivity|]. now apply Z.eqb_eq.
Qed.

Lemma after_input_next_pts avctx (s : ctx) data :
  CInt.INT_MIN <= pkt_frame_count s ->
  frames_per_packet s <= CInt.INT_MAX ->
  next_pts (after_input avctx s data) = next_pts s
  /\ frames_per_packet (after_input avctx s data) = frames_per_packet s.
Proof.
  intros Hlo Hhi. unfold after_input. destruct data as [x|].
  - destruct (handle_input_samples avctx s x) as (s1 & x1 & -> & _ & _ & Hn & Hf).
    now split.
  - destruct (Z.eq_dec (pkt_frame_count s) 0) as [Hz|Hz].
    + rewrite handle_input_eos_idle by assumption. now split.
    + rewrite handle_input_eos_pending by assumption.
      rewrite add_terminators_spec by assumption. now split.
Qed.

(** An end-of-stream call on a context with no pending frame gives nothing
    and changes nothing. *)
Lemma encode_frame_eos_idle avctx (s : ctx) buf :
  pkt_frame_count s = 0 ->
  encode_frame avctx s buf None
  = {| ret := Ret 0; frame := None; samples_after := None;
       avctx_after := avctx; priv_after := s |}.
Proof.
  intros H. unfold encode_frame. now rewrite handle_input_eos_idle.
Qed.

(** C10: when a packet is complete, it is written only into a buffer that
    is strictly larger than its byte count ([speex_bits_nbytes]); a buffer
    of exactly that size is refused with [AVERROR(EINVAL)], "output buffer
    too small", and nothing is written. *)
Theorem output_buffer_must_exceed_packet avctx (s : ctx) data buf :
  packet_complete avctx s data = true ->
  let nbytes := speex_bits_nbytes (bits (after_input avctx s data)) in
  let r := encode_frame avctx s buf data in
  (emitted r = true <-> nbytes < buf)
  /\ (buf = nbytes -> ret r = AVERROR EINVAL /\ frame r = None).
Proof.
  intros Hc nbytes r.
  destruct (packet_complete_inv _ _ _ Hc) as (samples & Hh & Heq).
  subst r. rewrite (encode_frame_proceed _ _ _ _ _ _ Hh).
  destruct (Z.lt_ge_cases nbytes buf) as [Hlt|Hge].
  - rewrite write_output_emitted by assumption. cbn. split.
    + split; [intros _; assumption|reflexivity].
    + intros ->. lia.
  - rewrite write_output_refused by (subst nbytes; lia). cbn. split.
    + split; [discriminate|lia].
    + intros _. split; reflexivity.
Qed.

(** C1, as the code has it: when a complete packet meets a buffer that is
    too small, the call fails with [AVERROR(EINVAL)] and writes nothing;
    the bit writer is not reset and keeps the bits of the packet; but the
    frame and sample counters are cleared and [next_pts] has moved on by
    the samples of the packet, so that a following end-of-stream call, with
    whatever buffer, finds nothing pending and returns 0 without a
    packet. *)
Theorem buffer_too_small_keeps_bits_only avctx (s : ctx) data buf :
  packet_complete avctx s data = true ->
  buf <= speex_bits_nbytes (bits (after_input avctx s data)) ->
  let s1 := after_input avctx s data in
  let r := encode_frame avctx s buf data in
  ret r = AVERROR EINVAL
  /\ frame r = None
  /\ bits (priv_after r) = bits s1
  /\ pkt_frame_count (priv_after r) = 0
  /\ pkt_sample_count (priv_after r) = 0
  /\ next_pts (priv_after r)
     = CInt.int64 (next_pts s1 + pkt_sample_count s1)
  /\ forall buf',
       encode_frame (avctx_after r) (priv_after r) buf' None
       = {| ret := Ret 0; frame := None; samples_after := None;
            avctx_after := avctx_after r; priv_after := priv_after r |}.
Proof.
  intros Hc Hle s1 r.
  destruct (packet_complete_inv _ _ _ Hc) as (samples & Hh & Heq).
  subst r. rewrite (encode_frame_proceed _ _ _ _ _ _ Hh).
  rewrite write_output_refused by assumption. cbn.
  do 6 (split; [reflexivity|]).
  intros buf'. reflexivity.
Qed.

End OutputBuffer.

(** The reference encoder, one frame per packet: a mono frame takes 20 bits,
    three bytes, and a buffer of three bytes is refused. *)
Lemma output_buffer_must_exceed_packet_witness :
  let a := fst (Reference.opened 1 8000 1) in
  let s := snd (Reference.opened 1 8000 1) in
  let r := encode_frame (A := Reference.libav) a s 3 (Some [1; 2; 3]) in
  packet_complete a s (Some [1; 2; 3]) = true
  /\ speex_bits_nbytes
       (LibSpeexEncContext.bits (after_input a s (Some [1; 2; 3]))) = 3
  /\ ret r = AVERROR EINVAL /\ frame r = None.
Proof.
  intros a s r.
  split; [reflexivity|]. split; [reflexivity|].
  apply (output_buffer_must_exceed_packet (L := Reference.speex)
           (A := Reference.libav) a s (Some [1; 2; 3]) 3);
    reflexivity.
Defined.

(** The reference encoder, two frames per packet: the second frame
    completes a packet of 40 bits, five bytes, and meets a buffer of two. *)
Lemma buffer_too_small_keeps_bits_only_witness :
  let a := fst (Reference.opened 1 8000 2) in
  let s := snd (Reference.opened 1 8000 2) in
  let r1 := encode_frame (A := Reference.libav) a s 100 (Some [1; 2; 3]) in
  let a1 := avctx_after r1 in
  let s1 := priv_after r1 in
  let s2 := after_input a1 s1 (Some [4; 5; 6]) in
  let r := encode_frame (A := Reference.libav) a1 s1 2 (Some [4; 5; 6]) in
  ret r = AVERROR EINVAL
  /\ frame r = None
  /\ LibSpeexEncContext.bits (priv_after r) = LibSpeexEncContext.bits s2
  /\ LibSpeexEncContext.pkt_frame_count (priv_after r) = 0
  /\ LibSpeexEncContext.pkt_sample_count (priv_after r) = 0
  /\ LibSpeexEncContext.next_pts (priv_after r)
     = CInt.int64 (LibSpeexEncContext.next_pts s2
                   + LibSpeexEncContext.pkt_sample_count s2)
  /\ forall buf',
       encode_frame (A := Reference.libav) (avctx_after r) (priv_after r)
         buf' None
       = {| ret := Ret 0; frame := None; samples_after := None;
            avctx_after := avctx_after r; priv_after := priv_after r |}.
Proof.
  intros a s r1 a1 s1 s2 r.
  apply (buffer_too_small_keeps_bits_only (L := Reference.speex)
           (A := Reference.libav) a1 s1 (Some [4; 5; 6]) 2).
  - reflexivity.
  - vm_compute. discriminate.
Defined.

(** C1 as it is stated fails on the same call: the buffer of two bytes is
    refused, and the call leaves a progress (frame count 0, sample count 0,
    [next_pts] 320) that is neither the one the completed packet had
    (2, 320, 0) nor the one before the call (1, 160, 0); a further call with
    a buffer of 100 bytes and no new samples returns 0 and no packet. *)
Lemma buffer_too_small_advances_state :
  let a := fst (Reference.opened 1 8000 2) in
  let s := snd (Reference.opened 1 8000 2) in
  let r1 := encode_frame (A := Reference.libav) a s 100 (Some [1; 2; 3]) in
  let a1 := avctx_after r1 in
  let s1 := priv_after r1 in
  let s2 := after_input a1 s1 (Some [4; 5; 6]) in
  let r := encode_frame (A := Reference.libav) a1 s1 2 (Some [4; 5; 6]) in
  let retry :=
    encode_frame (A := Reference.libav) (avctx_after r) (priv_after r) 100
      None in
  packet_complete a1 s1 (Some [4; 5; 6]) = true
  /\ speex_bits_nbytes (LibSpeexEncContext.bits s2) = 5
  /\ ret r = AVERROR EINVAL
  /\ ~ same_progress s2 (priv_after r)
  /\ ~ same_progress s1 (priv_after r)
  /\ (LibSpeexEncContext.pkt_frame_count s2,
      LibSpeexEncContext.pkt_sample_count s2,
      LibSpeexEncContext.next_pts s2) = (2, 320, 0)
  /\ (LibSpeexEncContext.pkt_frame_count (priv_after r),
      LibSpeexEncContext.pkt_sample_count (priv_after r),
      LibSpeexEncContext.next_pts (priv_after r)) = (0, 0, 320)
  /\ ret retry = Ret 0 /\ frame retry = None.
Proof.
  intros a s r1 a1 s1 s2 r retry.
  repeat split; try reflexivity.
  - intros (_ & H & _). vm_compute in H. discriminate.
  - intros (_ & H & _). vm_compute in H. discriminate.
Qed.

(* ------------------------------------------------------------------ *)
(** ** The end of the stream *)

Section EndOfStream.
Context {L : LibSpeex} {A : Libav}.

Import LibSpeexEncContext.

Local Abbreviation ctx := LibSpeexEncContext.t.
Local Abbreviation avc := AVCodecContext.t.

(** C5: on the end-of-stream marker, a context with no pending frame gives
    no output and no error and is left as it was.  With frames pending, the
    packet is filled up to [frames_per_packet]: one terminator code, the
    five bits of 15, is packed for each missing frame, the frame count goes
    up by one with each of them and ends at [frames_per_packet], and the
    sample count stays as it was; then the one packet is written out (into
    a buffer that is large enough for it), and the counters are cleared, so
    that a further end-of-stream call gives nothing more. *)
Theorem end_of_stream_pads_and_flushes avctx (s : ctx) buf :
  CInt.INT_MIN <= pkt_frame_count s <= frames_per_packet s ->
  frames_per_packet s <= CInt.INT_MAX ->
  let r := encode_frame avctx s buf None in
  let s1 := after_input avctx s None in
  let missing := Z.to_nat (frames_per_packet s - pkt_frame_count s) in
  (pkt_frame_count s = 0 ->
     r = {| ret := Ret 0; frame := None; samples_after := None;
            avctx_after := avctx; priv_after := s |})
  /\ (pkt_frame_count s <> 0 ->
        while_terminators s s1
        /\ bits s1 = terminators missing (bits s)
        /\ pkt_frame_count s1 = pkt_frame_count s + Z.of_nat missing
        /\ pkt_frame_count s1 = frames_per_packet s
        /\ pkt_sample_count s1 = pkt_sample_count s
        /\ (speex_bits_nbytes (bits s1) < buf ->
              frame r = Some (fst (speex_bits_write (bits s1) buf))
              /\ ret r = Ret (snd (speex_bits_write (bits s1) buf)))
        /\ pkt_frame_count (priv_after r) = 0
        /\ pkt_sample_count (priv_after r) = 0
        /\ forall buf',
             encode_frame (avctx_after r) (priv_after r) buf' None
             = {| ret := Ret 0; frame := None; samples_after := None;
                  avctx_after := avctx_after r;
                  priv_after := priv_after r |}).
Proof.
  intros [Hlo Hle] Hhi r s1 missing. split.
  - intros Hz. subst r. now apply encode_frame_eos_idle.
  - intros Hnz.
    assert (Hh : handle_input avctx s None = Proceed (add_terminators s) None)
      by now apply handle_input_eos_pending.
    assert (Hs1 : s1 = add_terminators s)
      by (subst s1; now apply after_input_proceed with (samples := None)).
    assert (Hspec := add_terminators_spec s Hlo Hhi).
    fold missing in Hspec.
    assert (Hw := add_terminators_while s Hlo Hhi).
    rewrite <- Hs1 in Hspec, Hw.
    assert (Hcount : pkt_frame_count s1 = frames_per_packet s)
      by (rewrite Hspec; cbn; lia).
    assert (Hfpp : frames_per_packet s1 = frames_per_packet s)
      by (rewrite Hspec; reflexivity).
    split; [exact Hw|].
    split; [rewrite Hspec; reflexivity|].
    split; [rewrite Hcount; subst missing; lia|].
    split; [exact Hcount|].
    split; [rewrite Hspec; reflexivity|].
    subst r. rewrite (encode_frame_proceed _ _ _ _ _ _ Hh), <- Hs1.
    assert (Hcomplete : pkt_frame_count s1 = frames_per_packet s1) by congruence.
    split.
    + intros Hbuf. rewrite write_output_emitted by assumption.
      split; reflexivity.
    + destruct (Z.lt_ge_cases (speex_bits_nbytes (bits s1)) buf) as [Hlt|Hge].
      * rewrite write_output_emitted by assumption. cbn.
        do 2 (split; [reflexivity|]). intros buf'. reflexivity.
      * rewrite write_output_refused by (assumption || lia). cbn.
        do 2 (split; [reflexivity|]). intros buf'. reflexivity.
Qed.

End EndOfStream.

(** The reference encoder, four frames per packet, one frame pending: three
    terminators are packed and the packet of 35 bits leaves in five bytes. *)
Lemma end_of_stream_pads_and_flushes_witness :
  let a := fst (Reference.opened 1 8000 4) in
  let s := snd (Reference.opened 1 8000 4) in
  let r1 := encode_frame (A := Reference.libav) a s 100 (Some [1; 2; 3]) in
  let a1 := avctx_after r1 in
  let s1 := priv_after r1 in
  let r := encode_frame (A := Reference.libav) a1 s1 100 None in
  let s2 := after_input a1 s1 None in
  LibSpeexEncContext.pkt_frame_count s1 = 1
  /\ LibSpeexEncContext.bits s2
     = terminators 3 (LibSpeexEncContext.bits s1)
  /\ LibSpeexEncContext.pkt_frame_count s2 = 4
  /\ LibSpeexEncContext.pkt_sample_count s2 = 160
  /\ frame r = Some [128; 0; 103; 189; 239]
  /\ ret r = Ret 5.
Proof.
  intros a s r1 a1 s1 r s2.
  split; [reflexivity|].
  assert (Hne : LibSpeexEncContext.pkt_frame_count s1 <> 0)
    by (vm_compute; discriminate).
  destruct (end_of_stream_pads_and_flushes (L := Reference.speex)
              (A := Reference.libav) a1 s1 100) as [_ H].
  - vm_compute. split; discriminate.
  - vm_compute. discriminate.
  - destruct (H Hne) as (_ & Hb & _ & Hc & Hs & He & _).
    split; [exact Hb|]. split; [exact Hc|]. split; [exact Hs|].
    apply He. reflexivity.
Defined.

(* ------------------------------------------------------------------ *)
(** ** When a packet leaves *)

Section Emission.
Context {L : LibSpeex} {A : Libav}.

Import LibSpeexEncContext.

Local Abbreviation ctx := LibSpeexEncContext.t.
Local Abbreviation avc := AVCodecContext.t.

Lemma terminator_loop_fpp (n : nat) : forall s : ctx,
  frames_per_packet (terminator_loop n s) = frames_per_packet s.
Proof.
  induction n as [|n IH]; intros s; cbn [terminator_loop]; [reflexivity|].
  destruct (pkt_frame_count s <? frames_per_packet s); [|reflexivity].
  rewrite IH. reflexivity.
Qed.

Lemma after_input_fpp avctx (s : ctx) data :
  frames_per_packet (after_input avctx s data) = frames_per_packet s.
Proof.
  unfold after_input. destruct data as [x|].
  - destruct (handle_input_samples avctx s x) as (s1 & x1 & -> & _ & _ & _ & Hf).
    exact Hf.
  - unfold handle_input. destruct (pkt_frame_count s =? 0); [reflexivity|].
    apply terminator_loop_fpp.
Qed.

(** Every call is the output step on the context that handling the input
    left; the early return of the end-of-stream branch is the output step
    finding the packet incomplete. *)
Lemma encode_frame_as_output avctx (s : ctx) buf data :
  1 <= frames_per_packet s ->
  exists samples,
    encode_frame avctx s buf data
    = write_output avctx (after_input avctx s data) buf samples.
Proof.
  intros Hfpp. unfold encode_frame, after_input.
  destruct (handle_input avctx s data) as [|s1 samples] eqn:Hh.
  - exists data. destruct data as [x|].
    + destruct (handle_input_samples avctx s x) as (s1 & x1 & Hx & _).
      congruence.
    + unfold handle_input in Hh.
      destruct (Z.eqb_spec (pkt_frame_count s) 0) as [Hz|]; [|discriminate].
      rewrite write_output_incomplete by lia. reflexivity.
  - exists samples. reflexivity.
Qed.

(** The three ways a call can end. *)
Lemma encode_frame_cases avctx (s : ctx) buf data :
  1 <= frames_per_packet s ->
  let s1 := after_input avctx s data in
  let r := encode_frame avctx s buf data in
  (pkt_frame_count s1 = frames_per_packet s
   /\ speex_bits_nbytes (bits s1) < buf
   /\ emitted r = true /\ refused r = false /\ no_packet r = false
   /\ priv_after r = packet_closed s1 (speex_bits_reset (bits s1))
   /\ avctx_after r = stamped avctx s1)
  \/ (pkt_frame_count s1 = frames_per_packet s
      /\ buf <= speex_bits_nbytes (bits s1)
      /\ emitted r = false /\ refused r = true /\ no_packet r = false
      /\ priv_after r = packet_closed s1 (bits s1)
      /\ avctx_after r = stamped avctx s1)
  \/ (pkt_frame_count s1 <> frames_per_packet s
      /\ emitted r = false /\ refused r = false /\ no_packet r = true
      /\ priv_after r = s1 /\ avctx_after r = avctx).
Proof.
  intros Hfpp s1 r.
  destruct (encode_frame_as_output avctx s buf data Hfpp) as [samples Hr].
  fold s1 r in Hr.
  assert (Hf : frames_per_packet s1 = frames_per_packet s)
    by apply after_input_fpp.
  destruct (Z.eq_dec (pkt_frame_count s1) (frames_per_packet s)) as [He|Hne].
  - destruct (Z.lt_ge_cases (speex_bits_nbytes (bits s1)) buf) as [Hlt|Hge].
    + left. rewrite Hr, write_output_emitted by congruence.
      repeat split; assumption || reflexivity.
    + right; left. rewrite Hr, write_output_refused by (congruence || lia).
      repeat split; assumption || lia || reflexivity.
  - right; right. rewrite Hr, write_output_incomplete by congruence.
    repeat split; assumption || reflexivity.
Qed.



End Emission.

Section RunFacts.
Context {L : LibSpeex} {A : Libav}.

Import LibSpeexEncContext.

Local Abbreviation ctx := LibSpeexEncContext.t.
Local Abbreviation avc := AVCodecContext.t.





End RunFacts.


(* ------------------------------------------------------------------ *)
(** ** The sample clock and the timestamps *)

Section Clock.
Context {L : LibSpeex} {A : Libav}.

Import LibSpeexEncContext.

Local Abbreviation ctx := LibSpeexEncContext.t.
Local Abbreviation avc := AVCodecContext.t.

Lemma ready_fpp_int avctx (s : ctx) :
  ready avctx s -> 1 <= frames_per_packet s <= CInt.INT_MAX.
Proof.
  intros (Hc & _ & Hfs & Hmax & _). split; [lia|]. nia.
Qed.

(** What handling the input does to the counters of a ready context. *)
Lemma after_input_ready avctx (s : ctx) data :
  ready avctx s ->
  let s1 := after_input avctx s data in
  let fs := AVCodecContext.frame_size avctx in
  next_pts s1 = next_pts s
  /\ frames_per_packet s1 = frames_per_packet s
  /\ match data with
     | Some _ =>
         pkt_frame_count s1 = pkt_frame_count s + 1
         /\ pkt_sample_count s1 = pkt_sample_count s + fs
     | None =>
         (pkt_frame_count s = 0 -> s1 = s)
         /\ (pkt_frame_count s <> 0 ->
             pkt_frame_count s1 = frames_per_packet s
             /\ pkt_sample_count s1 = pkt_sample_count s)
     end.
Proof.
  intros Hr s1 fs.
  assert (Hfpp := ready_fpp_int avctx s Hr).
  destruct Hr as (Hc & Hs & Hfs & Hmax & _). fold fs in Hs, Hfs, Hmax.
  subst s1. unfold after_input. destruct data as [x|].
  - destruct (handle_input_samples avctx s x)
      as (s1 & x1 & -> & Hc1 & Hs1 & Hn1 & Hf1).
    fold fs in Hs1.
    rewrite int_id in Hc1
      by (unfold CInt.in_int, CInt.INT_MIN; unfold CInt.INT_MAX in *; lia).
    rewrite int_id in Hs1
      by (unfold CInt.in_int, CInt.INT_MIN; unfold CInt.INT_MAX in *; nia).
    repeat split; assumption.
  - destruct (Z.eq_dec (pkt_frame_count s) 0) as [Hz|Hnz].
    + rewrite handle_input_eos_idle by assumption.
      repeat split; try reflexivity; intros; contradiction.
    + rewrite handle_input_eos_pending by assumption.
      rewrite add_terminators_spec
        by (unfold CInt.INT_MIN; unfold CInt.INT_MAX in *; lia).
      cbn. repeat split; try reflexivity; try (intros; contradiction).
      lia.
Qed.

(** One call on a ready context whose clock is in range. *)
Lemma ready_step avctx (s : ctx) buf data :
  ready avctx s ->
  clock_in_range avctx s 1 ->
  let s1 := after_input avctx s data in
  let r := encode_frame avctx s buf data in
  let conv := ff_samples_to_time_base avctx in
  ready (avctx_after r) (priv_after r)
  /\ (exists f, avctx_after r = AVCodecContext.set_coded_frame avctx f)
  /\ next_pts s <= next_pts (priv_after r)
  /\ clock_reach (priv_after r)
     <= clock_reach s + AVCodecContext.frame_size avctx
  /\ (emitted r = true ->
      packet_pts r
      = Some (conv (next_pts s - AVCodecContext.delay avctx))
      /\ next_pts (priv_after r) = next_pts s + pkt_sample_count s1
      /\ 0 < pkt_sample_count s1)
  /\ (emitted r = false -> packet_pts r = None).
Proof.
  intros Hr (Hd & Hlo & Hhi) s1 r conv.
  assert (Hfpp := ready_fpp_int avctx s Hr).
  assert (Hin := after_input_ready avctx s data Hr). fold s1 in Hin.
  destruct Hin as (Hn1 & Hf1 & Hdata).
  destruct Hr as (Hc & Hs & Hfs & Hmax & Hcf).
  set (fs := AVCodecContext.frame_size avctx) in *.
  assert (Heta : avctx
                 = AVCodecContext.set_coded_frame avctx
                     (AVCodecContext.coded_frame avctx))
    by (destruct avctx; reflexivity).
  assert (Hs1 : 0 <= pkt_sample_count s1 <= pkt_sample_count s + fs
                /\ (pkt_frame_count s1 = frames_per_packet s ->
                    0 < pkt_sample_count s1)
                /\ 0 <= pkt_frame_count s1 <= frames_per_packet s).
  { destruct data as [x|].
    - destruct Hdata as [Hc1 Hsc1]. nia.
    - destruct Hdata as [Hidle Hpend].
      destruct (Z.eq_dec (pkt_frame_count s) 0) as [Hz|Hnz].
      + rewrite (Hidle Hz). nia.
      + destruct (Hpend Hnz) as [Hc1 Hsc1]. nia. }
  unfold clock_reach, CInt.INT64_MIN, CInt.INT64_MAX in *.
  change CInt.INT_MAX with 2147483647 in *.
  destruct (AVCodecContext.coded_frame avctx) as [f0|] eqn:Hf0;
    [clear Hcf|contradiction].
  assert (Hstamp : forall s0,
             stamped avctx s0
             = AVCodecContext.set_coded_frame avctx
                 (Some {| pts := conv (CInt.int64
                                         (next_pts s0
                                          - AVCodecContext.delay avctx)) |})).
  { intros s0. unfold stamped, set_coded_frame_pts. rewrite Hf0. reflexivity. }
  assert (Hpts : CInt.int64 (next_pts s1 - AVCodecContext.delay avctx)
                 = next_pts s - AVCodecContext.delay avctx).
  { rewrite Hn1. apply int64_id.
    unfold CInt.in_int64, CInt.INT64_MIN, CInt.INT64_MAX. lia. }
  assert (Hadv : CInt.int64 (next_pts s1 + pkt_sample_count s1)
                 = next_pts s + pkt_sample_count s1).
  { rewrite Hn1. apply int64_id.
    unfold CInt.in_int64, CInt.INT64_MIN, CInt.INT64_MAX. lia. }
  assert (Hclosed : forall b,
             pkt_frame_count (packet_closed s1 b) = 0
             /\ pkt_sample_count (packet_closed s1 b) = 0
             /\ next_pts (packet_closed s1 b)
                = next_pts s + pkt_sample_count s1
             /\ frames_per_packet (packet_closed s1 b) = frames_per_packet s).
  { intros b. unfold packet_closed. cbn. rewrite Hadv, Hf1. now repeat split. }
  assert (Hready_closed : forall b f,
             ready (AVCodecContext.set_coded_frame avctx (Some f))
                   (packet_closed s1 b)).
  { intros b f. destruct (Hclosed b) as (H1 & H2 & H3 & H4).
    unfold ready. rewrite H1, H2, H4. cbn. fold fs.
    split; [lia|]. split; [lia|]. split; [lia|]. split; [lia|]. discriminate. }
  destruct (encode_frame_cases avctx s buf data (proj1 Hfpp))
    as [(He & _ & Hem & _ & _ & Hp & Ha)
       |[(He & _ & Hem & _ & _ & Hp & Ha)|(Hne & Hem & _ & _ & Hp & Ha)]];
    fold s1 r in Hem, Hp, Ha; fold s1 in He || fold s1 in Hne.
  - (* a packet is written *)
    rewrite Hp, Ha, Hstamp.
    destruct (Hclosed (speex_bits_reset (bits s1))) as (H1 & H2 & H3 & H4).
    split; [apply Hready_closed|].
    split; [eexists; reflexivity|].
    split; [rewrite H3; lia|].
    split; [rewrite H3, H2; fold fs; lia|].
    split.
    + intros _. split; [|split; [exact H3|lia]].
      unfold packet_pts. unfold emitted in Hem.
      destruct (frame r); [|discriminate].
      rewrite Ha, Hstamp. cbn. rewrite Hpts. reflexivity.
    + rewrite Hem. discriminate.
  - (* the buffer is too small *)
    rewrite Hp, Ha, Hstamp.
    destruct (Hclosed (bits s1)) as (H1 & H2 & H3 & H4).
    split; [apply Hready_closed|].
    split; [eexists; reflexivity|].
    split; [rewrite H3; lia|].
    split; [rewrite H3, H2; fold fs; lia|].
    split.
    + rewrite Hem. discriminate.
    + intros _. unfold packet_pts. unfold emitted in Hem.
      destruct (frame r); [discriminate|reflexivity].
  - (* the packet is not complete *)
    rewrite Hp, Ha.
    assert (Hs1c : pkt_sample_count s1 = pkt_frame_count s1 * fs).
    { destruct data as [x|].
      - destruct Hdata as [Hc1 Hsc1]. rewrite Hc1, Hsc1, Hs. lia.
      - destruct Hdata as [Hidle Hpend].
        destruct (Z.eq_dec (pkt_frame_count s) 0) as [Hz|Hnz].
        + rewrite (Hidle Hz). exact Hs.
        + destruct (Hpend Hnz) as [Hc1 _]. contradiction. }
    split.
    { unfold ready. rewrite Hf1, Hf0. fold fs.
      change CInt.INT_MAX with 2147483647.
      split; [lia|]. split; [exact Hs1c|]. split; [lia|]. split; [lia|].
      discriminate. }
    split; [exists (Some f0); exact Heta|].
    split; [rewrite Hn1; lia|].
    split; [rewrite Hn1; fold fs; lia|].
    split.
    + rewrite Hem. discriminate.
    + intros _. unfold packet_pts. unfold emitted in Hem.
      destruct (frame r); [discriminate|reflexivity].
Qed.

End Clock.

Section Timestamps.
Context {L : LibSpeex} {A : Libav}.

Import LibSpeexEncContext.

Local Abbreviation ctx := LibSpeexEncContext.t.
Local Abbreviation avc := AVCodecContext.t.

(** The codec context with which the run starts.  The conversion to the
    caller's time base is a function of libav; what is asked of it is that, for
    this context, it keeps the order of the sample clock and does not look at
    [coded_frame]. *)
Variable avctx : avc.

Hypothesis conv_increasing :
  forall x y, x < y ->
    ff_samples_to_time_base avctx x < ff_samples_to_time_base avctx y.

Hypothesis conv_ignores_frame :
  forall f x,
    ff_samples_to_time_base (AVCodecContext.set_coded_frame avctx f) x
    = ff_samples_to_time_base avctx x.



End Timestamps.



(* ------------------------------------------------------------------ *)
(** ** Floats: rounding gives a number, and clipping a number in range *)

Section Rounding.
Variables prec emax : Z.

Lemma shr_1_nonneg (mrs : shr_record) : 0 <= shr_m mrs -> 0 <= shr_m (shr_1 mrs).
Proof.
  destruct mrs as [m r s]. cbn.
  destruct m as [|p|p]; [cbn; lia| |lia].
  intros _. destruct p; cbn; lia.
Qed.

Lemma iter_pos_shr_1_nonneg (n : positive) : forall mrs,
  0 <= shr_m mrs -> 0 <= shr_m (iter_pos shr_1 n mrs).
Proof.
  induction n as [n IH|n IH|]; intros mrs H; cbn.
  - apply IH, IH, shr_1_nonneg, H.
  - apply IH, IH, H.
  - apply shr_1_nonneg, H.
Qed.

Lemma shr_fexp_nonneg (m e : Z) (l : location) :
  0 <= m -> 0 <= shr_m (fst (shr_fexp prec emax m e l)).
Proof.
  intros Hm. unfold shr_fexp, shr.
  assert (H0 : 0 <= shr_m (shr_record_of_loc m l))
    by (destruct l as [|[| |]]; exact Hm).
  destruct (fexp prec emax (Zdigits2 m + e) - e); cbn; try exact H0.
  now apply iter_pos_shr_1_nonneg.
Qed.

Lemma round_nearest_even_nonneg (m : Z) (l : location) :
  0 <= m -> 0 <= round_nearest_even m l.
Proof.
  intros Hm. destruct l as [|[| |]]; cbn; try lia.
  destruct (Z.even m); lia.
Qed.

(** Rounding a mantissa that is not negative never gives a NaN. *)
Lemma binary_round_aux_not_nan (sx : bool) (mx ex : Z) (lx : location) :
  0 <= mx -> binary_round_aux prec emax sx mx ex lx <> S754_nan.
Proof.
  intros Hm. unfold binary_round_aux.
  assert (H1 := shr_fexp_nonneg mx ex lx Hm).
  destruct (shr_fexp prec emax mx ex lx) as [mrs' e']. cbn [fst] in H1.
  assert (H2 := shr_fexp_nonneg
                  (round_nearest_even (shr_m mrs') (loc_of_shr_record mrs'))
                  e' loc_Exact (round_nearest_even_nonneg _ _ H1)).
  destruct (shr_fexp prec emax
              (round_nearest_even (shr_m mrs') (loc_of_shr_record mrs'))
              e' loc_Exact) as [mrs'' e'']. cbn [fst] in H2.
  destruct (shr_m mrs'') as [|m|m]; [discriminate| |lia].
  destruct (e'' <=? emax - prec); discriminate.
Qed.

Lemma binary_normalize_not_nan (m e : Z) (szero : bool) :
  binary_normalize prec emax m e szero <> S754_nan.
Proof.
  destruct m as [|p|p]; cbn; [discriminate| |];
    unfold binary_round;
    destruct (shl_align p e (fexp prec emax (Z.pos (digits2_pos p) + e)));
    apply binary_round_aux_not_nan; lia.
Qed.

(** A number divided by a finite number that is not zero is a number. *)
Lemma SFdiv_not_nan (x : spec_float) (sy : bool) (my : positive) (ey : Z) :
  x <> S754_nan -> SFdiv prec emax x (S754_finite sy my ey) <> S754_nan.
Proof.
  intros Hx. destruct x as [sx|sx| |sx mx ex]; cbn; try discriminate;
    [contradiction|].
  unfold SFdiv_core_binary.
  set (m' := match _ with Z.pos _ => _ | _ => _ end).
  assert (Hm' : 0 <= m').
  { subst m'. destruct (ex - ey - _) as [|p|p] eqn:E; try lia.
    apply Z.shiftl_nonneg. lia. }
  assert (Hq : 0 <= fst (Z.div_eucl m' (Z.pos my))).
  { change (fst (Z.div_eucl m' (Z.pos my))) with (m' / Z.pos my).
    apply Z.div_pos; lia. }
  destruct (Z.div_eucl m' (Z.pos my)) as [q r]. cbn [fst] in Hq.
  now apply binary_round_aux_not_nan.
Qed.

End Rounding.

Lemma SFcompare_antisym (x y : spec_float) (c : comparison) :
  SFcompare x y = Some c -> SFcompare y x = Some (CompOpp c).
Proof.
  destruct x as [sx|sx| |sx mx ex], y as [sy|sy| |sy my ey]; cbn;
    try discriminate;
    repeat match goal with b : bool |- _ => destruct b end; cbn;
    try (intros [= <-]; reflexivity).
  - rewrite (Z.compare_antisym ey ex).
    destruct (ey ?= ex) eqn:E; cbn; intros [= <-]; try reflexivity.
    rewrite (Pos.compare_cont_antisym mx my Eq). reflexivity.
  - rewrite (Z.compare_antisym ey ex).
    destruct (ey ?= ex) eqn:E; cbn; intros [= <-]; try reflexivity.
    rewrite (Pos.compare_cont_antisym mx my Eq). reflexivity.
Qed.

Lemma SFcompare_number (x y : spec_float) :
  x <> S754_nan -> y <> S754_nan -> exists c, SFcompare x y = Some c.
Proof.
  intros Hx Hy.
  destruct x as [sx|sx| |sx mx ex], y as [sy|sy| |sy my ey]; cbn;
    try contradiction; eexists; reflexivity.
Qed.

(** [av_clipf] of a number, between two bounds in order, is in range. *)
Lemma av_clipf_in_range (a amin amax : Float32.float) :
  a <> S754_nan -> amin <> S754_nan -> amax <> S754_nan ->
  Float32.leb amin amax = true ->
  Float32.leb amin (av_clipf a amin amax) = true
  /\ Float32.leb (av_clipf a amin amax) amax = true.
Proof.
  intros Ha Hmin Hmax Hle.
  unfold av_clipf, Float32.ltb, Float32.leb, SFltb, SFleb in *.
  destruct (SFcompare_number a amin Ha Hmin) as [c1 H1].
  destruct (SFcompare_number amax a Hmax Ha) as [c2 H2].
  destruct (SFcompare_number amin amin Hmin Hmin) as [c3 H3].
  destruct (SFcompare_number amax amax Hmax Hmax) as [c4 H4].
  assert (H3' := SFcompare_antisym _ _ _ H3).
  assert (H4' := SFcompare_antisym _ _ _ H4).
  assert (H1' := SFcompare_antisym _ _ _ H1).
  assert (H2' := SFcompare_antisym _ _ _ H2).
  rewrite H1, H2.
  destruct c1, c2; cbn in *;
    rewrite ?H1, ?H2, ?H1', ?H2', ?H3, ?H4; cbn;
    try (split; [reflexivity || assumption | reflexivity || assumption]);
    destruct c3, c4; cbn in *; try congruence;
    split; try reflexivity; try assumption.
Qed.

(* ------------------------------------------------------------------ *)
(** ** The log of calls *)

Lemma requests_app (l1 l2 : list ext_call) :
  requests (l1 ++ l2) = requests l1 ++ requests l2.
Proof.
  induction l1 as [|c l1 IH]; [reflexivity|]. cbn.
  destruct (request_of c); cbn; now rewrite IH.
Qed.

Lemma negotiated_bitrate_app (l1 l2 : list ext_call) :
  negotiated_bitrate (l1 ++ l2)
  = match negotiated_bitrate l2 with
    | Some b => Some b
    | None => negotiated_bitrate l1
    end.
Proof.
  induction l1 as [|c l1 IH]; cbn.
  - destruct (negotiated_bitrate l2); reflexivity.
  - rewrite IH. destruct (negotiated_bitrate l2); reflexivity.
Qed.

Lemma new_calls_app (w w' : World) (l : list ext_call) :
  calls w' = calls w ++ l -> new_calls w w' = l.
Proof.
  intros H. unfold new_calls. rewrite H.
  rewrite skipn_app, Nat.sub_diag, skipn_all. reflexivity.
Qed.

(** Bring a log to the form [calls w ++ l]. *)
Ltac log_norm :=
  cbn [calls live called acquire release];
  repeat rewrite <- app_assoc; cbn [app].

(* ------------------------------------------------------------------ *)
(** ** The stages of [encode_init] *)

Section Init.
Context {L : LibSpeex} {A : Libav}.

Import LibSpeexEncContext.

Local Abbreviation ctx := LibSpeexEncContext.t.
Local Abbreviation avc := AVCodecContext.t.

Lemma rate_control_spec (avctx : avc) (s : ctx) (w : World) :
  forall a1 s1 w1,
    rate_control avctx s w = (a1, s1, w1) ->
    exists l,
      calls w1 = calls w ++ l
      /\ live w1 = live w
      /\ requests l
         = spec_policy_requests (spec_select_policy avctx s) avctx s
      /\ same_config avctx a1 s s1
      /\ AVCodecContext.compression_level a1
         = AVCodecContext.compression_level avctx
      /\ SpeexHeader.frame_size (header s1) = SpeexHeader.frame_size (header s)
      /\ match spec_select_policy avctx s with
         | Policy_VBR =>
             SpeexHeader.vbr (header s1) = 1
             /\ vbr_quality s1
                = av_clipf
                    (scaled_quality (AVCodecContext.global_quality avctx))
                    Float32.zero Float32.ten
             /\ AVCodecContext.bit_rate a1 = AVCodecContext.bit_rate avctx
             /\ negotiated_bitrate l = None
         | _ =>
             negotiated_bitrate l = Some (SpeexHeader.bitrate (header s1))
             /\ AVCodecContext.bit_rate a1
                = CInt.int (SpeexHeader.bitrate (header s1)
                            + (if AVCodecContext.channels avctx =? 2
                               then 800 else 0))
             /\ SpeexHeader.vbr (header s1) = SpeexHeader.vbr (header s)
             /\ vbr_quality s1 = vbr_quality s
         end.
Proof.
  intros a1 s1 w1. unfold rate_control, spec_select_policy, qscale.
  destruct (negb (Z.land (AVCodecContext.flags avctx) CODEC_FLAG_QSCALE =? 0)).
  - unfold ctl. cbn. intros [= <- <- <-]. log_norm.
    eexists. split; [reflexivity|]. cbn.
    repeat split.
  - destruct (AVCodecContext.bit_rate avctx >? 0);
      [destruct (negb (abr s =? 0)) eqn:Habr|];
      unfold ctl; cbn; rewrite ?Habr; cbn; intros [= <- <- <-]; log_norm;
      (eexists; split; [reflexivity|]); cbn; repeat split.
Qed.

Lemma set_complexity_spec (avctx : avc) (s : ctx) (w : World) :
  forall a1 s1 w1,
    set_complexity avctx s w = (a1, s1, w1) ->
    exists l,
      calls w1 = calls w ++ l
      /\ live w1 = live w
      /\ no_rate_request l
      /\ same_config avctx a1 s s1
      /\ same_rate avctx a1 s s1
      /\ SpeexHeader.frame_size (header s1) = SpeexHeader.frame_size (header s).
Proof.
  intros a1 s1 w1. unfold set_complexity.
  destruct (AVCodecContext.compression_level avctx >? FF_COMPRESSION_DEFAULT);
    unfold ctl; cbn; intros [= <- <- <-]; log_norm;
    (eexists; split; [reflexivity|]); cbn; repeat split.
Qed.

Lemma alloc_outputs_spec (avctx : avc) (s : ctx) (w : World) :
  forall r a1 s1 w1,
    alloc_outputs avctx s w = (r, a1, s1, w1) ->
    exists l,
      calls w1 = calls w ++ l
      /\ no_rate_request l
      /\ same_config avctx a1 s s1
      /\ same_rate avctx a1 s s1
      /\ (r = Ret 0 \/ r = AVERROR ENOMEM).
Proof.
  intros r a1 s1 w1. unfold alloc_outputs. cbn.
  destruct (av_malloc _) as [extradata|];
    destruct avcodec_alloc_frame as [f|];
    cbn; intros [= <- <- <- <-]; log_norm;
    (eexists; split; [reflexivity|]); cbn; repeat split; auto.
Qed.


Lemma channels_in_range (avctx : avc) :
  1 <= AVCodecContext.channels avctx <= 2 ->
  (AVCodecContext.channels avctx <? 1)
  || (AVCodecContext.channels avctx >? 2) = false.
Proof.
  intros H. destruct (Z.ltb_spec (AVCodecContext.channels avctx) 1); [lia|].
  destruct (Z.gtb_spec (AVCodecContext.channels avctx) 2); [lia|].
  reflexivity.
Qed.

(** [encode_init] on a configuration that gets it a codec instance: the
    calls it makes, and what it leaves of the rate control. *)
Lemma encode_init_created (avctx : avc) (s : ctx) (w : World) (m : SpeexMode) :
  1 <= AVCodecContext.channels avctx <= 2 ->
  select_mode (AVCodecContext.sample_rate avctx) = Some m ->
  is_null (speex_encoder_init m) = false ->
  let res := encode_init avctx s w in
  exists lrate lrest,
    new_calls w (init_world res)
    = Call_speex_encoder_init m
      :: Call_speex_init_header (AVCodecContext.sample_rate avctx)
           (AVCodecContext.channels avctx) m
      :: lrate ++ lrest
    /\ requests lrate
       = spec_policy_requests (spec_select_policy avctx s) avctx s
    /\ no_rate_request lrest
    /\ (init_ret res = Ret 0 \/ init_ret res = AVERROR ENOMEM)
    /\ AVCodecContext.channels (init_avctx res) = AVCodecContext.channels avctx
    /\ match spec_select_policy avctx s with
       | Policy_VBR =>
           SpeexHeader.vbr (header (init_priv res)) = 1
           /\ vbr_quality (init_priv res)
              = av_clipf
                  (scaled_quality (AVCodecContext.global_quality avctx))
                  Float32.zero Float32.ten
           /\ AVCodecContext.bit_rate (init_avctx res)
              = AVCodecContext.bit_rate avctx
           /\ negotiated_bitrate lrate = None
       | _ =>
           negotiated_bitrate lrate
           = Some (SpeexHeader.bitrate (header (init_priv res)))
           /\ AVCodecContext.bit_rate (init_avctx res)
              = CInt.int (SpeexHeader.bitrate (header (init_priv res))
                          + (if AVCodecContext.channels avctx =? 2
                             then 800 else 0))
           /\ vbr_quality (init_priv res) = vbr_quality s
       end.
Proof.
  intros Hch Hm Hnn res. subst res. unfold encode_init.
  rewrite (channels_in_range _ Hch), Hm. cbn [enc_state set_enc_state].
  rewrite Hnn.
  set (s0 := set_header _ _). set (w0 := called (Call_speex_init_header _ _ _) _).
  destruct (rate_control avctx s0 w0) as [[a1 s1] w1] eqn:E1.
  destruct (rate_control_spec _ _ _ _ _ _ E1)
    as (l1 & Hl1 & _ & Hreq & Hcfg1 & _ & _ & Hpol).
  destruct (set_complexity a1 s1 w1) as [[a2 s2] w2] eqn:E2.
  destruct (set_complexity_spec _ _ _ _ _ _ E2)
    as (l2 & Hl2 & _ & Hno2 & Hcfg2 & Hrate2 & _).
  unfold ctl. cbn [fst snd].
  set (a3 := AVCodecContext.set_delay _ _).
  set (s3 := set_enc_state _ _).
  set (w3 := called (Call_speex_encoder_ctl SPEEX_GET_LOOKAHEAD _) w2).
  destruct (alloc_outputs a3 s3 w3) as [[[r a4] s4] w4] eqn:E4.
  destruct (alloc_outputs_spec _ _ _ _ _ _ _ E4)
    as (l4 & Hl4 & Hno4 & Hcfg4 & Hrate4 & Hret).
  unfold init_world, init_ret, init_avctx, init_priv. cbn [fst snd].
  exists l1, (l2 ++ Call_speex_encoder_ctl SPEEX_GET_LOOKAHEAD
                      (snd (speex_encoder_ctl (enc_state s2) SPEEX_GET_LOOKAHEAD))
                 :: l4).
  assert (Hlog : calls w4
                 = calls w
                   ++ Call_speex_encoder_init m
                      :: Call_speex_init_header
                           (AVCodecContext.sample_rate avctx)
                           (AVCodecContext.channels avctx) m
                      :: l1 ++ l2
                         ++ Call_speex_encoder_ctl SPEEX_GET_LOOKAHEAD
                              (snd (speex_encoder_ctl (enc_state s2)
                                      SPEEX_GET_LOOKAHEAD))
                            :: l4).
  { rewrite Hl4. subst w3. cbn [calls called]. rewrite Hl2, Hl1. subst w0.
    log_norm. reflexivity. }
  split; [exact (new_calls_app _ _ _ Hlog)|].
  split; [exact Hreq|].
  split.
  { destruct Hno2 as [Hf2 Hn2], Hno4 as [Hf4 Hn4]. split.
    - rewrite requests_app, filter_app, Hf2. cbn. exact Hf4.
    - rewrite negotiated_bitrate_app. cbn. rewrite Hn4. exact Hn2. }
  split; [exact Hret|].
  destruct Hcfg1 as (Hc1 & _), Hcfg2 as (Hc2 & _), Hcfg4 as (Hc4 & _).
  destruct Hrate2 as (Hb2 & Hhb2 & Hhv2 & Hq2).
  destruct Hrate4 as (Hb4 & Hhb4 & Hhv4 & Hq4).
  assert (Hb3 : AVCodecContext.bit_rate a3 = AVCodecContext.bit_rate a2)
    by reflexivity.
  assert (Hc3 : AVCodecContext.channels a3 = AVCodecContext.channels a2)
    by reflexivity.
  assert (Hhb3 : SpeexHeader.bitrate (header s3) = SpeexHeader.bitrate (header s2))
    by reflexivity.
  assert (Hhv3 : SpeexHeader.vbr (header s3) = SpeexHeader.vbr (header s2))
    by reflexivity.
  assert (Hq3 : vbr_quality s3 = vbr_quality s2) by reflexivity.
  clearbody a3 s3 w3.
  split; [congruence|].
  change (spec_select_policy avctx s0) with (spec_select_policy avctx s) in Hpol.
  destruct (spec_select_policy avctx s).
  - destruct Hpol as (Hv & Hq & Hb & Hn).
    rewrite Hhv4, Hhv3, Hhv2, Hq4, Hq3, Hq2, Hb4, Hb3, Hb2.
    repeat split; assumption.
  - destruct Hpol as (Hn & Hb & _ & Hq).
    rewrite Hhb4, Hhb3, Hhb2, Hq4, Hq3, Hq2, Hb4, Hb3, Hb2.
    repeat split; assumption.
  - destruct Hpol as (Hn & Hb & _ & Hq).
    rewrite Hhb4, Hhb3, Hhb2, Hq4, Hq3, Hq2, Hb4, Hb3, Hb2.
    repeat split; assumption.
  - destruct Hpol as (Hn & Hb & _ & Hq).
    rewrite Hhb4, Hhb3, Hhb2, Hq4, Hq3, Hq2, Hb4, Hb3, Hb2.
    repeat split; assumption.
Qed.

End Init.

(* ------------------------------------------------------------------ *)
(** ** What [encode_init] accepts and sets up *)

Section InitFacts.
Context {L : LibSpeex} {A : Libav}.

Import LibSpeexEncContext.

Local Abbreviation ctx := LibSpeexEncContext.t.
Local Abbreviation avc := AVCodecContext.t.

Lemma select_mode_spec (rate : Z) :
  match select_mode rate with
  | Some speex_nb_mode => rate = 8000
  | Some speex_wb_mode => rate = 16000
  | Some speex_uwb_mode => rate = 32000
  | None => rate <> 8000 /\ rate <> 16000 /\ rate <> 32000
  end.
Proof.
  unfold select_mode.
  destruct (Z.eqb_spec rate 8000); [assumption|].
  destruct (Z.eqb_spec rate 16000); [assumption|].
  destruct (Z.eqb_spec rate 32000); [assumption|].
  repeat split; assumption.
Qed.

Lemma encode_init_bad_channels (avctx : avc) (s : ctx) (w : World) :
  ~ 1 <= AVCodecContext.channels avctx <= 2 ->
  encode_init avctx s w = (AVERROR EINVAL, avctx, s, w).
Proof.
  intros H. unfold encode_init.
  destruct (Z.ltb_spec (AVCodecContext.channels avctx) 1); [reflexivity|].
  destruct (Z.gtb_spec (AVCodecContext.channels avctx) 2); [reflexivity|].
  lia.
Qed.

Lemma encode_init_bad_rate (avctx : avc) (s : ctx) (w : World) :
  1 <= AVCodecContext.channels avctx <= 2 ->
  select_mode (AVCodecContext.sample_rate avctx) = None ->
  encode_init avctx s w = (AVERROR EINVAL, avctx, s, w).
Proof.
  intros Hch Hm. unfold encode_init.
  rewrite (channels_in_range _ Hch), Hm. reflexivity.
Qed.

Lemma encode_init_null (avctx : avc) (s : ctx) (w : World) (m : SpeexMode) :
  1 <= AVCodecContext.channels avctx <= 2 ->
  select_mode (AVCodecContext.sample_rate avctx) = Some m ->
  is_null (speex_encoder_init m) = true ->
  encode_init avctx s w
  = (Ret (-1), avctx, set_enc_state s (speex_encoder_init m),
     called (Call_speex_encoder_init m) w).
Proof.
  intros Hch Hm Hn. unfold encode_init.
  rewrite (channels_in_range _ Hch), Hm. cbn [enc_state set_enc_state].
  rewrite Hn. reflexivity.
Qed.

(** The first call of a configuration that is accepted is
    [speex_encoder_init] with the mode of the sample rate. *)
Lemma encode_init_first_call (avctx : avc) (s : ctx) (w : World) (m : SpeexMode) :
  1 <= AVCodecContext.channels avctx <= 2 ->
  select_mode (AVCodecContext.sample_rate avctx) = Some m ->
  init_ret (encode_init avctx s w) <> AVERROR EINVAL
  /\ hd_error (new_calls w (init_world (encode_init avctx s w)))
     = Some (Call_speex_encoder_init m).
Proof.
  intros Hch Hm.
  destruct (is_null (speex_encoder_init m)) eqn:Hn.
  - rewrite (encode_init_null _ _ _ _ Hch Hm Hn). split; [discriminate|].
    unfold init_world. cbn [snd].
    rewrite (new_calls_app w _ [Call_speex_encoder_init m]); reflexivity.
  - destruct (encode_init_created avctx s w m Hch Hm Hn)
      as (lrate & lrest & Hlog & _ & _ & Hret & _).
    split.
    + destruct Hret as [-> | ->]; discriminate.
    + rewrite Hlog. reflexivity.
Qed.

(** C7: [encode_init] fails with [AVERROR(EINVAL)] exactly when the channel
    count is not 1 or 2 or the sample rate is not 8000, 16000 or 32000, and
    then it has done nothing; with channels and rate supported, the mode it
    creates the codec with is narrowband for 8000, wideband for 16000 and
    ultra-wideband for 32000. *)
Theorem invalid_config_exactly (avctx : avc) (s : ctx) (w : World) :
  let res := encode_init avctx s w in
  let ch := AVCodecContext.channels avctx in
  let rate := AVCodecContext.sample_rate avctx in
  let first_call := hd_error (new_calls w (init_world res)) in
  (init_ret res = AVERROR EINVAL
   <-> ~ (ch = 1 \/ ch = 2)
       \/ ~ (rate = 8000 \/ rate = 16000 \/ rate = 32000))
  /\ (init_ret res = AVERROR EINVAL -> res = (AVERROR EINVAL, avctx, s, w))
  /\ (ch = 1 \/ ch = 2 ->
      (rate = 8000 ->
       first_call = Some (Call_speex_encoder_init speex_nb_mode))
      /\ (rate = 16000 ->
          first_call = Some (Call_speex_encoder_init speex_wb_mode))
      /\ (rate = 32000 ->
          first_call = Some (Call_speex_encoder_init speex_uwb_mode))).
Proof.
  intros res ch rate first_call.
  destruct (Z_le_dec 1 ch) as [H1|H1], (Z_le_dec ch 2) as [H2|H2];
    try (assert (Hbad : ~ 1 <= AVCodecContext.channels avctx <= 2)
           by (fold ch; lia);
         subst res first_call;
         rewrite (encode_init_bad_channels avctx s w Hbad);
         split; [split; [intros _; left; lia|reflexivity]|];
         split; [reflexivity|]; intros; lia).
  assert (Hch : 1 <= AVCodecContext.channels avctx <= 2) by (fold ch; lia).
  assert (Hmode := select_mode_spec rate).
  destruct (select_mode rate) as [m|] eqn:Hm.
  - destruct (encode_init_first_call avctx s w m Hch Hm) as [Hret Hfirst].
    fold res in Hret, Hfirst. fold first_call in Hfirst.
    split; [split|split].
    + intros H. contradiction.
    + intros [H|H]; [exfalso; apply H; lia|].
      exfalso. apply H. destruct m; auto.
    + intros H. contradiction.
    + intros _. rewrite Hfirst.
      destruct m; repeat split; intros; (reflexivity || lia).
  - subst res first_call. rewrite (encode_init_bad_rate avctx s w Hch Hm).
    split; [split; [intros _; right; lia|reflexivity]|].
    split; [reflexivity|]. intros _. repeat split; intros; lia.
Qed.

Lemma negotiated_bitrate_prefix (m : SpeexMode) (rate ch : Z)
                                (l : list ext_call) :
  negotiated_bitrate
    (Call_speex_encoder_init m :: Call_speex_init_header rate ch m :: l)
  = negotiated_bitrate l.
Proof. cbn. destruct (negotiated_bitrate l); reflexivity. Qed.



(** C9: in the branches that are not VBR, the bitrate that [encode_init]
    reports in [avctx->bit_rate] is the one the codec answered, plus 800
    when there are two channels, and as it is when there is one. *)
Theorem stereo_bitrate_allowance (avctx : avc) (s : ctx) (w : World) :
  codec_created avctx ->
  qscale avctx = false ->
  let res := encode_init avctx s w in
  let b := SpeexHeader.bitrate (header (init_priv res)) in
  negotiated_bitrate (new_calls w (init_world res)) = Some b
  /\ AVCodecContext.bit_rate (init_avctx res)
     = CInt.int (b + (if AVCodecContext.channels avctx =? 2 then 800 else 0))
  /\ (AVCodecContext.channels avctx = 2 -> CInt.in_int (b + 800) ->
      AVCodecContext.bit_rate (init_avctx res) = b + 800)
  /\ (AVCodecContext.channels avctx = 1 -> CInt.in_int b ->
      AVCodecContext.bit_rate (init_avctx res) = b).
Proof.
  intros (Hch & m & Hm & Hnn) Hq res b.
  destruct (encode_init_created avctx s w m Hch Hm Hnn)
    as (lrate & lrest & Hlog & _ & [_ Hn] & _ & _ & Hpol).
  fold res in Hlog, Hpol.
  assert (Hboth : negotiated_bitrate lrate = Some b
                  /\ AVCodecContext.bit_rate (init_avctx res)
                     = CInt.int (b + (if AVCodecContext.channels avctx =? 2
                                      then 800 else 0))).
  { unfold spec_select_policy in Hpol. rewrite Hq in Hpol.
    destruct ((AVCodecContext.bit_rate avctx >? 0) && negb (abr s =? 0));
      [|destruct (AVCodecContext.bit_rate avctx >? 0)];
      destruct Hpol as (H1 & H2 & _); now split. }
  destruct Hboth as [Hneg Hbr].
  split; [|split; [exact Hbr|split]].
  - rewrite Hlog, negotiated_bitrate_prefix, negotiated_bitrate_app, Hn.
    exact Hneg.
  - intros H2 Hint. rewrite Hbr, H2. cbn. now apply int_id.
  - intros H1 Hint. rewrite Hbr, H1. cbn. rewrite Z.add_0_r. now apply int_id.
Qed.

(** C3, as the code has it: in VBR mode the quality that is stored is
    [global_quality / FF_QP2LAMBDA] clipped to [0.0, 10.0]; it is never below
    0.0 nor above 10.0, it is 0.0 when the quotient is below 0.0 and 10.0
    when the quotient is above 10.0, and the quotient itself otherwise. *)
Theorem vbr_quality_is_scaled_then_clamped (avctx : avc) (s : ctx) (w : World) :
  codec_created avctx ->
  qscale avctx = true ->
  Float32.finite_nonzero (Float32.of_int FF_QP2LAMBDA) = true ->
  let res := encode_init avctx s w in
  let q := vbr_quality (init_priv res) in
  let x := scaled_quality (AVCodecContext.global_quality avctx) in
  q = av_clipf x Float32.zero Float32.ten
  /\ Float32.leb Float32.zero q = true
  /\ Float32.leb q Float32.ten = true
  /\ (Float32.ltb x Float32.zero = true -> q = Float32.zero)
  /\ (Float32.ltb x Float32.zero = false ->
      Float32.ltb Float32.ten x = true -> q = Float32.ten)
  /\ (Float32.ltb x Float32.zero = false ->
      Float32.ltb Float32.ten x = false -> q = x).
Proof.
  intros (Hch & m & Hm & Hnn) Hq Hlam res q x.
  destruct (encode_init_created avctx s w m Hch Hm Hnn)
    as (lrate & lrest & _ & _ & _ & _ & _ & Hpol).
  fold res in Hpol. unfold spec_select_policy in Hpol. rewrite Hq in Hpol.
  destruct Hpol as (_ & Hclip & _). fold q x in Hclip.
  assert (Hx : x <> S754_nan).
  { subst x. unfold scaled_quality, Float32.div.
    destruct (Float32.of_int FF_QP2LAMBDA) as [| | |sy my ey];
      try discriminate.
    apply SFdiv_not_nan. apply binary_normalize_not_nan. }
  split; [exact Hclip|].
  destruct (av_clipf_in_range x Float32.zero Float32.ten Hx)
    as [Hlo Hhi]; try discriminate; try reflexivity.
  rewrite Hclip. split; [exact Hlo|]. split; [exact Hhi|].
  unfold av_clipf. repeat split.
  - intros ->. reflexivity.
  - intros -> ->. reflexivity.
  - intros -> ->. reflexivity.
Qed.

End InitFacts.


(** The reference encoder, stereo, CBR by quality 8: the codec answers
    20110 and 20910 is reported. *)
Lemma stereo_bitrate_allowance_witness :
  let a := Reference.avctx0 2 8000 in
  let s := Reference.priv0 1 in
  let res := encode_init (A := Reference.libav) a s empty_world in
  negotiated_bitrate (new_calls empty_world (init_world res)) = Some 20110
  /\ AVCodecContext.bit_rate (init_avctx res) = 20110 + 800.
Proof.
  intros a s res.
  destruct (stereo_bitrate_allowance (L := Reference.speex)
              (A := Reference.libav) a s empty_world)
    as (Hneg & _ & Hstereo & _).
  - split; [cbn; lia|]. exists speex_nb_mode. split; reflexivity.
  - reflexivity.
  - split; [exact Hneg|]. apply Hstereo; [reflexivity|].
    vm_compute. split; discriminate.
Defined.

(** The reference instance, where [FF_QP2LAMBDA] is 118: a quality of
    [-5 * 118] is stored as 0.0 and one of [11 * 118] as 10.0. *)
Lemma vbr_quality_is_scaled_then_clamped_witness :
  let s := Reference.priv0 1 in
  let low :=
    encode_init (A := Reference.libav) (Reference.avctx_qscale 1 8000 (-590))
      s empty_world in
  let high :=
    encode_init (A := Reference.libav) (Reference.avctx_qscale 1 8000 1298)
      s empty_world in
  LibSpeexEncContext.vbr_quality (init_priv low) = Float32.zero
  /\ LibSpeexEncContext.vbr_quality (init_priv high) = Float32.ten.
Proof.
  intros s low high.
  assert (Hcreated : forall q,
             codec_created (L := Reference.speex)
               (Reference.avctx_qscale 1 8000 q)).
  { intros q. split; [cbn; lia|]. exists speex_nb_mode. split; reflexivity. }
  split.
  - apply (vbr_quality_is_scaled_then_clamped (L := Reference.speex)
             (A := Reference.libav) (Reference.avctx_qscale 1 8000 (-590))
             s empty_world (Hcreated _)); reflexivity.
  - apply (vbr_quality_is_scaled_then_clamped (L := Reference.speex)
             (A := Reference.libav) (Reference.avctx_qscale 1 8000 1298)
             s empty_world (Hcreated _)); reflexivity.
Defined.

(** C3 as it is stated fails where [FF_QP2LAMBDA] is 118, as it is in
    libav: with the quality-scale flag set, a [global_quality] of 99 is
    stored as 99/118, which is the float 14075800 * 2^-24 (about 0.839), below
    1.0 and not 10.0; a [global_quality] of -5 is stored as 0.0. *)
Lemma vbr_quality_99_is_not_10 :
  let s := Reference.priv0 1 in
  let q99 :=
    LibSpeexEncContext.vbr_quality
      (init_priv
         (encode_init (A := Reference.libav)
            (Reference.avctx_qscale 1 8000 99) s empty_world)) in
  let q_5 :=
    LibSpeexEncContext.vbr_quality
      (init_priv
         (encode_init (A := Reference.libav)
            (Reference.avctx_qscale 1 8000 (-5)) s empty_world)) in
  init_ret (encode_init (A := Reference.libav)
              (Reference.avctx_qscale 1 8000 99) s empty_world) = Ret 0
  /\ q99 = S754_finite false 14075800 (-24)
  /\ q99 <> Float32.ten
  /\ Float32.ltb q99 (Float32.of_int 1) = true
  /\ q_5 = Float32.zero.
Proof.
  intros s q99 q_5. repeat split; try reflexivity.
  vm_compute. discriminate.
Qed.

(** The reference instance: 44100 Hz is refused, and so are three channels;
    16000 Hz mono is accepted, in wideband mode. *)
Example encode_init_examples :
  init_ret (encode_init (A := Reference.libav) (Reference.avctx0 2 44100)
              (Reference.priv0 1) empty_world) = AVERROR EINVAL
  /\ init_ret (encode_init (A := Reference.libav) (Reference.avctx0 3 8000)
                 (Reference.priv0 1) empty_world) = AVERROR EINVAL
  /\ init_ret (encode_init (A := Reference.libav) (Reference.avctx0 1 16000)
                 (Reference.priv0 1) empty_world) = Ret 0
  /\ hd_error (calls (init_world
                        (encode_init (A := Reference.libav)
                           (Reference.avctx0 1 16000) (Reference.priv0 1)
                           empty_world)))
     = Some (Call_speex_encoder_init speex_wb_mode).
Proof. repeat split. Qed.

(* ------------------------------------------------------------------ *)
(** ** Resources on the failure path of [encode_init] *)

Section Resources.
Context {L : LibSpeex} {A : Libav}.

Import LibSpeexEncContext.

Local Abbreviation ctx := LibSpeexEncContext.t.
Local Abbreviation avc := AVCodecContext.t.

(** With a codec instance, [encode_init] comes to the allocation of its
    outputs holding the codec instance and nothing else new. *)
Lemma encode_init_reaches_alloc (avctx : avc) (s : ctx) (w : World) :
  codec_created avctx ->
  exists a3 s3 w3,
    encode_init avctx s w = alloc_outputs a3 s3 w3
    /\ live w3 = Res_enc_state :: live w
    /\ AVCodecContext.extradata a3 = AVCodecContext.extradata avctx.
Proof.
  intros (Hch & m & Hm & Hnn). unfold encode_init.
  rewrite (channels_in_range _ Hch), Hm. cbn [enc_state set_enc_state].
  rewrite Hnn.
  set (s0 := set_header _ _). set (w0 := called (Call_speex_init_header _ _ _) _).
  destruct (rate_control avctx s0 w0) as [[a1 s1] w1] eqn:E1.
  assert (Ha1 : AVCodecContext.extradata a1 = AVCodecContext.extradata avctx).
  { revert E1. unfold rate_control.
    destruct (negb _); [|destruct (_ >? 0); [destruct (negb _)|]];
      unfold ctl; cbn; intros [= <- _ _]; reflexivity. }
  destruct (rate_control_spec _ _ _ _ _ _ E1) as (l1 & _ & Hlive1 & _).
  destruct (set_complexity a1 s1 w1) as [[a2 s2] w2] eqn:E2.
  assert (Ha2 : AVCodecContext.extradata a2 = AVCodecContext.extradata a1).
  { revert E2. unfold set_complexity.
    destruct (_ >? _); unfold ctl; cbn; intros [= <- _ _]; reflexivity. }
  destruct (set_complexity_spec _ _ _ _ _ _ E2) as (l2 & _ & Hlive2 & _).
  unfold ctl. cbn [fst snd].
  eexists _, _, _. split; [reflexivity|].
  cbn [live called]. rewrite Hlive2, Hlive1. subst w0.
  split; [reflexivity|].
  cbn. congruence.
Qed.

(** The failure path of the allocation step: what is released is the header
    packet and the codec instance; a block that [av_malloc] did give stays
    allocated, and [avctx->extradata] still points to it. *)
Lemma alloc_outputs_no_frame (avctx : avc) (s : ctx) (w : World) :
  avcodec_alloc_frame = None ->
  (forall n, av_malloc n <> None) ->
  let res := alloc_outputs avctx s w in
  init_ret res = AVERROR ENOMEM
  /\ live (init_world res)
     = Res_extradata
       :: remove resource_eq_dec Res_enc_state
            (remove resource_eq_dec Res_header_data (live w))
  /\ AVCodecContext.extradata (init_avctx res) <> None
  /\ AVCodecContext.coded_frame (init_avctx res) = None.
Proof.
  intros Hframe Hmalloc res. subst res. unfold alloc_outputs. cbn.
  rewrite Hframe.
  destruct (av_malloc _) as [buf|] eqn:Hbuf; [|now apply Hmalloc in Hbuf].
  cbn. repeat split. discriminate.
Qed.

(** So on any instance: when the frame cannot be allocated and the
    extradata can, [encode_init] started with nothing allocated returns
    [AVERROR(ENOMEM)] with the extradata block, and only it, still
    allocated. *)
Lemma encode_init_no_frame (avctx : avc) (s : ctx) (w : World) :
  codec_created avctx ->
  avcodec_alloc_frame = None ->
  (forall n, av_malloc n <> None) ->
  live w = [] ->
  let res := encode_init avctx s w in
  init_ret res = AVERROR ENOMEM
  /\ live (init_world res) = [Res_extradata]
  /\ AVCodecContext.extradata (init_avctx res) <> None.
Proof.
  intros Hcreated Hframe Hmalloc Hlive res.
  destruct (encode_init_reaches_alloc avctx s w Hcreated)
    as (a3 & s3 & w3 & Hinit & Hlive3 & _).
  subst res. rewrite Hinit.
  destruct (alloc_outputs_no_frame a3 s3 w3 Hframe Hmalloc)
    as (Hret & Hl & Hextra & _).
  split; [exact Hret|]. split; [|exact Hextra].
  rewrite Hl, Hlive3, Hlive. reflexivity.
Qed.

(** [encode_close] frees the frame and the extradata, and clears both
    pointers. *)
Lemma encode_close_releases (avctx : avc) (s : ctx) (w : World) :
  let res := encode_close avctx s w in
  init_ret res = Ret 0
  /\ AVCodecContext.extradata (init_avctx res) = None
  /\ AVCodecContext.coded_frame (init_avctx res) = None
  /\ ~ In Res_extradata (live (init_world res))
  /\ ~ In Res_coded_frame (live (init_world res))
  /\ ~ In Res_enc_state (live (init_world res))
  /\ ~ In Res_bits (live (init_world res)).
Proof.
  intros res. subst res. unfold encode_close. cbn.
  repeat split; intros H;
    repeat match type of H with
           | In ?r (remove _ ?r _) => now apply remove_In in H
           | In _ (remove _ _ _) => apply in_remove in H; destruct H as [H _]
           end.
Qed.

End Resources.

(** C2 fails on the code.  The reference instance with no memory for the
    frame: [av_malloc] gives the extradata block, [avcodec_alloc_frame] gives
    NULL, and [encode_init] returns [AVERROR(ENOMEM)] after
    [speex_header_free] and [speex_encoder_destroy] and nothing else: the
    extradata block is still allocated, [avctx->extradata] still points to
    it, and [s->enc_state] still holds the pointer to the encoder that was
    destroyed. *)
Theorem init_alloc_failure_leaks_extradata :
  let res :=
    encode_init (L := Reference.speex) (A := Reference.libav_no_frame)
      (Reference.avctx0 1 8000) (Reference.priv0 1) empty_world in
  init_ret res = AVERROR ENOMEM
  /\ live (init_world res) = [Res_extradata]
  /\ non_null (AVCodecContext.extradata (init_avctx res)) = true
  /\ is_null (LibSpeexEncContext.enc_state (init_priv res)) = false
  /\ skipn 10 (calls (init_world res))
     = [Call_speex_header_free; Call_speex_encoder_destroy].
Proof. intros res. repeat split. Qed.

(** On the same configuration with memory for the frame, [encode_init]
    succeeds and [encode_close] after it leaves nothing allocated. *)
Lemma open_then_close_releases_all :
  let opened :=
    encode_init (L := Reference.speex) (A := Reference.libav)
      (Reference.avctx0 1 8000) (Reference.priv0 1) empty_world in
  let closed :=
    encode_close (init_avctx opened) (init_priv opened) (init_world opened) in
  init_ret opened = Ret 0
  /\ live (init_world opened)
     = [Res_bits; Res_coded_frame; Res_extradata; Res_enc_state]
  /\ live (init_world closed) = [].
Proof. intros opened closed. repeat split. Qed.

(* ------------------------------------------------------------------ *)
(** ** From [encode_init] to the first call of [encode_frame] *)

Section Opened.
Context {L : LibSpeex} {A : Libav}.

Import LibSpeexEncContext.

Local Abbreviation ctx := LibSpeexEncContext.t.
Local Abbreviation avc := AVCodecContext.t.

(** The option system keeps [frames_per_packet] between 1 and 8. *)
Lemma options_frames_per_packet (s : ctx) :
  options_in_range s -> 1 <= frames_per_packet s <= 8.
Proof.
  unfold options_in_range, options. intros H.
  inversion H as [|o1 l1 _ H1]; subst.
  inversion H1 as [|o2 l2 _ H2]; subst.
  inversion H2 as [|o3 l3 H3 _]; subst.
  exact H3.
Qed.

Lemma rate_control_counters (avctx : avc) (s : ctx) (w : World) :
  forall a1 s1 w1,
    rate_control avctx s w = (a1, s1, w1) -> same_counters s s1.
Proof.
  intros a1 s1 w1. unfold rate_control.
  destruct (negb _); [|destruct (_ >? 0); [destruct (negb _)|]];
    unfold ctl; cbn; intros [= _ <- _]; repeat split.
Qed.

Lemma set_complexity_counters (avctx : avc) (s : ctx) (w : World) :
  forall a1 s1 w1,
    set_complexity avctx s w = (a1, s1, w1) -> same_counters s s1.
Proof.
  intros a1 s1 w1. unfold set_complexity.
  destruct (_ >? _); unfold ctl; cbn; intros [= _ <- _]; repeat split.
Qed.

(** The allocation step, when it succeeds: the frame for the timestamps is
    there, and the sizes set before it are kept. *)
Lemma alloc_outputs_ok (avctx : avc) (s : ctx) (w : World) :
  let res := alloc_outputs avctx s w in
  init_ret res = Ret 0 ->
  same_counters s (init_priv res)
  /\ bits (init_priv res) = speex_bits_init
  /\ AVCodecContext.frame_size (init_avctx res)
     = AVCodecContext.frame_size avctx
  /\ AVCodecContext.delay (init_avctx res) = AVCodecContext.delay avctx
  /\ AVCodecContext.coded_frame (init_avctx res) <> None
  /\ AVCodecContext.extradata (init_avctx res) <> None.
Proof.
  intros res. subst res. unfold alloc_outputs. cbn.
  destruct (av_malloc _) as [buf|]; destruct avcodec_alloc_frame as [f|];
    cbn; try discriminate.
  intros _. repeat split; discriminate.
Qed.

(** A successful [encode_init] on a private context whose counters are
    zero, as the framework hands it over, leaves the two contexts [ready]
    for [encode_frame], with the frame size that libspeex has for the mode,
    provided that this size is positive and a packet of such frames fits an
    [int]. *)
Lemma encode_init_ready (avctx : avc) (s : ctx) (w : World) (m : SpeexMode) :
  1 <= AVCodecContext.channels avctx <= 2 ->
  select_mode (AVCodecContext.sample_rate avctx) = Some m ->
  let fs :=
    SpeexHeader.frame_size
      (speex_init_header (AVCodecContext.sample_rate avctx)
         (AVCodecContext.channels avctx) m) in
  let res := encode_init avctx s w in
  init_ret res = Ret 0 ->
  pkt_frame_count s = 0 ->
  pkt_sample_count s = 0 ->
  1 <= frames_per_packet s ->
  0 < fs ->
  frames_per_packet s * fs <= CInt.INT_MAX ->
  ready (init_avctx res) (init_priv res)
  /\ AVCodecContext.frame_size (init_avctx res) = fs
  /\ next_pts (init_priv res) = next_pts s
  /\ bits (init_priv res) = speex_bits_init.
Proof.
  intros Hch Hm fs res Hret Hc Hsc Hfpp Hfs Hmax.
  subst res. revert Hret. unfold encode_init.
  rewrite (channels_in_range _ Hch), Hm. cbn [enc_state set_enc_state].
  destruct (is_null (speex_encoder_init m)); [discriminate|].
  set (s0 := set_header _ _). set (w0 := called (Call_speex_init_header _ _ _) _).
  destruct (rate_control avctx s0 w0) as [[a1 s1] w1] eqn:E1.
  destruct (rate_control_spec _ _ _ _ _ _ E1)
    as (l1 & _ & _ & _ & _ & _ & Hfs1 & _).
  assert (Hk1 := rate_control_counters _ _ _ _ _ _ E1).
  destruct (set_complexity a1 s1 w1) as [[a2 s2] w2] eqn:E2.
  destruct (set_complexity_spec _ _ _ _ _ _ E2)
    as (l2 & _ & _ & _ & _ & _ & Hfs2).
  assert (Hk2 := set_complexity_counters _ _ _ _ _ _ E2).
  unfold ctl. cbn [fst snd].
  set (a3 := AVCodecContext.set_delay _ _).
  set (s3 := set_enc_state _ _).
  set (w3 := called (Call_speex_encoder_ctl SPEEX_GET_LOOKAHEAD _) w2).
  intros Hret.
  destruct (alloc_outputs_ok a3 s3 w3 Hret)
    as ((Hc4 & Hsc4 & Hn4 & Hf4) & Hb4 & Hfs4 & _ & Hcf4 & _).
  destruct Hk1 as (Hc1 & Hsc1 & Hn1 & Hf1).
  destruct Hk2 as (Hc2 & Hsc2 & Hn2 & Hf2).
  assert (Hfs3 : AVCodecContext.frame_size a3 = fs).
  { subst a3 fs. cbn. rewrite Hfs2, Hfs1. reflexivity. }
  assert (Hc3 : pkt_frame_count s3 = pkt_frame_count s2) by reflexivity.
  assert (Hsc3 : pkt_sample_count s3 = pkt_sample_count s2) by reflexivity.
  assert (Hn3 : next_pts s3 = next_pts s2) by reflexivity.
  assert (Hf3 : frames_per_packet s3 = frames_per_packet s2) by reflexivity.
  assert (Hc0 : pkt_frame_count s0 = pkt_frame_count s) by reflexivity.
  assert (Hsc0 : pkt_sample_count s0 = pkt_sample_count s) by reflexivity.
  assert (Hn0 : next_pts s0 = next_pts s) by reflexivity.
  assert (Hf0 : frames_per_packet s0 = frames_per_packet s) by reflexivity.
  clearbody a3 s3 w3 s0 w0.
  split; [|split; [|split]].
  - unfold ready.
    rewrite Hc4, Hc3, Hc2, Hc1, Hc0, Hsc4, Hsc3, Hsc2, Hsc1, Hsc0,
      Hf4, Hf3, Hf2, Hf1, Hf0, Hfs4, Hfs3, Hc, Hsc.
    repeat split; try lia. exact Hcf4.
  - rewrite Hfs4. exact Hfs3.
  - rewrite Hn4, Hn3, Hn2, Hn1. exact Hn0.
  - exact Hb4.
Qed.

End Opened.

(* ------------------------------------------------------------------ *)
(** * More about [encode_init] *)

(** ** Its stages, one by one *)

Section Stages.
Context {L : LibSpeex} {A : Libav}.

Import LibSpeexEncContext.

Local Abbreviation ctx := LibSpeexEncContext.t.
Local Abbreviation avc := AVCodecContext.t.

(** With a codec instance, [encode_init] is its four stages in a row. *)
Lemma encode_init_stages (avctx : avc) (s : ctx) (w : World) (m : SpeexMode) :
  1 <= AVCodecContext.channels avctx <= 2 ->
  select_mode (AVCodecContext.sample_rate avctx) = Some m ->
  is_null (speex_encoder_init m) = false ->
  encode_init avctx s w
  = (let '(a1, s1, w1) :=
       rate_control avctx (with_codec avctx s m) (world_with_codec avctx w m) in
     let '(a2, s2, w2) := set_complexity a1 s1 w1 in
     let '(a3, s3, w3) := packet_size_and_delay a2 s2 w2 in
     alloc_outputs a3 s3 w3).
Proof.
  intros Hch Hm Hnn. unfold encode_init.
  rewrite (channels_in_range _ Hch), Hm. cbn [enc_state set_enc_state].
  rewrite Hnn. fold (with_codec avctx s m) (world_with_codec avctx w m).
  destruct (rate_control _ _ _) as [[a1 s1] w1].
  destruct (set_complexity a1 s1 w1) as [[a2 s2] w2].
  reflexivity.
Qed.

(** What the rate control leaves alone. *)
Lemma rate_control_keeps (avctx : avc) (s : ctx) (w : World) :
  forall a1 s1 w1,
    rate_control avctx s w = (a1, s1, w1) ->
    same_settings avctx a1
    /\ same_options s s1
    /\ (qscale avctx = true -> a1 = avctx)
    /\ AVCodecContext.compression_level a1
       = AVCodecContext.compression_level avctx
    /\ AVCodecContext.extradata a1 = AVCodecContext.extradata avctx
    /\ AVCodecContext.coded_frame a1 = AVCodecContext.coded_frame avctx
    /\ SpeexHeader.set_bitrate (SpeexHeader.set_vbr (header s1) 0) 0
       = SpeexHeader.set_bitrate (SpeexHeader.set_vbr (header s) 0) 0
    /\ bits s1 = bits s
    /\ live w1 = live w
    /\ SpeexHeader.vbr (header s1)
       = (if qscale avctx then 1 else SpeexHeader.vbr (header s)).
Proof.
  intros a1 s1 w1. unfold rate_control, qscale.
  destruct (negb _); [|destruct (_ >? 0); [destruct (negb _)|]];
    unfold ctl; cbn; intros [= <- <- <-]; repeat split; try discriminate.
Qed.

(** The complexity stage: one request that reads the complexity back,
    after one that pushes the clipped level when a level was given. *)
Lemma set_complexity_exact (avctx : avc) (s : ctx) (w : World) :
  forall a1 s1 w1,
    set_complexity avctx s w = (a1, s1, w1) ->
    exists pushed answer c,
      a1 = AVCodecContext.set_compression_level avctx c
      /\ calls w1
         = calls w
           ++ (if AVCodecContext.compression_level avctx
                  >? FF_COMPRESSION_DEFAULT
               then [Call_speex_encoder_ctl (SPEEX_SET_COMPLEXITY pushed) answer]
               else [])
           ++ [Call_speex_encoder_ctl SPEEX_GET_COMPLEXITY c]
      /\ pushed = av_clip (AVCodecContext.compression_level avctx) 0 10
      /\ live w1 = live w
      /\ header s1 = header s
      /\ bits s1 = bits s
      /\ same_options s s1.
Proof.
  intros a1 s1 w1. unfold set_complexity.
  destruct (_ >? _); unfold ctl; cbn; intros [= <- <- <-]; log_norm;
    eexists _, _, _; (split; [reflexivity|]); (split; [reflexivity|]);
    repeat split.
  Unshelve. all: exact 0.
Qed.

Lemma packet_size_and_delay_exact (avctx : avc) (s : ctx) (w : World) :
  forall a1 s1 w1,
    packet_size_and_delay avctx s w = (a1, s1, w1) ->
    exists d,
      a1 = AVCodecContext.set_delay
             (AVCodecContext.set_frame_size avctx
                (SpeexHeader.frame_size (header s))) d
      /\ calls w1 = calls w ++ [Call_speex_encoder_ctl SPEEX_GET_LOOKAHEAD d]
      /\ live w1 = live w
      /\ header s1
         = SpeexHeader.set_frames_per_packet (header s) (frames_per_packet s)
      /\ bits s1 = bits s
      /\ same_options s s1.
Proof.
  intros a1 s1 w1. unfold packet_size_and_delay, ctl. cbn.
  intros [= <- <- <-]. eexists. repeat split.
Qed.

(** The allocation stage, by what the two allocations give. *)
Lemma alloc_outputs_exact (avctx : avc) (s : ctx) (w : World) :
  let res := alloc_outputs avctx s w in
  let header_data := speex_header_to_packet (header s) in
  let n := extradata_alloc_size s in
  header (init_priv res) = header s
  /\ same_options s (init_priv res)
  /\ same_settings avctx (init_avctx res)
  /\ AVCodecContext.bit_rate (init_avctx res) = AVCodecContext.bit_rate avctx
  /\ AVCodecContext.compression_level (init_avctx res)
     = AVCodecContext.compression_level avctx
  /\ AVCodecContext.frame_size (init_avctx res)
     = AVCodecContext.frame_size avctx
  /\ AVCodecContext.delay (init_avctx res) = AVCodecContext.delay avctx
  /\ AVCodecContext.coded_frame (init_avctx res) = avcodec_alloc_frame
  /\ match av_malloc n, avcodec_alloc_frame with
     | Some buf, Some f =>
         init_ret res = Ret 0
         /\ AVCodecContext.extradata (init_avctx res)
            = Some (memcpy buf header_data (Z.of_nat (length header_data)))
         /\ AVCodecContext.extradata_size (init_avctx res)
            = Z.of_nat (length header_data)
         /\ bits (init_priv res) = speex_bits_init
         /\ calls (init_world res)
            = calls w
              ++ [Call_speex_header_to_packet; Call_av_malloc n;
                  Call_avcodec_alloc_frame; Call_speex_header_free;
                  Call_speex_bits_init]
         /\ live (init_world res)
            = Res_bits :: Res_coded_frame :: Res_extradata
              :: remove resource_eq_dec Res_header_data (live w)
     | extradata, frame =>
         init_ret res = AVERROR ENOMEM
         /\ AVCodecContext.extradata (init_avctx res) = extradata
         /\ bits (init_priv res) = bits s
         /\ calls (init_world res)
            = calls w
              ++ [Call_speex_header_to_packet; Call_av_malloc n;
                  Call_avcodec_alloc_frame; Call_speex_header_free;
                  Call_speex_encoder_destroy]
         /\ live (init_world res)
            = (if non_null frame then [Res_coded_frame] else [])
              ++ (if non_null extradata then [Res_extradata] else [])
              ++ remove resource_eq_dec Res_enc_state
                   (remove resource_eq_dec Res_header_data (live w))
     end.
Proof.
  intros res header_data n. subst res n header_data.
  unfold alloc_outputs, extradata_alloc_size. cbn.
  destruct (av_malloc _) as [buf|]; destruct avcodec_alloc_frame as [f|];
    cbn; log_norm; repeat split.
Qed.

End Stages.

(** ** The whole of it *)

Section Whole.
Context {L : LibSpeex} {A : Libav}.

Import LibSpeexEncContext.

Local Abbreviation ctx := LibSpeexEncContext.t.
Local Abbreviation avc := AVCodecContext.t.

Lemma complexities_pushed_app (l1 l2 : list ext_call) :
  complexities_pushed (l1 ++ l2)
  = complexities_pushed l1 ++ complexities_pushed l2.
Proof.
  induction l1 as [|c l1 IH]; [reflexivity|]. cbn.
  destruct c as [| |r z| | | | | | | |]; try exact IH.
  destruct r; try exact IH. cbn. now rewrite IH.
Qed.

Lemma last_answer_app (want : speex_request -> bool) (l1 l2 : list ext_call) :
  last_answer want (l1 ++ l2)
  = match last_answer want l2 with
    | Some z => Some z
    | None => last_answer want l1
    end.
Proof.
  induction l1 as [|c l1 IH]; cbn.
  - destruct (last_answer want l2); reflexivity.
  - rewrite IH. destruct (last_answer want l2); reflexivity.
Qed.

(** The rate control pushes no complexity and reads back neither the
    complexity nor the lookahead. *)
Lemma rate_control_log_other (avctx : avc) (s : ctx) (w : World) :
  forall a1 s1 w1,
    rate_control avctx s w = (a1, s1, w1) ->
    exists l,
      calls w1 = calls w ++ l
      /\ complexities_pushed l = []
      /\ last_answer is_get_complexity l = None
      /\ last_answer is_get_lookahead l = None.
Proof.
  intros a1 s1 w1. unfold rate_control.
  destruct (negb _); [|destruct (_ >? 0); [destruct (negb _)|]];
    unfold ctl; cbn; intros [= <- <- <-]; log_norm;
    (eexists; split; [reflexivity|]); repeat split.
Qed.

(** Everything that [encode_init] has done when it had a codec instance:
    the calls in their order, what it reports in [avctx], the header it
    leaves, and the outcome of the two allocations. *)
Lemma encode_init_whole (avctx : avc) (s : ctx) (w : World) (m : SpeexMode) :
  1 <= AVCodecContext.channels avctx <= 2 ->
  select_mode (AVCodecContext.sample_rate avctx) = Some m ->
  is_null (speex_encoder_init m) = false ->
  let res := encode_init avctx s w in
  let first := speex_init_header (AVCodecContext.sample_rate avctx)
                 (AVCodecContext.channels avctx) m in
  let level := AVCodecContext.compression_level avctx in
  let packet := speex_header_to_packet (header (init_priv res)) in
  let n := extradata_alloc_size (init_priv res) in
  exists lrate answer c d last_call,
    calls (init_world res)
    = calls w
      ++ Call_speex_encoder_init m
         :: Call_speex_init_header (AVCodecContext.sample_rate avctx)
              (AVCodecContext.channels avctx) m
         :: lrate
      ++ (if level >? FF_COMPRESSION_DEFAULT
          then [Call_speex_encoder_ctl
                  (SPEEX_SET_COMPLEXITY (av_clip level 0 10)) answer]
          else [])
      ++ [Call_speex_encoder_ctl SPEEX_GET_COMPLEXITY c;
          Call_speex_encoder_ctl SPEEX_GET_LOOKAHEAD d;
          Call_speex_header_to_packet; Call_av_malloc n;
          Call_avcodec_alloc_frame; Call_speex_header_free; last_call]
    /\ (complexities_pushed lrate = []
        /\ last_answer is_get_complexity lrate = None
        /\ last_answer is_get_lookahead lrate = None)
    /\ (last_call = Call_speex_bits_init
        \/ last_call = Call_speex_encoder_destroy)
    /\ SpeexHeader.vbr (header (init_priv res))
       = (if qscale avctx then 1 else SpeexHeader.vbr first)
    /\ AVCodecContext.compression_level (init_avctx res) = c
    /\ AVCodecContext.delay (init_avctx res) = d
    /\ AVCodecContext.frame_size (init_avctx res) = SpeexHeader.frame_size first
    /\ SpeexHeader.set_bitrate (SpeexHeader.set_vbr (header (init_priv res)) 0) 0
       = SpeexHeader.set_bitrate
           (SpeexHeader.set_vbr
              (SpeexHeader.set_frames_per_packet first (frames_per_packet s))
              0) 0
    /\ same_settings avctx (init_avctx res)
    /\ same_options s (init_priv res)
    /\ (qscale avctx = true ->
        AVCodecContext.bit_rate (init_avctx res)
        = AVCodecContext.bit_rate avctx)
    /\ AVCodecContext.coded_frame (init_avctx res) = avcodec_alloc_frame
    /\ match av_malloc n, avcodec_alloc_frame with
       | Some buf, Some f =>
           init_ret res = Ret 0
           /\ last_call = Call_speex_bits_init
           /\ AVCodecContext.extradata (init_avctx res)
              = Some (memcpy buf packet (Z.of_nat (length packet)))
           /\ AVCodecContext.extradata_size (init_avctx res)
              = Z.of_nat (length packet)
           /\ bits (init_priv res) = speex_bits_init
           /\ live (init_world res)
              = Res_bits :: Res_coded_frame :: Res_extradata :: Res_enc_state
                :: remove resource_eq_dec Res_header_data (live w)
       | extradata, frame =>
           init_ret res = AVERROR ENOMEM
           /\ last_call = Call_speex_encoder_destroy
           /\ AVCodecContext.extradata (init_avctx res) = extradata
           /\ bits (init_priv res) = bits s
           /\ live (init_world res)
              = (if non_null frame then [Res_coded_frame] else [])
                ++ (if non_null extradata then [Res_extradata] else [])
                ++ remove resource_eq_dec Res_enc_state
                     (remove resource_eq_dec Res_header_data (live w))
       end.
Proof.
  intros Hch Hm Hnn res first level packet n.
  subst res packet n. rewrite (encode_init_stages avctx s w m Hch Hm Hnn).
  destruct (rate_control _ _ _) as [[a1 s1] w1] eqn:E1.
  destruct (rate_control_keeps _ _ _ _ _ _ E1)
    as (Hset1 & Hopt1 & Hq1 & Hlev1 & Hex1 & _ & Hh1 & Hb1 & Hlive1 & Hv1).
  destruct (rate_control_log_other _ _ _ _ _ _ E1)
    as (lrate & Hl1 & Hcp & Hgc & Hgl).
  destruct (set_complexity a1 s1 w1) as [[a2 s2] w2] eqn:E2.
  destruct (set_complexity_exact _ _ _ _ _ _ E2)
    as (pushed & answer & c & Ha2 & Hl2 & Hpushed & Hlive2 & Hh2 & Hb2 & Hopt2).
  destruct (packet_size_and_delay a2 s2 w2) as [[a3 s3] w3] eqn:E3.
  destruct (packet_size_and_delay_exact _ _ _ _ _ _ E3)
    as (d & Ha3 & Hl3 & Hlive3 & Hh3 & Hb3 & Hopt3).
  assert (Hal := alloc_outputs_exact a3 s3 w3). cbv zeta in Hal.
  destruct Hal as (Hh4 & Hopt4 & Hset4 & Hbr4 & Hlev4 & Hfs4 & Hd4 & Hcf4 & Hcase).
  set (res := alloc_outputs a3 s3 w3) in *.
  assert (Hn : extradata_alloc_size (init_priv res) = extradata_alloc_size s3)
    by (unfold extradata_alloc_size; rewrite Hh4; reflexivity).
  rewrite Hn, Hh4.
  assert (Hlive : live w3 = Res_enc_state :: live w)
    by (rewrite Hlive3, Hlive2, Hlive1; reflexivity).
  assert (Hopts : same_options s (init_priv res)).
  { destruct Hopt1 as (x1 & x2 & x3 & x4 & x5 & x6).
    destruct Hopt2 as (y1 & y2 & y3 & y4 & y5 & y6).
    destruct Hopt3 as (z1 & z2 & z3 & z4 & z5 & z6).
    destruct Hopt4 as (u1 & u2 & u3 & u4 & u5 & u6).
    unfold same_options.
    rewrite u1, u2, u3, u4, u5, u6, z1, z2, z3, z4, z5, z6,
      y1, y2, y3, y4, y5, y6, x1, x2, x3, x4, x5, x6.
    repeat split. }
  assert (Hsets : same_settings avctx (init_avctx res)).
  { destruct Hset1 as (x1 & x2 & x3 & x4 & x5).
    destruct Hset4 as (u1 & u2 & u3 & u4 & u5).
    unfold same_settings. rewrite u1, u2, u3, u4, u5, Ha3, Ha2. cbn.
    repeat split; assumption. }
  set (last_call :=
         match av_malloc (extradata_alloc_size s3), avcodec_alloc_frame with
         | Some _, Some _ => Call_speex_bits_init
         | _, _ => Call_speex_encoder_destroy
         end).
  exists lrate, answer, c, d, last_call.
  split.
  { assert (Hcalls : calls (init_world res)
                     = calls w3
                       ++ [Call_speex_header_to_packet;
                           Call_av_malloc (extradata_alloc_size s3);
                           Call_avcodec_alloc_frame; Call_speex_header_free;
                           last_call]).
    { subst last_call.
      destruct (av_malloc (extradata_alloc_size s3)) as [buf|];
        destruct avcodec_alloc_frame as [f|];
        [destruct Hcase as (_ & _ & _ & _ & Hc & _)
        |destruct Hcase as (_ & _ & _ & Hc & _)
        |destruct Hcase as (_ & _ & _ & Hc & _)
        |destruct Hcase as (_ & _ & _ & Hc & _)]; exact Hc. }
    rewrite Hcalls, Hl3, Hl2, Hl1. unfold world_with_codec.
    subst level. rewrite Hlev1, Hpushed, Hlev1. log_norm.
    destruct (_ >? _); reflexivity. }
  split; [repeat split; assumption|].
  split.
  { subst last_call.
    destruct (av_malloc (extradata_alloc_size s3));
      destruct avcodec_alloc_frame; auto. }
  split; [rewrite Hh3, Hh2; cbn; exact Hv1|].
  split; [rewrite Hlev4, Ha3, Ha2; reflexivity|].
  split; [rewrite Hd4, Ha3; reflexivity|].
  split.
  { rewrite Hfs4, Ha3. cbn. rewrite Hh2.
    assert (Hf : SpeexHeader.frame_size
                   (SpeexHeader.set_bitrate (SpeexHeader.set_vbr (header s1) 0) 0)
                 = SpeexHeader.frame_size first)
      by (rewrite Hh1; reflexivity).
    exact Hf. }
  split.
  { rewrite Hh3, Hh2.
    destruct Hopt1 as (x1 & _). destruct Hopt2 as (y1 & _).
    rewrite y1, x1.
    change (SpeexHeader.set_frames_per_packet
              (SpeexHeader.set_bitrate (SpeexHeader.set_vbr (header s1) 0) 0)
              (frames_per_packet s)
            = SpeexHeader.set_frames_per_packet
                (SpeexHeader.set_bitrate (SpeexHeader.set_vbr first 0) 0)
                (frames_per_packet s)).
    rewrite Hh1. reflexivity. }
  split; [exact Hsets|]. split; [exact Hopts|].
  split; [intros Hq; rewrite Hbr4, Ha3, Ha2; cbn; now rewrite (Hq1 Hq)|].
  split; [exact Hcf4|].
  subst last_call.
  destruct (av_malloc (extradata_alloc_size s3)) as [buf|];
    destruct avcodec_alloc_frame as [f|].
  - destruct Hcase as (H1 & H2 & H3 & H4 & _ & H6).
    rewrite H6, Hlive. cbn. repeat split; assumption.
  - destruct Hcase as (H1 & H2 & H3 & _ & H5).
    rewrite H5, Hlive. cbn. repeat split; try assumption.
    rewrite H3, Hb3, Hb2, Hb1. reflexivity.
  - destruct Hcase as (H1 & H2 & H3 & _ & H5).
    rewrite H5, Hlive. cbn. repeat split; try assumption.
    rewrite H3, Hb3, Hb2, Hb1. reflexivity.
  - destruct Hcase as (H1 & H2 & H3 & _ & H5).
    rewrite H5, Hlive. cbn. repeat split; try assumption.
    rewrite H3, Hb3, Hb2, Hb1. reflexivity.
Qed.

End Whole.

(** ** How [encode_init] ends *)

Section Outcome.
Context {L : LibSpeex} {A : Libav}.

Import LibSpeexEncContext.

Local Abbreviation ctx := LibSpeexEncContext.t.
Local Abbreviation avc := AVCodecContext.t.

(** The four ways through [encode_init]. *)
Lemma encode_init_ways (avctx : avc) (s : ctx) (w : World) :
  (~ 1 <= AVCodecContext.channels avctx <= 2
   /\ encode_init avctx s w = (AVERROR EINVAL, avctx, s, w))
  \/ (1 <= AVCodecContext.channels avctx <= 2
      /\ select_mode (AVCodecContext.sample_rate avctx) = None
      /\ encode_init avctx s w = (AVERROR EINVAL, avctx, s, w))
  \/ (exists m,
        1 <= AVCodecContext.channels avctx <= 2
        /\ select_mode (AVCodecContext.sample_rate avctx) = Some m
        /\ is_null (speex_encoder_init m) = true
        /\ encode_init avctx s w
           = (Ret (-1), avctx, set_enc_state s (speex_encoder_init m),
              called (Call_speex_encoder_init m) w))
  \/ (exists m,
        1 <= AVCodecContext.channels avctx <= 2
        /\ select_mode (AVCodecContext.sample_rate avctx) = Some m
        /\ is_null (speex_encoder_init m) = false).
Proof.
  destruct (Z_le_dec 1 (AVCodecContext.channels avctx)) as [H1|H1];
    [destruct (Z_le_dec (AVCodecContext.channels avctx) 2) as [H2|H2]|];
    try (left; split; [lia|apply encode_init_bad_channels; lia]).
  assert (Hch : 1 <= AVCodecContext.channels avctx <= 2) by lia.
  destruct (select_mode (AVCodecContext.sample_rate avctx)) as [m|] eqn:Hm.
  - destruct (is_null (speex_encoder_init m)) eqn:Hn.
    + right; right; left. exists m. repeat split; try assumption; try lia.
      now apply encode_init_null.
    + right; right; right. exists m. repeat split; try assumption; lia.
  - right; left. repeat split; try assumption; try lia.
    now apply encode_init_bad_rate.
Qed.

Lemma not_created_without_mode (avctx : avc) :
  select_mode (AVCodecContext.sample_rate avctx) = None ->
  ~ codec_created avctx.
Proof. intros Hm (_ & m & Hm' & _). congruence. Qed.

Lemma not_created_when_null (avctx : avc) (m : SpeexMode) :
  select_mode (AVCodecContext.sample_rate avctx) = Some m ->
  is_null (speex_encoder_init m) = true ->
  ~ codec_created avctx.
Proof. intros Hm Hn (_ & m' & Hm' & Hn'). congruence. Qed.

(** X1: [encode_init] returns 0, -1, [AVERROR(EINVAL)] or
    [AVERROR(ENOMEM)] and nothing else: 0 exactly when the channels and the
    rate are supported, libspeex gives an encoder and both allocations
    succeed; -1 exactly when the configuration is supported and libspeex
    gives no encoder; [AVERROR(ENOMEM)] exactly when there is an encoder and
    one of the two allocations fails. *)
Theorem encode_init_return_code (avctx : avc) (s : ctx) (w : World) :
  let res := encode_init avctx s w in
  let n := extradata_alloc_size (init_priv res) in
  (init_ret res = Ret 0 \/ init_ret res = Ret (-1)
   \/ init_ret res = AVERROR EINVAL \/ init_ret res = AVERROR ENOMEM)
  /\ (init_ret res = Ret 0
      <-> codec_created avctx
          /\ av_malloc n <> None /\ avcodec_alloc_frame <> None)
  /\ (init_ret res = Ret (-1)
      <-> 1 <= AVCodecContext.channels avctx <= 2
          /\ exists m, select_mode (AVCodecContext.sample_rate avctx) = Some m
                       /\ is_null (speex_encoder_init m) = true)
  /\ (init_ret res = AVERROR ENOMEM
      <-> codec_created avctx
          /\ (av_malloc n = None \/ avcodec_alloc_frame = None)).
Proof.
  intros res n.
  destruct (encode_init_ways avctx s w)
    as [[Hch E]|[(Hch & Hm & E)|[(m & Hch & Hm & Hn & E)|(m & Hch & Hm & Hn)]]].
  - subst n res. rewrite E. unfold init_ret. cbn [fst snd].
    split; [auto|]. repeat split; try discriminate.
    + intros ((Hc & _) & _). contradiction.
    + intros (Hc & _). contradiction.
    + intros ((Hc & _) & _). contradiction.
  - assert (Hnc := not_created_without_mode avctx Hm).
    subst n res. rewrite E. unfold init_ret. cbn [fst snd].
    split; [auto|]. repeat split; try discriminate.
    + intros (Hc & _). contradiction.
    + intros (_ & m & Hm' & _). congruence.
    + intros (Hc & _). contradiction.
  - assert (Hnc := not_created_when_null avctx m Hm Hn).
    subst n res. rewrite E. unfold init_ret. cbn [fst snd].
    split; [auto|]. repeat split; try discriminate; try lia.
    + intros (Hc & _). contradiction.
    + exists m. now split.
    + intros (Hc & _). contradiction.
  - assert (Hc : codec_created avctx) by (split; [exact Hch|now exists m]).
    destruct (encode_init_whole avctx s w m Hch Hm Hn)
      as (lrate & answer & c & d & last_call & _ & _ & _ & _ & _ & _ & _ & _
          & _ & _ & _ & _ & Hcase).
    fold res in Hcase. fold n in Hcase.
    destruct (av_malloc n) as [buf|]; destruct avcodec_alloc_frame as [f|];
      destruct Hcase as (Hret & _); rewrite Hret;
      (split; [auto|]); repeat split; try discriminate; try assumption;
      try (intros (_ & [H|H]); discriminate);
      try (intros (_ & H1 & H2); congruence);
      try (intros (_ & m' & Hm' & Hn'); congruence);
      try lia; try (exists m; split; assumption);
      auto.
Qed.


End Outcome.


(** ** What [encode_init] reports and allocates *)

Lemma av_clip_range (a lo hi : Z) :
  lo <= hi ->
  lo <= av_clip a lo hi <= hi /\ (lo <= a <= hi -> av_clip a lo hi = a).
Proof.
  intros H. unfold av_clip.
  destruct (Z.ltb_spec a lo); [lia|].
  destruct (Z.gtb_spec a hi); lia.
Qed.

Lemma memcpy_prefix (dst src : list Z) :
  (length src <= length dst)%nat ->
  firstn (length src) (memcpy dst src (Z.of_nat (length src))) = src
  /\ length (memcpy dst src (Z.of_nat (length src))) = length dst.
Proof.
  intros H. unfold memcpy. rewrite Nat2Z.id, firstn_all. split.
  - rewrite firstn_app, firstn_all, Nat.sub_diag. cbn. apply app_nil_r.
  - rewrite length_app, length_skipn. lia.
Qed.

Section Reports.
Context {L : LibSpeex} {A : Libav}.

Import LibSpeexEncContext.

Local Abbreviation ctx := LibSpeexEncContext.t.
Local Abbreviation avc := AVCodecContext.t.

Lemma last_call_pushes_nothing (c : ext_call) :
  c = Call_speex_bits_init \/ c = Call_speex_encoder_destroy ->
  complexities_pushed [c] = []
  /\ forall want, last_answer want [c] = None.
Proof. intros [-> | ->]; split; reflexivity. Qed.

Lemma last_answer_prefix (want : speex_request -> bool) (m : SpeexMode)
                          (rate ch : Z) (l : list ext_call) :
  last_answer want
    (Call_speex_encoder_init m :: Call_speex_init_header rate ch m :: l)
  = last_answer want l.
Proof. cbn. destruct (last_answer want l); reflexivity. Qed.

(** X3: with a codec instance, [encode_init] pushes a complexity to the
    codec only when [compression_level] is above [FF_COMPRESSION_DEFAULT],
    and then once, clipped into 0..10 (a level that is already in 0..10 goes
    as it is); whether it pushed one or not, [avctx->compression_level] ends
    as the complexity that the codec answered to [SPEEX_GET_COMPLEXITY]. *)
Theorem complexity_is_clipped_and_read_back (avctx : avc) (s : ctx) (w : World) :
  codec_created avctx ->
  let res := encode_init avctx s w in
  let issued := new_calls w (init_world res) in
  let level := AVCodecContext.compression_level avctx in
  complexities_pushed issued
  = (if level >? FF_COMPRESSION_DEFAULT then [av_clip level 0 10] else [])
  /\ Forall (fun c => 0 <= c <= 10) (complexities_pushed issued)
  /\ (FF_COMPRESSION_DEFAULT < level -> 0 <= level <= 10 ->
      complexities_pushed issued = [level])
  /\ last_answer is_get_complexity issued
     = Some (AVCodecContext.compression_level (init_avctx res)).
Proof.
  intros (Hch & m & Hm & Hn) res issued level.
  destruct (encode_init_whole avctx s w m Hch Hm Hn)
    as (lrate & answer & c & d & last_call & Hcalls & (Hcp & Hgc & _) & Hlast
        & _ & Hlev & _).
  fold res in Hcalls, Hlev. fold level in Hcalls.
  destruct (last_call_pushes_nothing last_call Hlast) as [Hp0 Ha0].
  assert (Hissued := new_calls_app _ _ _ Hcalls). fold issued in Hissued.
  assert (Hpushed : complexities_pushed issued
                    = (if level >? FF_COMPRESSION_DEFAULT
                       then [av_clip level 0 10] else [])).
  { rewrite Hissued. cbn [complexities_pushed].
    rewrite !complexities_pushed_app, Hcp.
    change [Call_speex_encoder_ctl SPEEX_GET_COMPLEXITY c;
            Call_speex_encoder_ctl SPEEX_GET_LOOKAHEAD d;
            Call_speex_header_to_packet;
            Call_av_malloc (extradata_alloc_size (init_priv res));
            Call_avcodec_alloc_frame; Call_speex_header_free; last_call]
      with ([Call_speex_encoder_ctl SPEEX_GET_COMPLEXITY c;
             Call_speex_encoder_ctl SPEEX_GET_LOOKAHEAD d;
             Call_speex_header_to_packet;
             Call_av_malloc (extradata_alloc_size (init_priv res));
             Call_avcodec_alloc_frame; Call_speex_header_free]
            ++ [last_call]).
    rewrite complexities_pushed_app, Hp0. cbn.
    destruct (level >? FF_COMPRESSION_DEFAULT); reflexivity. }
  split; [exact Hpushed|]. split; [|split].
  - rewrite Hpushed. destruct (level >? FF_COMPRESSION_DEFAULT);
      constructor; [|constructor]. apply av_clip_range. lia.
  - intros Hgt Hin. rewrite Hpushed.
    destruct (Z.gtb_spec level FF_COMPRESSION_DEFAULT); [|lia].
    f_equal. apply av_clip_range; lia.
  - rewrite Hissued, Hlev.
    rewrite last_answer_prefix, !last_answer_app.
    change [Call_speex_encoder_ctl SPEEX_GET_COMPLEXITY c;
            Call_speex_encoder_ctl SPEEX_GET_LOOKAHEAD d;
            Call_speex_header_to_packet;
            Call_av_malloc (extradata_alloc_size (init_priv res));
            Call_avcodec_alloc_frame; Call_speex_header_free; last_call]
      with ([Call_speex_encoder_ctl SPEEX_GET_COMPLEXITY c;
             Call_speex_encoder_ctl SPEEX_GET_LOOKAHEAD d;
             Call_speex_header_to_packet;
             Call_av_malloc (extradata_alloc_size (init_priv res));
             Call_avcodec_alloc_frame; Call_speex_header_free]
            ++ [last_call]).
    rewrite last_answer_app, Ha0. reflexivity.
Qed.

(** X4: with a codec instance, the per-call input size that [encode_init]
    reports in [avctx->frame_size] is the frame size of the header that
    libspeex filled in for the mode, [avctx->delay] is what the codec
    answered to [SPEEX_GET_LOOKAHEAD], and the header that is left carries
    the configured [frames_per_packet] and is otherwise, but for [vbr] and
    [bitrate], as libspeex filled it in; this holds whether or not the
    allocations that follow succeed. *)
Theorem frame_size_and_delay_come_from_codec
        (avctx : avc) (s : ctx) (w : World) (m : SpeexMode) :
  1 <= AVCodecContext.channels avctx <= 2 ->
  select_mode (AVCodecContext.sample_rate avctx) = Some m ->
  is_null (speex_encoder_init m) = false ->
  let res := encode_init avctx s w in
  let first := speex_init_header (AVCodecContext.sample_rate avctx)
                 (AVCodecContext.channels avctx) m in
  let h := header (init_priv res) in
  AVCodecContext.frame_size (init_avctx res) = SpeexHeader.frame_size first
  /\ last_answer is_get_lookahead (new_calls w (init_world res))
     = Some (AVCodecContext.delay (init_avctx res))
  /\ SpeexHeader.frames_per_packet h = frames_per_packet s
  /\ frames_per_packet (init_priv res) = frames_per_packet s
  /\ SpeexHeader.frame_size h = SpeexHeader.frame_size first
  /\ SpeexHeader.rate h = SpeexHeader.rate first
  /\ SpeexHeader.mode h = SpeexHeader.mode first
  /\ SpeexHeader.nb_channels h = SpeexHeader.nb_channels first.
Proof.
  intros Hch Hm Hn res first h.
  destruct (encode_init_whole avctx s w m Hch Hm Hn)
    as (lrate & answer & c & d & last_call & Hcalls & (_ & _ & Hgl) & Hlast
        & _ & _ & Hd & Hfs & Hh & _ & (Hfpp & _) & _).
  fold res in Hcalls, Hd, Hfs, Hh, Hfpp. fold first in Hfs, Hh. fold h in Hh.
  destruct (last_call_pushes_nothing last_call Hlast) as [_ Ha0].
  split; [exact Hfs|]. split.
  - rewrite (new_calls_app _ _ _ Hcalls), Hd.
    rewrite last_answer_prefix, !last_answer_app.
    change [Call_speex_encoder_ctl SPEEX_GET_COMPLEXITY c;
            Call_speex_encoder_ctl SPEEX_GET_LOOKAHEAD d;
            Call_speex_header_to_packet;
            Call_av_malloc (extradata_alloc_size (init_priv res));
            Call_avcodec_alloc_frame; Call_speex_header_free; last_call]
      with ([Call_speex_encoder_ctl SPEEX_GET_COMPLEXITY c;
             Call_speex_encoder_ctl SPEEX_GET_LOOKAHEAD d;
             Call_speex_header_to_packet;
             Call_av_malloc (extradata_alloc_size (init_priv res));
             Call_avcodec_alloc_frame; Call_speex_header_free]
            ++ [last_call]).
    rewrite last_answer_app, Ha0. reflexivity.
  - split; [exact (f_equal SpeexHeader.frames_per_packet Hh)|].
    split; [exact Hfpp|].
    split; [exact (f_equal SpeexHeader.frame_size Hh)|].
    split; [exact (f_equal SpeexHeader.rate Hh)|].
    split; [exact (f_equal SpeexHeader.mode Hh)|].
    exact (f_equal SpeexHeader.nb_channels Hh).
Qed.

End Reports.

(** ** The header packet and the resources *)

Section Outputs.
Context {L : LibSpeex} {A : Libav}.

Import LibSpeexEncContext.

Local Abbreviation ctx := LibSpeexEncContext.t.
Local Abbreviation avc := AVCodecContext.t.

(** A return of 0 or of [AVERROR(ENOMEM)] comes from the allocation stage,
    so there was a codec instance. *)
Lemma encode_init_came_to_alloc (avctx : avc) (s : ctx) (w : World) :
  init_ret (encode_init avctx s w) = Ret 0
  \/ init_ret (encode_init avctx s w) = AVERROR ENOMEM ->
  exists m,
    1 <= AVCodecContext.channels avctx <= 2
    /\ select_mode (AVCodecContext.sample_rate avctx) = Some m
    /\ is_null (speex_encoder_init m) = false.
Proof.
  intros Hret.
  destruct (encode_init_ways avctx s w)
    as [[Hch E]|[(Hch & Hm & E)|[(m & Hch & Hm & Hn & E)|H]]];
    [rewrite E in Hret; destruct Hret; discriminate ..|exact H].
Qed.

(** X5: after a successful [encode_init], [avctx->extradata] begins with
    the header packet, which is the serialization of the header that the
    private context holds (with the bitrate read back and the configured
    [frames_per_packet]); [extradata_size] is the size of that packet and
    the block is longer by the padding.  [av_malloc] is taken to give
    blocks of the size asked for. *)
Theorem extradata_is_the_header_packet (avctx : avc) (s : ctx) (w : World) :
  (forall n buf, av_malloc n = Some buf -> length buf = Z.to_nat n) ->
  0 <= FF_INPUT_BUFFER_PADDING_SIZE ->
  let res := encode_init avctx s w in
  let packet := speex_header_to_packet (header (init_priv res)) in
  CInt.in_int (Z.of_nat (length packet) + FF_INPUT_BUFFER_PADDING_SIZE) ->
  init_ret res = Ret 0 ->
  exists buf,
    AVCodecContext.extradata (init_avctx res) = Some buf
    /\ firstn (length packet) buf = packet
    /\ AVCodecContext.extradata_size (init_avctx res)
       = Z.of_nat (length packet)
    /\ Z.of_nat (length buf)
       = Z.of_nat (length packet) + FF_INPUT_BUFFER_PADDING_SIZE.
Proof.
  intros Hmalloc Hpad res packet Hint Hret.
  destruct (encode_init_came_to_alloc avctx s w (or_introl Hret))
    as (m & Hch & Hm & Hn).
  destruct (encode_init_whole avctx s w m Hch Hm Hn)
    as (lrate & answer & c & d & last_call & _ & _ & _ & _ & _ & _ & _ & _
        & _ & _ & _ & _ & Hcase).
  fold res in Hcase. fold packet in Hcase.
  assert (Hsize : extradata_alloc_size (init_priv res)
                  = Z.of_nat (length packet) + FF_INPUT_BUFFER_PADDING_SIZE)
    by (unfold extradata_alloc_size; fold packet; now apply int_id).
  destruct (av_malloc (extradata_alloc_size (init_priv res))) as [buf|] eqn:Hb;
    [destruct avcodec_alloc_frame as [f|]|];
    try (destruct Hcase as (Hr & _); rewrite Hr in Hret; discriminate).
  destruct Hcase as (_ & _ & Hex & Hsz & _).
  assert (Hlen : length buf
                 = Z.to_nat (Z.of_nat (length packet)
                             + FF_INPUT_BUFFER_PADDING_SIZE))
    by (rewrite <- Hsize; now apply Hmalloc).
  destruct (memcpy_prefix buf packet) as [Hfirst Hsame]; [lia|].
  exists (memcpy buf packet (Z.of_nat (length packet))).
  split; [exact Hex|]. split; [exact Hfirst|]. split; [exact Hsz|].
  rewrite Hsame, Hlen. lia.
Qed.

(** X6: [encode_init] and [encode_close] balance.  A successful
    [encode_init] that started with nothing allocated holds the encoder,
    the extradata, the frame and the bit writer, and has freed the header
    packet it got from libspeex; [encode_close] after it returns 0 with four
    calls, leaves nothing allocated and both pointers of [avctx] cleared. *)
Theorem open_and_close_balance (avctx : avc) (s : ctx) (w : World) :
  live w = [] ->
  let opened := encode_init avctx s w in
  init_ret opened = Ret 0 ->
  let closed :=
    encode_close (init_avctx opened) (init_priv opened) (init_world opened) in
  live (init_world opened)
  = [Res_bits; Res_coded_frame; Res_extradata; Res_enc_state]
  /\ init_ret closed = Ret 0
  /\ live (init_world closed) = []
  /\ new_calls (init_world opened) (init_world closed)
     = [Call_speex_bits_destroy; Call_speex_encoder_destroy;
        Call_av_freep Res_coded_frame; Call_av_freep Res_extradata]
  /\ AVCodecContext.extradata (init_avctx closed) = None
  /\ AVCodecContext.coded_frame (init_avctx closed) = None
  /\ init_priv closed = init_priv opened.
Proof.
  intros Hlive opened Hret closed.
  destruct (encode_init_came_to_alloc avctx s w (or_introl Hret))
    as (m & Hch & Hm & Hn).
  destruct (encode_init_whole avctx s w m Hch Hm Hn)
    as (lrate & answer & c & d & last_call & _ & _ & _ & _ & _ & _ & _ & _
        & _ & _ & _ & _ & Hcase).
  fold opened in Hcase.
  destruct (av_malloc _) as [buf|]; [destruct avcodec_alloc_frame as [f|]|];
    try (destruct Hcase as (Hr & _); rewrite Hr in Hret; discriminate).
  destruct Hcase as (_ & _ & _ & _ & _ & Hl). rewrite Hlive in Hl. cbn in Hl.
  split; [exact Hl|]. subst closed. unfold encode_close.
  unfold init_ret, init_world, init_avctx, init_priv. cbn [fst snd].
  split; [reflexivity|]. cbn [live called release].
  fold (init_world opened). rewrite Hl. cbn.
  split; [reflexivity|]. split; [|repeat split].
  apply new_calls_app. log_norm. reflexivity.
Qed.


(** X8: whatever way it ends, [encode_init] leaves the settings of the
    caller in [avctx] (channels, sample rate, flags, quality, time base) and
    the options and counters of the private context as they were; in VBR
    mode it leaves [avctx->bit_rate] as it was too. *)
Theorem encode_init_keeps_configuration (avctx : avc) (s : ctx) (w : World) :
  let res := encode_init avctx s w in
  same_settings avctx (init_avctx res)
  /\ same_options s (init_priv res)
  /\ (qscale avctx = true ->
      AVCodecContext.bit_rate (init_avctx res)
      = AVCodecContext.bit_rate avctx).
Proof.
  intros res.
  destruct (encode_init_ways avctx s w)
    as [[Hch E]|[(Hch & Hm & E)|[(m & Hch & Hm & Hn & E)|(m & Hch & Hm & Hn)]]];
    try (subst res; rewrite E; repeat split).
  destruct (encode_init_whole avctx s w m Hch Hm Hn)
    as (lrate & answer & c & d & last_call & _ & _ & _ & _ & _ & _ & _ & _
        & Hset & Hopt & Hbr & _).
  repeat split; try apply Hset; try apply Hopt. exact Hbr.
Qed.

End Outputs.

(** The reference instance, a compression level of 42: 10 is pushed and
    read back. *)
Lemma complexity_is_clipped_and_read_back_witness :
  let res :=
    encode_init (A := Reference.libav) (Shortage.avctx_level 1 8000 42)
      (Reference.priv0 1) empty_world in
  complexities_pushed (new_calls empty_world (init_world res)) = [10]
  /\ last_answer is_get_complexity (new_calls empty_world (init_world res))
     = Some (AVCodecContext.compression_level (init_avctx res))
  /\ AVCodecContext.compression_level (init_avctx res) = 10.
Proof.
  intros res.
  destruct (complexity_is_clipped_and_read_back (L := Reference.speex)
              (A := Reference.libav) (Shortage.avctx_level 1 8000 42)
              (Reference.priv0 1) empty_world) as (Hp & _ & _ & Ha).
  - split; [cbn; lia|]. exists speex_nb_mode. split; reflexivity.
  - split; [exact Hp|]. split; [exact Ha|reflexivity].
Defined.

(** The reference instance at 16 kHz: frames of 320 samples, a delay of 40. *)
Lemma frame_size_and_delay_come_from_codec_witness :
  let res :=
    encode_init (A := Reference.libav) (Reference.avctx0 1 16000)
      (Reference.priv0 3) empty_world in
  AVCodecContext.frame_size (init_avctx res) = 320
  /\ AVCodecContext.delay (init_avctx res) = 40
  /\ SpeexHeader.frames_per_packet
       (LibSpeexEncContext.header (init_priv res)) = 3.
Proof.
  intros res.
  destruct (frame_size_and_delay_come_from_codec (L := Reference.speex)
              (A := Reference.libav) (Reference.avctx0 1 16000)
              (Reference.priv0 3) empty_world speex_wb_mode)
    as (Hfs & _ & Hfpp & _); try reflexivity.
  - cbn. lia.
  - split; [exact Hfs|]. split; [reflexivity|exact Hfpp].
Defined.

(** The reference instance: a header packet of 18 bytes in a block of 26. *)
Lemma extradata_is_the_header_packet_witness :
  let res :=
    encode_init (A := Reference.libav) (Reference.avctx0 2 8000)
      (Reference.priv0 2) empty_world in
  exists buf,
    AVCodecContext.extradata (init_avctx res) = Some buf
    /\ firstn 18 buf
       = @speex_header_to_packet Reference.speex
           (LibSpeexEncContext.header (init_priv res))
    /\ AVCodecContext.extradata_size (init_avctx res) = 18
    /\ Z.of_nat (length buf) = 18 + 8.
Proof.
  intros res.
  apply (extradata_is_the_header_packet (L := Reference.speex)
           (A := Reference.libav) (Reference.avctx0 2 8000)
           (Reference.priv0 2) empty_world).
  - intros n buf [= <-]. apply repeat_length.
  - cbn. lia.
  - vm_compute. split; discriminate.
  - reflexivity.
Defined.

Lemma open_and_close_balance_witness :
  let opened :=
    encode_init (A := Reference.libav) (Reference.avctx0 2 32000)
      (Reference.priv0 1) empty_world in
  let closed :=
    encode_close (init_avctx opened) (init_priv opened) (init_world opened) in
  live (init_world opened)
  = [Res_bits; Res_coded_frame; Res_extradata; Res_enc_state]
  /\ init_ret closed = Ret 0
  /\ live (init_world closed) = [].
Proof.
  intros opened closed.
  destruct (open_and_close_balance (L := Reference.speex)
              (A := Reference.libav) (Reference.avctx0 2 32000)
              (Reference.priv0 1) empty_world) as (H1 & H2 & H3 & _);
    try reflexivity.
  split; [exact H1|]. split; [exact H2|exact H3].
Defined.


(* ------------------------------------------------------------------ *)
(** * The diagnostics after [encode_init] *)

Section Labels.
Context {L : LibSpeex} {A : Libav}.
Variable ids : mode_ids.

Import LibSpeexEncContext.
Import String.StringSyntax.
Local Open Scope string_scope.
Local Open Scope Z_scope.

Local Abbreviation ctx := LibSpeexEncContext.t.
Local Abbreviation avc := AVCodecContext.t.

(** X9: the dump that a successful [encode_init] logs with
    [print_enc_params] is eight lines at debug level, and its rate-control
    line is chosen by [header.vbr] and the [abr] option, not by the branch
    that was taken: it says VBR, ABR and CBR for the policies VBR, ABR and
    CBR by bitrate, but for CBR by quality it says CBR only when [abr] is
    off, and ABR when [abr] is set without a bitrate.  libspeex is taken to
    fill in a header with [vbr] 0. *)
Theorem rate_control_label (avctx : avc) (s : ctx) (w : World) (m : SpeexMode) :
  1 <= AVCodecContext.channels avctx <= 2 ->
  select_mode (AVCodecContext.sample_rate avctx) = Some m ->
  is_null (speex_encoder_init m) = false ->
  SpeexHeader.vbr
    (speex_init_header (AVCodecContext.sample_rate avctx)
       (AVCodecContext.channels avctx) m) = 0 ->
  let res := encode_init avctx s w in
  init_ret res = Ret 0 ->
  let lines := print_enc_params ids (init_avctx res) (init_priv res) in
  length lines = 8%nat
  /\ Forall (fun l => log_at l = AV_LOG_DEBUG) lines
  /\ match spec_select_policy avctx s with
     | Policy_VBR => logs_rate_control "VBR" lines
     | Policy_ABR => logs_rate_control "ABR" lines
     | Policy_CBR_bitrate => logs_rate_control "CBR" lines
     | Policy_CBR_quality =>
         if abr s =? 0 then logs_rate_control "CBR" lines
         else logs_rate_control "ABR" lines
     end.
Proof.
  intros Hch Hm Hn Hvbr0 res _ lines.
  destruct (encode_init_whole avctx s w m Hch Hm Hn)
    as (lrate & answer & c & d & last_call & _ & _ & _ & Hv & _ & _ & _ & _
        & _ & (_ & _ & Habr & _) & _).
  fold res in Hv, Habr. rewrite Hvbr0 in Hv.
  subst lines. unfold print_enc_params, spec_select_policy, logs_rate_control.
  rewrite Hv, Habr.
  destruct (qscale avctx); cbn [negb Z.eqb].
  - split; [reflexivity|]. split; [repeat constructor|].
    cbn. auto.
  - destruct (abr s =? 0) eqn:Ha; cbn [negb andb].
    + rewrite Bool.andb_false_r.
      split; [reflexivity|]. split; [repeat constructor|].
      destruct (AVCodecContext.bit_rate avctx >? 0); cbn; auto.
    + rewrite Bool.andb_true_r.
      split; [reflexivity|]. split; [repeat constructor|].
      destruct (AVCodecContext.bit_rate avctx >? 0); cbn; auto.
Qed.

End Labels.

Section LabelsOnReference.
Import String.StringSyntax.
Local Open Scope string_scope.
Local Open Scope Z_scope.

(** The reference instance with [abr] set and no bitrate: the quality is
    pushed as for CBR, and the dump says ABR. *)
Lemma rate_control_label_witness :
  let a := Reference.avctx0 1 8000 in
  let s := Reference.priv_with 1 8 1 in
  let res := encode_init (A := Reference.libav) a s empty_world in
  spec_select_policy (A := Reference.libav) a s = Policy_CBR_quality
  /\ filter is_rate_request (requests (calls (init_world res)))
     = [SPEEX_SET_QUALITY 8; SPEEX_GET_BITRATE]
  /\ logs_rate_control "ABR"
       (print_enc_params Shortage.ids (init_avctx res) (init_priv res)).
Proof.
  intros a s res. split; [reflexivity|]. split; [reflexivity|].
  destruct (rate_control_label (L := Reference.speex) (A := Reference.libav)
              Shortage.ids a s empty_world speex_nb_mode)
    as (_ & _ & H); try reflexivity.
  - cbn. lia.
  - exact H.
Defined.

End LabelsOnReference.

(* ------------------------------------------------------------------ *)
(** * More about [encode_frame] *)

Section Frames.
Context {L : LibSpeex} {A : Libav}.

Import LibSpeexEncContext.

Local Abbreviation ctx := LibSpeexEncContext.t.
Local Abbreviation avc := AVCodecContext.t.

Lemma terminator_loop_static (n : nat) : forall s : ctx,
  same_static s (terminator_loop n s)
  /\ enc_state (terminator_loop n s) = enc_state s
  /\ next_pts (terminator_loop n s) = next_pts s.
Proof.
  induction n as [|n IH]; intros s; cbn [terminator_loop].
  - repeat split.
  - destruct (pkt_frame_count s <? frames_per_packet s); [|repeat split].
    destruct (IH (add_terminator s)) as ((H1 & H2 & H3 & H4 & H5) & H6 & H7).
    unfold same_static. rewrite H1, H2, H3, H4, H5, H6, H7. repeat split.
Qed.

(** Handling the input: what is passed to libspeex, and what is kept. *)
Lemma after_input_codec (avctx : avc) (s : ctx) (data : option (list Z)) :
  let s1 := after_input avctx s data in
  same_static s s1
  /\ match data with
     | Some x =>
         (enc_state s1, bits s1)
         = speex_frame (AVCodecContext.channels avctx)
             (SpeexHeader.frame_size (header s)) (enc_state s, bits s) x
     | None => enc_state s1 = enc_state s
     end.
Proof.
  intros s1. subst s1. unfold after_input, handle_input, speex_frame.
  destruct data as [x|].
  - cbn [fst snd].
    destruct (if AVCodecContext.channels avctx =? 2
              then speex_encode_stereo_int x
                     (SpeexHeader.frame_size (header s)) (bits s)
              else (x, bits s)) as [x1 b1].
    cbn [fst snd].
    destruct (speex_encode_int (enc_state s) x1 b1) as [st b2] eqn:E.
    cbn. repeat split.
  - destruct (pkt_frame_count s =? 0); [repeat split|].
    unfold add_terminators.
    destruct (terminator_loop_static
                (Z.to_nat (frames_per_packet s - pkt_frame_count s)) s)
      as (H1 & H2 & _).
    split; assumption.
Qed.

(** One call on a ready context: the context is ready again, what is
    static is kept, and of [avctx] only [coded_frame] may have changed. *)
Lemma ready_preserved (avctx : avc) (s : ctx) buf data :
  ready avctx s ->
  let r := encode_frame avctx s buf data in
  ready (avctx_after r) (priv_after r)
  /\ same_static s (priv_after r)
  /\ (exists f, avctx_after r = AVCodecContext.set_coded_frame avctx f).
Proof.
  intros Hr r.
  assert (Hfpp := ready_fpp_int avctx s Hr).
  assert (Hin := after_input_ready avctx s data Hr).
  destruct (after_input_codec avctx s data) as [Hst _].
  set (s1 := after_input avctx s data) in *.
  destruct Hin as (_ & Hf1 & Hdata).
  destruct Hr as (Hc & Hs & Hfs & Hmax & Hcf).
  set (fs := AVCodecContext.frame_size avctx) in *.
  change CInt.INT_MAX with 2147483647 in *.
  destruct (AVCodecContext.coded_frame avctx) as [f0|] eqn:Hf0;
    [clear Hcf|contradiction].
  assert (Heta : avctx = AVCodecContext.set_coded_frame avctx (Some f0))
    by (rewrite <- Hf0; destruct avctx; reflexivity).
  assert (Hstamp : exists v,
             stamped avctx s1
             = AVCodecContext.set_coded_frame avctx (Some {| pts := v |})).
  { unfold stamped, set_coded_frame_pts. rewrite Hf0. eexists; reflexivity. }
  assert (Hclosed : forall b,
             ready (stamped avctx s1) (packet_closed s1 b)
             /\ same_static s (packet_closed s1 b)).
  { intros b. destruct Hstamp as [v ->]. split.
    - unfold ready, packet_closed. cbn. rewrite Hf1. fold fs.
      repeat split; try lia. discriminate.
    - exact Hst. }
  destruct (encode_frame_cases avctx s buf data (proj1 Hfpp))
    as [(He & _ & _ & _ & _ & Hp & Ha)
       |[(He & _ & _ & _ & _ & Hp & Ha)|(Hne & _ & _ & _ & Hp & Ha)]];
    fold s1 r in Hp, Ha; rewrite Hp, Ha.
  - destruct (Hclosed (speex_bits_reset (bits s1))) as [H1 H2].
    split; [exact H1|]. split; [exact H2|].
    destruct Hstamp as [v ->]. eexists; reflexivity.
  - destruct (Hclosed (bits s1)) as [H1 H2].
    split; [exact H1|]. split; [exact H2|].
    destruct Hstamp as [v ->]. eexists; reflexivity.
  - fold s1 in Hne. split; [|split; [exact Hst|exists (Some f0); exact Heta]].
    unfold ready. rewrite Hf1, Hf0. fold fs.
    change CInt.INT_MAX with 2147483647.
    destruct data as [x|].
    + destruct Hdata as [Hc1 Hsc1]. rewrite Hc1, Hsc1, Hs in *.
      repeat split; try lia. discriminate.
    + destruct Hdata as [Hidle Hpend].
      destruct (Z.eq_dec (pkt_frame_count s) 0) as [Hz|Hnz].
      * rewrite (Hidle Hz). repeat split; try lia; try assumption.
        discriminate.
      * destruct (Hpend Hnz) as [Hc1 _]. contradiction.
Qed.

Lemma same_static_trans (s1 s2 s3 : ctx) :
  same_static s1 s2 -> same_static s2 s3 -> same_static s1 s3.
Proof.
  intros (a1 & a2 & a3 & a4 & a5) (b1 & b2 & b3 & b4 & b5).
  unfold same_static. rewrite b1, b2, b3, b4, b5. repeat split; assumption.
Qed.

(** X10: [encode_frame] keeps the contexts ready.  From a ready context
    (as a successful [encode_init] leaves it), before every call of any run
    and at its end, fewer frames are pending than make a packet and
    [pkt_sample_count] is [frame_size] times their number; the header, the
    options and [frames_per_packet] are never written, and of [avctx] only
    the frame with the timestamp is. *)
Theorem ready_is_kept (avctx : avc) (s : ctx) (cs : list call) :
  ready avctx s ->
  let last := run_end avctx s cs in
  Forall (fun st => ready (before_avctx st) (before_priv st)) (steps avctx s cs)
  /\ ready (fst last) (snd last)
  /\ same_static s (snd last)
  /\ (exists f, fst last = AVCodecContext.set_coded_frame avctx f).
Proof.
  revert avctx s. induction cs as [|c cs IH]; intros avctx s Hr last.
  - subst last. cbn. split; [constructor|]. split; [exact Hr|].
    split; [repeat split|].
    exists (AVCodecContext.coded_frame avctx). destruct avctx; reflexivity.
  - subst last. cbn [steps run_end].
    destruct (ready_preserved avctx s (buf_size c) (data c) Hr)
      as (Hr' & Hst & f & Hf).
    destruct (IH _ _ Hr') as (H1 & H2 & H3 & f' & Hf').
    split; [constructor; [exact Hr|exact H1]|].
    split; [exact H2|]. split; [exact (same_static_trans _ _ _ Hst H3)|].
    exists f'. rewrite Hf', Hf. reflexivity.
Qed.

End Frames.

(** The reference encoder after [encode_init], three frames per packet. *)
Lemma ready_is_kept_witness :
  let a := fst (Reference.opened 2 8000 3) in
  let s := snd (Reference.opened 2 8000 3) in
  let c := {| buf_size := 100; data := Some [1; 2; 3; 4] |} in
  let eos := {| buf_size := 1; data := None |} in
  let last := run_end (A := Reference.libav) a s [c; c; eos; c; c; c; c] in
  ready (fst last) (snd last)
  /\ LibSpeexEncContext.pkt_frame_count (snd last) = 1.
Proof.
  intros a s c eos last. split; [|reflexivity].
  apply (ready_is_kept (L := Reference.speex) (A := Reference.libav) a s
           [c; c; eos; c; c; c; c]).
  unfold ready. vm_compute. repeat split; discriminate.
Defined.

(* ------------------------------------------------------------------ *)
(** * Runs of [encode_frame]: the sample clock and the packet *)

Section FrameRuns.
Context {L : LibSpeex} {A : Libav}.

Import LibSpeexEncContext.

Local Abbreviation ctx := LibSpeexEncContext.t.
Local Abbreviation avc := AVCodecContext.t.

Lemma frames_fed_cons (c : call) (cs : list call) :
  frames_fed (c :: cs)
  = (if non_null (data c) then 1 else 0) + frames_fed cs.
Proof.
  unfold frames_fed. cbn [filter].
  destruct (non_null (data c)); cbn [length]; lia.
Qed.

(** One call moves the reach of the clock by the frame it was given. *)
Lemma reach_step (avctx : avc) (s : ctx) buf data :
  ready avctx s ->
  clock_in_range avctx s 1 ->
  let r := encode_frame avctx s buf data in
  clock_reach (priv_after r)
  = clock_reach s
    + (if non_null data then AVCodecContext.frame_size avctx else 0).
Proof.
  intros Hr Hclock r.
  assert (Hfpp := ready_fpp_int avctx s Hr).
  assert (Hin := after_input_ready avctx s data Hr).
  set (s1 := after_input avctx s data) in *.
  destruct Hin as (Hn1 & Hf1 & Hdata).
  destruct Hr as (Hc & Hs & Hfs & Hmax & Hcf).
  destruct Hclock as (Hd & Hlo & Hhi).
  set (fs := AVCodecContext.frame_size avctx) in *.
  change (Z.of_nat 1) with 1 in Hhi.
  assert (Hclosed : forall b,
             pkt_sample_count s1
             = pkt_sample_count s + (if non_null data then fs else 0) ->
             clock_reach (packet_closed s1 b)
             = clock_reach s + (if non_null data then fs else 0)).
  { intros b Hsc. unfold clock_reach, packet_closed. cbn.
    rewrite Hn1, Hsc, int64_id; [lia|].
    unfold CInt.in_int64. destruct (non_null data); nia. }
  assert (Hsc : pkt_frame_count s1 = frames_per_packet s ->
                pkt_sample_count s1
                = pkt_sample_count s + (if non_null data then fs else 0)).
  { intros He. destruct data as [x|]; cbn [non_null].
    - apply Hdata.
    - destruct Hdata as [Hidle Hpend].
      destruct (Z.eq_dec (pkt_frame_count s) 0) as [Hz|Hnz].
      + rewrite (Hidle Hz) in He. lia.
      + destruct (Hpend Hnz) as [_ ->]. lia. }
  destruct (encode_frame_cases avctx s buf data (proj1 Hfpp))
    as [(He & _ & _ & _ & _ & Hp & _)
       |[(He & _ & _ & _ & _ & Hp & _)|(Hne & _ & _ & _ & Hp & _)]];
    fold s1 r in Hp; rewrite Hp.
  - apply Hclosed, Hsc, He.
  - apply Hclosed, Hsc, He.
  - fold s1 in Hne. unfold clock_reach. rewrite Hn1.
    destruct data as [x|]; cbn [non_null].
    + destruct Hdata as [_ ->]. lia.
    + destruct Hdata as [Hidle Hpend].
      destruct (Z.eq_dec (pkt_frame_count s) 0) as [Hz|Hnz].
      * rewrite (Hidle Hz). lia.
      * destruct (Hpend Hnz) as [Hc1 _]. contradiction.
Qed.

(** X11: the sample clock counts each frame of samples once.  Over any run
    from a ready context, while the clock stays inside [int64_t], [next_pts]
    plus the samples pending ends [frame_size] times the number of calls
    that carried samples above where it started: the padding of the end of
    the stream adds nothing, and a packet refused for its buffer takes
    nothing away. *)
Theorem sample_clock_counts_every_frame (avctx : avc) (s : ctx)
                                        (cs : list call) :
  ready avctx s ->
  clock_in_range avctx s (length cs) ->
  clock_reach (snd (run_end avctx s cs))
  = clock_reach s + AVCodecContext.frame_size avctx * frames_fed cs.
Proof.
  revert avctx s. induction cs as [|c cs IH]; intros avctx s Hr Hclock.
  - cbn. unfold frames_fed. cbn. lia.
  - cbn [run_end]. rewrite frames_fed_cons.
    set (r := encode_frame avctx s (buf_size c) (data c)).
    assert (Hfs : 0 < AVCodecContext.frame_size avctx) by apply Hr.
    assert (Hclock1 : clock_in_range avctx s 1).
    { destruct Hclock as (H1 & H2 & H3). repeat split; try assumption.
      cbn [length] in H3. nia. }
    destruct (ready_step avctx s (buf_size c) (data c) Hr Hclock1)
      as (Hr' & [f' Ha'] & Hmono & Hreach & _).
    assert (Hexact := reach_step avctx s (buf_size c) (data c) Hr Hclock1).
    fold r in Hr', Ha', Hmono, Hreach, Hexact.
    assert (Hfs' : AVCodecContext.frame_size (avctx_after r)
                   = AVCodecContext.frame_size avctx)
      by (rewrite Ha'; reflexivity).
    assert (Hclock' : clock_in_range (avctx_after r) (priv_after r)
                        (length cs)).
    { destruct Hclock as (H1 & H2 & H3). unfold clock_reach in Hreach.
      cbn [length] in H3. unfold clock_in_range. rewrite Hfs'.
      replace (AVCodecContext.delay (avctx_after r))
        with (AVCodecContext.delay avctx) by (rewrite Ha'; reflexivity).
      repeat split; [exact H1|lia|nia]. }
    rewrite (IH _ _ Hr' Hclock'), Hexact, Hfs'.
    destruct (non_null (data c)); lia.
Qed.

(** ** The frames of one packet *)

Lemma run_app (cs1 : list call) : forall (avctx : avc) (s : ctx) cs2,
  run avctx s (cs1 ++ cs2)
  = run avctx s cs1
    ++ run (fst (run_end avctx s cs1)) (snd (run_end avctx s cs1)) cs2.
Proof.
  induction cs1 as [|c cs1 IH]; intros avctx s cs2; [reflexivity|].
  cbn [app run run_end]. rewrite IH. reflexivity.
Qed.

Lemma feed_app (bufs : list Z) : forall (xs : list (list Z)) b x,
  length bufs = length xs ->
  feed (bufs ++ [b]) (xs ++ [x])
  = feed bufs xs ++ [{| buf_size := b; data := Some x |}].
Proof.
  induction bufs as [|b0 bufs IH]; intros [|x0 xs] b x Hlen;
    try discriminate; [reflexivity|].
  unfold feed in *. cbn [app combine map]. rewrite IH; [reflexivity|].
  cbn in Hlen. lia.
Qed.

(** Frames that do not fill the packet: each call gives "no packet yet"
    and passes its frame to libspeex, on the state and the bit writer that
    the call before left. *)
Lemma feed_partial (xs : list (list Z)) :
  forall (bufs : list Z) (avctx : avc) (s : ctx),
  ready avctx s ->
  length bufs = length xs ->
  pkt_frame_count s + Z.of_nat (length xs) < frames_per_packet s ->
  let last := run_end avctx s (feed bufs xs) in
  Forall (fun r => no_packet r = true) (run avctx s (feed bufs xs))
  /\ fst last = avctx
  /\ ready avctx (snd last)
  /\ same_static s (snd last)
  /\ pkt_frame_count (snd last) = pkt_frame_count s + Z.of_nat (length xs)
  /\ (enc_state (snd last), bits (snd last))
     = fold_left (speex_frame (AVCodecContext.channels avctx)
                    (SpeexHeader.frame_size (header s)))
         xs (enc_state s, bits s).
Proof.
  induction xs as [|x xs IH]; intros bufs avctx s Hr Hlen Hroom last.
  - destruct bufs; [|discriminate]. subst last. cbn.
    repeat split; try assumption; try apply Hr; try lia. constructor.
  - destruct bufs as [|b bufs]; [discriminate|]. subst last.
    cbn [feed combine map fst snd run run_end buf_size data fold_left].
    change (map (fun bx => {| buf_size := fst bx; data := Some (snd bx) |})
              (combine bufs xs)) with (feed bufs xs).
    assert (Hfpp := ready_fpp_int avctx s Hr).
    assert (Hin := after_input_ready avctx s (Some x) Hr).
    destruct (after_input_codec avctx s (Some x)) as [Hst Hcodec].
    destruct (ready_preserved avctx s b (Some x) Hr) as (Hr' & _ & _).
    set (r := encode_frame avctx s b (Some x)) in *.
    set (s1 := after_input avctx s (Some x)) in *.
    destruct Hin as (_ & _ & Hc1 & _).
    cbn [length] in Hroom.
    destruct (encode_frame_cases avctx s b (Some x) (proj1 Hfpp))
      as [(He & _)|[(He & _)|(_ & _ & _ & Hno & Hp & Ha)]];
      [fold s1 in He; lia|fold s1 in He; lia|].
    fold s1 r in Hp, Ha, Hno. rewrite Hp, Ha in *.
    assert (Hroom' : pkt_frame_count s1 + Z.of_nat (length xs)
                     < frames_per_packet s1).
    { destruct Hst as (_ & -> & _). lia. }
    assert (Hlen' : length bufs = length xs) by (cbn in Hlen; lia).
    destruct (IH bufs avctx s1 Hr' Hlen' Hroom')
      as (H1 & H2 & H3 & H4 & H5 & H6).
    split; [constructor; assumption|]. split; [exact H2|].
    split; [exact H3|]. split; [exact (same_static_trans _ _ _ Hst H4)|].
    split; [rewrite H5, Hc1; cbn [length]; lia|].
    rewrite H6, Hcodec. destruct Hst as (-> & _). reflexivity.
Qed.

(** X12: a packet holds the frames of its calls, in their order.  From a
    ready context, the calls that do not yet fill the packet each give "no
    packet"; the call with the last frame writes out the bit writer that
    results from folding the frames, first to last, through libspeex
    (stereo step, then encoder) starting from the writer and the encoder
    state the context had; the encoder state is carried on, and the
    writer is reset if the packet went out and kept as it is if the buffer
    was refused; only the buffer size of the last call matters. *)
Theorem packet_holds_the_frames_in_order (avctx : avc) (s : ctx)
    (xs : list (list Z)) (x : list Z) (bufs : list Z) (b : Z) :
  ready avctx s ->
  length bufs = length xs ->
  pkt_frame_count s + Z.of_nat (length xs) + 1 = frames_per_packet s ->
  let packed :=
    fold_left (speex_frame (AVCodecContext.channels avctx)
                 (SpeexHeader.frame_size (header s)))
      (xs ++ [x]) (enc_state s, bits s) in
  let before := run_end avctx s (feed bufs xs) in
  let r := encode_frame (fst before) (snd before) b (Some x) in
  run avctx s (feed (bufs ++ [b]) (xs ++ [x]))
  = run avctx s (feed bufs xs) ++ [r]
  /\ Forall (fun r' => no_packet r' = true) (run avctx s (feed bufs xs))
  /\ enc_state (priv_after r) = fst packed
  /\ pkt_frame_count (priv_after r) = 0
  /\ (speex_bits_nbytes (snd packed) < b ->
      frame r = Some (fst (speex_bits_write (snd packed) b))
      /\ ret r = Ret (snd (speex_bits_write (snd packed) b))
      /\ bits (priv_after r) = speex_bits_reset (snd packed))
  /\ (b <= speex_bits_nbytes (snd packed) ->
      refused r = true /\ frame r = None
      /\ bits (priv_after r) = snd packed).
Proof.
  intros Hr Hlen Hfull packed before r.
  assert (Hroom : pkt_frame_count s + Z.of_nat (length xs)
                  < frames_per_packet s) by lia.
  destruct (feed_partial xs bufs avctx s Hr Hlen Hroom)
    as (Hno & Ha & Hr' & Hst & Hcount & Hfold).
  fold before in Ha, Hr', Hst, Hcount, Hfold.
  split.
  { rewrite feed_app by exact Hlen. rewrite run_app. reflexivity. }
  split; [exact Hno|].
  assert (Hfpp := ready_fpp_int _ _ Hr').
  rewrite <- Ha in Hr'.
  assert (Hin := after_input_ready (fst before) (snd before) (Some x) Hr').
  destruct (after_input_codec (fst before) (snd before) (Some x))
    as [Hst1 Hcodec].
  set (s1 := after_input (fst before) (snd before) (Some x)) in *.
  destruct Hin as (_ & _ & Hc1 & _).
  assert (Hpacked : (enc_state s1, bits s1) = packed).
  { subst packed. rewrite fold_left_app. cbn [fold_left].
    rewrite <- Hfold, Hcodec, Ha.
    destruct Hst as (-> & _). reflexivity. }
  assert (He1 : enc_state s1 = fst packed) by (rewrite <- Hpacked; reflexivity).
  assert (Hb1 : bits s1 = snd packed) by (rewrite <- Hpacked; reflexivity).
  assert (Hfull1 : pkt_frame_count s1 = frames_per_packet (snd before)).
  { destruct Hst as (_ & -> & _). lia. }
  destruct (encode_frame_cases (fst before) (snd before) b (Some x)
              (proj1 Hfpp))
    as [(_ & Hlt & Hem & _ & _ & Hp & _)
       |[(_ & Hge & Hem & Hre & _ & Hp & _)|(Hne & _)]];
    [fold s1 in Hlt; fold s1 r in Hp, Hem
    |fold s1 in Hge; fold s1 r in Hp, Hem, Hre
    |fold s1 in Hne; contradiction].
  - rewrite Hp. split; [exact He1|]. split; [reflexivity|].
    split; [|rewrite <- Hb1; lia].
    intros _. rewrite <- Hb1.
    destruct (encode_frame_as_output (fst before) (snd before) b (Some x)
                (proj1 Hfpp)) as [smp Hsmp].
    fold s1 r in Hsmp.
    assert (Hfull2 : pkt_frame_count s1 = frames_per_packet s1)
      by (rewrite Hfull1; symmetry; apply Hst1).
    rewrite Hsmp, (write_output_emitted (fst before) s1 b smp Hfull2 Hlt).
    repeat split.
  - rewrite Hp. split; [exact He1|]. split; [reflexivity|].
    split; [rewrite <- Hb1; lia|].
    intros _. rewrite <- Hb1. split; [exact Hre|]. split; [|reflexivity].
    unfold emitted in Hem. destruct (frame r); [discriminate|reflexivity].
Qed.

End FrameRuns.

(** The reference encoder after [encode_init] with three frames per packet,
    fed two calls with samples, the end of the stream, and four calls more,
    the first of them with a buffer of one byte. *)
Lemma sample_clock_counts_every_frame_witness :
  let a := fst (Reference.opened 2 8000 3) in
  let s := snd (Reference.opened 2 8000 3) in
  let c := {| buf_size := 100; data := Some [1; 2; 3; 4] |} in
  let small := {| buf_size := 1; data := Some [5; 6; 7; 8] |} in
  let eos := {| buf_size := 100; data := None |} in
  let cs := [c; c; eos; small; c; c; c] in
  clock_reach (snd (run_end (A := Reference.libav) a s cs))
  = clock_reach s + AVCodecContext.frame_size a * 6.
Proof.
  intros a s c small eos cs.
  apply (sample_clock_counts_every_frame
           (L := Reference.speex) (A := Reference.libav) a s cs).
  - unfold ready. vm_compute. repeat split; discriminate.
  - unfold clock_in_range. vm_compute. repeat split; discriminate.
Defined.

(** The same encoder fed the three frames of one packet. *)
Lemma packet_holds_the_frames_in_order_witness :
  let a := fst (Reference.opened 2 8000 3) in
  let s := snd (Reference.opened 2 8000 3) in
  let xs := [[1; 2; 3; 4]; [5; 6; 7; 8]] in
  let x := [9; 10; 11; 12] in
  let rs := run (L := Reference.speex) (A := Reference.libav) a s
              (feed ([0; 0] ++ [100]) (xs ++ [x])) in
  map no_packet rs = [true; true; false]
  /\ map (fun r => non_null (frame r)) rs = [false; false; true].
Proof.
  intros a s xs x rs.
  assert (Hready : ready a s)
    by (unfold ready; vm_compute; repeat split; discriminate).
  destruct (packet_holds_the_frames_in_order
              (L := Reference.speex) (A := Reference.libav)
              a s xs x [0; 0] 100 Hready eq_refl eq_refl)
    as (Hrun & _).
  subst rs. rewrite Hrun. vm_compute. split; reflexivity.
Defined.
